(** * Staff and project model of the company package (lab_5/src)

    A shallow embedding of the Python classes [Employee], [Manager],
    [Developer], [Salesperson], [Department], [Project] and [Company],
    followed by the properties proved about them.

    Python objects live in a store and are addressed by references, so
    that two departments can hold the same employee object and a method
    that raises half-way leaves behind whatever it had already written.
    A method is a function from the store to a new store and an outcome
    (a value or a raised exception).

    The interpreter is CPython 3.11 on glibc: a [float] is an IEEE 754
    double, [sum] adds from left to right, [str] follows Unicode 14 and
    [strftime] is the C library's.  Its limit on the number of digits of
    an int that is printed or read is lifted
    ([sys.set_int_max_str_digits(0)]), so that a message, a JSON text and
    a CSV row can be written for every int. *)

From Stdlib Require Import ZArith QArith Qpower String Ascii List Bool Lia SpecFloat.
From stdpp Require Import base option list.

Local Open Scope string_scope.
Local Open Scope Z_scope.
Local Set Warnings "-register-all".

(** ** Exceptions and outcomes *)

Inductive exn :=
| ValueError
| TypeError
| KeyError
| AttributeError
| OverflowError
| EmployeeNotFoundError
| DepartmentNotFoundError
| ProjectNotFoundError
| InvalidStatusError
| DuplicateIdError
| FileNotFoundError
| NoSuchObject.  (* a reference to no object of the method's class: cannot happen in Python *)

Definition exn_eqb (a b : exn) : bool :=
  match a, b with
  | ValueError, ValueError | TypeError, TypeError | KeyError, KeyError
  | AttributeError, AttributeError
  | OverflowError, OverflowError
  | EmployeeNotFoundError, EmployeeNotFoundError
  | DepartmentNotFoundError, DepartmentNotFoundError
  | ProjectNotFoundError, ProjectNotFoundError
  | InvalidStatusError, InvalidStatusError
  | DuplicateIdError, DuplicateIdError
  | FileNotFoundError, FileNotFoundError
  | NoSuchObject, NoSuchObject => true
  | _, _ => false
  end.

Inductive outcome (A : Type) :=
| Ret (a : A)
| Raise (e : exn).
Arguments Ret {A} a.
Arguments Raise {A} e.

Definition obind {A B} (m : outcome A) (k : A -> outcome B) : outcome B :=
  match m with
  | Ret a => k a
  | Raise e => Raise e
  end.

Declare Scope outcome_scope.
Delimit Scope outcome_scope with outcome.
Notation "x <~ c1 ;; c2" := (obind c1 (fun x => c2))
  (at level 100, c1 at next level, right associativity) : outcome_scope.
Notation "c1 ~~ c2" := (obind c1 (fun _ => c2))
  (at level 100, right associativity) : outcome_scope.

(** ** Python values *)

(** Numbers.  [int] is unbounded; [float] is an IEEE 754 double, with its
    signed zeros, infinities and NaN.  Python's [bool] is a subclass of
    [int] on which every operation of this program agrees with the ints 1
    and 0, so [True] and [False] are the numbers [PInt 1] and [PInt 0]. *)
Inductive pynum :=
| PInt (z : Z)
| PFloat (f : spec_float).

(** The values that [json.load] produces and [json.dump] accepts. A [dict]
    keeps its keys in insertion order. *)
Inductive pyval :=
| VNone
| VNum (n : pynum)
| VStr (s : string)
| VList (l : list pyval)
| VDict (d : list (string * pyval)).

Module Num.

(** The format of a double: 53 bits of precision, exponents below 1024. *)
Definition prec : Z := 53.
Definition emax : Z := 1024.

(** What a number stands for: a rational, an infinity, or no number. *)
Inductive value :=
| NaN
| Inf (negative : bool)
| Fin (q : Q).

Definition float_value (f : spec_float) : value :=
  match f with
  | S754_nan => NaN
  | S754_infinity s => Inf s
  | S754_zero _ => Fin 0
  | S754_finite s m e => Fin (inject_Z (cond_Zopp s (Z.pos m)) * 2 ^ e)
  end.

Definition val (n : pynum) : value :=
  match n with
  | PInt z => Fin (inject_Z z)
  | PFloat f => float_value f
  end.

(** The order of the values; NaN is below nothing and above nothing. *)
Definition lt (x y : value) : Prop :=
  match x, y with
  | Fin p, Fin q => (p < q)%Q
  | Inf true, Fin _ | Fin _, Inf false | Inf true, Inf false => True
  | _, _ => False
  end.

Definition value_ltb (x y : value) : bool :=
  match x, y with
  | Fin p, Fin q => negb (Qle_bool q p)
  | Inf true, Fin _ | Fin _, Inf false | Inf true, Inf false => true
  | _, _ => false
  end.

Definition value_eqb (x y : value) : bool :=
  match x, y with
  | Fin p, Fin q => Qeq_bool p q
  | Inf a, Inf b => Bool.eqb a b
  | _, _ => false
  end.

(** [a == b] and [a < b]: Python compares an int with a float exactly, by
    what they stand for, and two floats as IEEE 754 does. *)
Definition eqb (a b : pynum) : bool := value_eqb (val a) (val b).
Definition ltb (a b : pynum) : bool := value_ltb (val a) (val b).

(** [float(z)] for an int: the nearest double, ties to even; an int that
    rounds beyond the largest double is refused. *)
Definition of_int (z : Z) : outcome spec_float :=
  match binary_normalize prec emax z 0 false with
  | S754_infinity _ => Raise OverflowError
  | f => Ret f
  end.

(** The float operand that an arithmetic operation with a float makes of
    the other operand. *)
Definition as_float (a : pynum) : outcome spec_float :=
  match a with
  | PInt z => of_int z
  | PFloat f => Ret f
  end.

(** [float(a)] *)
Definition to_float (a : pynum) : outcome pynum :=
  (f <~ as_float a ;; Ret (PFloat f))%outcome.

(** [a + b]: an [int] when both are, a [float] otherwise. *)
Definition add (a b : pynum) : outcome pynum :=
  match a, b with
  | PInt x, PInt y => Ret (PInt (x + y))
  | _, _ =>
      (x <~ as_float a ;; y <~ as_float b ;;
       Ret (PFloat (SFadd prec emax x y)))%outcome
  end.

(** [a * b] *)
Definition mul (a b : pynum) : outcome pynum :=
  match a, b with
  | PInt x, PInt y => Ret (PInt (x * y))
  | _, _ =>
      (x <~ as_float a ;; y <~ as_float b ;;
       Ret (PFloat (SFmul prec emax x y)))%outcome
  end.

(** The float that the literal [n/d] written in decimal denotes, for ints
    [n] and [d] that are doubles themselves: [ratio 15 100] is [0.15]. *)
Definition ratio (n d : Z) : pynum :=
  PFloat (SFdiv prec emax (binary_normalize prec emax n 0 false)
                          (binary_normalize prec emax d 0 false)).

Definition zero : pynum := PInt 0.
Definition one : pynum := PInt 1.

End Num.

(** ** Strings

    A [str] is held as its UTF-8 encoding, so the strings that stand for
    a [str] are the well-formed ones (a [str] with a lone surrogate has no
    encoding and no string stands for it).  The characters of a string
    are its well-formed UTF-8 sequences; in a string that is not well
    formed, a byte that begins none counts as a character of its own,
    which is neither a space nor a digit (it is numbered from U+DC00,
    where no character is). *)

Module Utf8.

Local Open Scope N_scope.

Definition continuation (b : N) : bool := (128 <=? b) && (b <? 192).

Definition cp2 (a b : N) : N := (a - 192) * 64 + (b - 128).
Definition cp3 (a b c : N) : N := (a - 224) * 4096 + (b - 128) * 64 + (c - 128).
Definition cp4 (a b c d : N) : N :=
  (a - 240) * 262144 + (b - 128) * 4096 + (c - 128) * 64 + (d - 128).

Definition two (a b : N) : bool :=
  (194 <=? a) && (a <? 224) && continuation b.

Definition three (a b c : N) : bool :=
  (224 <=? a) && (a <? 240) && continuation b && continuation c
  && (2048 <=? cp3 a b c)
  && negb ((55296 <=? cp3 a b c) && (cp3 a b c <? 57344)).

Definition four (a b c d : N) : bool :=
  (240 <=? a) && (a <? 245) && continuation b && continuation c
  && continuation d
  && (65536 <=? cp4 a b c d) && (cp4 a b c d <? 1114112).

(** The characters of a byte sequence: the code point of each and the
    bytes that spell it. *)
Fixpoint characters (bs : list ascii) : list (N * list ascii) :=
  match bs with
  | [] => []
  | a :: bs1 =>
      let stray := (56320 + N_of_ascii a, [a]) :: characters bs1 in
      if N_of_ascii a <? 128 then (N_of_ascii a, [a]) :: characters bs1 else
      match bs1 with
      | b :: bs2 =>
          if two (N_of_ascii a) (N_of_ascii b)
          then (cp2 (N_of_ascii a) (N_of_ascii b), [a; b]) :: characters bs2
          else
          match bs2 with
          | c :: bs3 =>
              if three (N_of_ascii a) (N_of_ascii b) (N_of_ascii c)
              then (cp3 (N_of_ascii a) (N_of_ascii b) (N_of_ascii c),
                    [a; b; c]) :: characters bs3
              else
              match bs3 with
              | d :: bs4 =>
                  if four (N_of_ascii a) (N_of_ascii b) (N_of_ascii c)
                          (N_of_ascii d)
                  then (cp4 (N_of_ascii a) (N_of_ascii b) (N_of_ascii c)
                            (N_of_ascii d), [a; b; c; d]) :: characters bs4
                  else stray
              | [] => stray
              end
          | [] => stray
          end
      | [] => stray
      end
  end.

(** The code points of a string. *)
Definition code_points (s : string) : list N :=
  map fst (characters (list_ascii_of_string s)).

End Utf8.

(** ** Operations of the Python values *)

Module Py.

(** Truth value of an object: [None], zero and empty containers are false. *)
Definition truthy (v : pyval) : bool :=
  match v with
  | VNone => false
  | VNum n => negb (Num.eqb n Num.zero)
  | VStr s => negb (String.eqb s "")
  | VList l => match l with [] => false | _ => true end
  | VDict d => match d with [] => false | _ => true end
  end.

Fixpoint assoc (k : string) (d : list (string * pyval)) : option pyval :=
  match d with
  | [] => None
  | (k', v) :: d' => if String.eqb k k' then Some v else assoc k d'
  end.

(** [d[k] = v] on a dict: an existing key keeps its place. *)
Fixpoint dict_set (k : string) (v : pyval) (d : list (string * pyval))
  : list (string * pyval) :=
  match d with
  | [] => [(k, v)]
  | (k', v') :: d' =>
      if String.eqb k k' then (k', v) :: d' else (k', v') :: dict_set k v d'
  end.

(** [data[k]] for a string key [k]. *)
Definition getitem (data : pyval) (k : string) : outcome pyval :=
  match data with
  | VDict d => match assoc k d with Some v => Ret v | None => Raise KeyError end
  | _ => Raise TypeError
  end.

(** [data.get(k, default)] *)
Definition get (data : pyval) (k : string) (default : pyval) : outcome pyval :=
  match data with
  | VDict d => match assoc k d with Some v => Ret v | None => Ret default end
  | _ => Raise AttributeError
  end.

(** The one-character strings that iterating over a string gives. *)
Definition chars (s : string) : list pyval :=
  map (fun c => VStr (string_of_list_ascii (snd c)))
      (Utf8.characters (list_ascii_of_string s)).

(** The elements that [for x in v] and [list(v)] go through. *)
Definition iter (v : pyval) : outcome (list pyval) :=
  match v with
  | VList l => Ret l
  | VStr s => Ret (chars s)
  | VDict d => Ret (map (fun kv => VStr (fst kv)) d)
  | VNone | VNum _ => Raise TypeError
  end.

(** [v == s] for a string [s]. *)
Definition eq_str (v : pyval) (s : string) : bool :=
  match v with
  | VStr s' => String.eqb s' s
  | _ => false
  end.

(** [z == v] for an int [z]. *)
Definition eq_int (z : Z) (v : pyval) : bool :=
  match v with
  | VNum n => Num.eqb (PInt z) n
  | _ => false
  end.

(** Whether [hash(v)] is defined. *)
Definition hashable (v : pyval) : bool :=
  match v with
  | VList _ | VDict _ => false
  | _ => true
  end.

(** The characters that [str.strip()] removes: those of [str.isspace],
    which are the Unicode characters of bidirectional type WS, B or S and
    those of category Zs. *)
Definition is_space (c : N) : bool :=
  ((9 <=? c) && (c <=? 13) || (28 <=? c) && (c <=? 32)
   || (c =? 133) || (c =? 160) || (c =? 5760)
   || (8192 <=? c) && (c <=? 8202)
   || (c =? 8232) || (c =? 8233) || (c =? 8239) || (c =? 8287)
   || (c =? 12288))%N.

(** [not value.strip()] *)
Definition blank (s : string) : bool :=
  forallb is_space (Utf8.code_points s).

End Py.

(** ** Calendar dates

    The two calls the program makes on [datetime]: parsing with the format
    [%Y-%m-%d] and printing with the same format.  [strptime] follows the
    pattern CPython compiles for that format,
    [(\d\d\d\d)-(1[0-2]|0[1-9]|[1-9])-(3[01]|[12]\d|0[1-9]|[1-9]| [1-9])]
    with nothing after the day: [\d] is any decimal digit of Unicode, the
    digits written out are the ASCII ones.  [strftime] prints the year as
    the C library does, without padding. *)

Module Datetime.

Record date := mkDate { year : nat; month : nat; day : nat }.

(** Where the ten decimal digits of each script of Unicode 14 begin. *)
Definition digit_blocks : list N :=
  [48; 1632; 1776; 1984; 2406; 2534; 2662; 2790; 2918; 3046; 3174; 3302;
   3430; 3558; 3664; 3792; 3872; 4160; 4240; 6112; 6160; 6470; 6608; 6784;
   6800; 6992; 7088; 7232; 7248; 42528; 43216; 43264; 43472; 43504; 43600;
   44016; 65296; 66720; 68912; 69734; 69872; 69942; 70096; 70384; 70736;
   70864; 71248; 71360; 71472; 71904; 72016; 72784; 73040; 73120; 92768;
   92864; 93008; 120782; 120792; 120802; 120812; 120822; 123200; 123632;
   125264; 130032]%N.

(** The value of a character that [\d] matches, as [int] reads it. *)
Definition digit (c : N) : option nat :=
  match filter (fun b => (b <=? c) && (c <? b + 10))%N digit_blocks with
  | b :: _ => Some (N.to_nat (c - b))
  | [] => None
  end.

(** The value of a character in [0-9]. *)
Definition ascii_digit (c : N) : option nat :=
  if ((48 <=? c) && (c <=? 57))%N then Some (N.to_nat (c - 48)) else None.

Definition is_leap (y : nat) : bool :=
  ((y mod 4 =? 0) && (negb (y mod 100 =? 0) || (y mod 400 =? 0)))%nat.

Definition days_in_month (y m : nat) : nat :=
  match m with
  | 2 => if is_leap y then 29 else 28
  | 4 | 6 | 9 | 11 => 30
  | _ => 31
  end%nat.

(** The range check of the [datetime] constructor. *)
Definition valid (d : date) : bool :=
  ((1 <=? year d) && (year d <=? 9999) &&
   (1 <=? month d) && (month d <=? 12) &&
   (1 <=? day d) && (day d <=? days_in_month (year d) (month d)))%nat.

(** [\d\d\d\d] *)
Definition year_field (a b c d : N) : option nat :=
  match digit a, digit b, digit c, digit d with
  | Some a, Some b, Some c, Some d => Some (1000 * a + 100 * b + 10 * c + d)%nat
  | _, _, _, _ => None
  end.

(** [1[0-2]|0[1-9]|[1-9]] *)
Definition month_field (cs : list N) : option nat :=
  match cs with
  | [a] => match ascii_digit a with
           | Some a => if (1 <=? a)%nat then Some a else None
           | None => None
           end
  | [a; b] => match ascii_digit a, ascii_digit b with
              | Some 0%nat, Some b => if (1 <=? b)%nat then Some b else None
              | Some 1%nat, Some b => if (b <=? 2)%nat then Some (10 + b)%nat else None
              | _, _ => None
              end
  | _ => None
  end.

(** [3[01]|[12]\d|0[1-9]|[1-9]| [1-9]] *)
Definition day_field (cs : list N) : option nat :=
  match cs with
  | [a] => match ascii_digit a with
           | Some a => if (1 <=? a)%nat then Some a else None
           | None => None
           end
  | [a; b] =>
      if (a =? 32)%N
      then match ascii_digit b with
           | Some b => if (1 <=? b)%nat then Some b else None
           | None => None
           end
      else match ascii_digit a with
           | Some 0%nat =>
               match ascii_digit b with
               | Some b => if (1 <=? b)%nat then Some b else None
               | None => None
               end
           | Some 1%nat =>
               match digit b with Some b => Some (10 + b)%nat | None => None end
           | Some 2%nat =>
               match digit b with Some b => Some (20 + b)%nat | None => None end
           | Some 3%nat =>
               match ascii_digit b with
               | Some b => if (b <=? 1)%nat then Some (30 + b)%nat else None
               | None => None
               end
           | _ => None
           end
  | _ => None
  end.

(** The characters before the first ["-"], and those after it. *)
Fixpoint until_dash (cs : list N) : option (list N * list N) :=
  match cs with
  | [] => None
  | c :: cs' =>
      if (c =? 45)%N then Some ([], cs')
      else match until_dash cs' with
           | Some (tok, rest) => Some (c :: tok, rest)
           | None => None
           end
  end.

Definition parse (s : string) : option date :=
  match Utf8.code_points s with
  | y1 :: y2 :: y3 :: y4 :: dash :: rest =>
      if (dash =? 45)%N then
        match year_field y1 y2 y3 y4, until_dash rest with
        | Some y, Some (mtok, dtok) =>
            match month_field mtok, day_field dtok with
            | Some m, Some d =>
                let r := mkDate y m d in
                if valid r then Some r else None
            | _, _ => None
            end
        | _, _ => None
        end
      else None
  | _ => None
  end.

(** [datetime.strptime(value, "%Y-%m-%d")] *)
Definition strptime (value : pyval) : outcome date :=
  match value with
  | VStr s => match parse s with Some d => Ret d | None => Raise ValueError end
  | _ => Raise TypeError
  end.

Definition digit_char (n : nat) : ascii := ascii_of_nat (48 + n).

Definition two_digits (n : nat) : list ascii :=
  [digit_char (n / 10 mod 10); digit_char (n mod 10)]%nat.

(** A number below 10000 in decimal, as [%d] of C prints it. *)
Definition decimal (n : nat) : list ascii :=
  (if (1000 <=? n)%nat then [digit_char (n / 1000 mod 10)%nat] else [])
  ++ (if (100 <=? n)%nat then [digit_char (n / 100 mod 10)%nat] else [])
  ++ (if (10 <=? n)%nat then [digit_char (n / 10 mod 10)%nat] else [])
  ++ [digit_char (n mod 10)%nat].

(** [d.strftime("%Y-%m-%d")] *)
Definition strftime (d : date) : string :=
  string_of_list_ascii
    (decimal (year d) ++ "-"%char :: two_digits (month d)
       ++ "-"%char :: two_digits (day d)).

End Datetime.

(** ** Employees

    An employee object carries the attributes of [Employee] and, by its
    class, those of the subclass.  The attributes that a constructor or a
    setter validates have the type the validation guarantees; [department]
    is stored by [Employee.__init__] as it comes. *)

Inductive emp_class :=
| IsEmployee
| IsManager (bonus : pynum)
| IsDeveloper (tech_stack : list string) (seniority_level : string)
| IsSalesperson (commission_rate sales_volume : pynum).

Record employee := mkEmployee {
  emp_id : Z;
  emp_name : string;
  emp_department : pyval;
  emp_base_salary : pynum;
  emp_class_of : emp_class
}.

Definition with_id (v : Z) (e : employee) : employee :=
  mkEmployee v (emp_name e) (emp_department e) (emp_base_salary e) (emp_class_of e).
Definition with_name (v : string) (e : employee) : employee :=
  mkEmployee (emp_id e) v (emp_department e) (emp_base_salary e) (emp_class_of e).
Definition with_department (v : pyval) (e : employee) : employee :=
  mkEmployee (emp_id e) (emp_name e) v (emp_base_salary e) (emp_class_of e).
Definition with_base_salary (v : pynum) (e : employee) : employee :=
  mkEmployee (emp_id e) (emp_name e) (emp_department e) v (emp_class_of e).
Definition with_class (v : emp_class) (e : employee) : employee :=
  mkEmployee (emp_id e) (emp_name e) (emp_department e) (emp_base_salary e) v.

(** [employee.__class__.__name__] *)
Definition class_name (e : employee) : string :=
  match emp_class_of e with
  | IsEmployee => "Employee"
  | IsManager _ => "Manager"
  | IsDeveloper _ _ => "Developer"
  | IsSalesperson _ _ => "Salesperson"
  end.

(** ** The store

    One heap per class; a reference is the position of the object in its
    heap.  Lists held by an object ([Department.__employees],
    [Project.__team], [Company.__departments], [Company.__projects]) are
    lists of references. *)

Definition eref := nat.
Definition dref := nat.
Definition pref := nat.
Definition cref := nat.

Record department := mkDepartment {
  dept_name : string;
  dept_employees : list eref
}.

Record project := mkProject {
  proj_id : Z;
  proj_name : string;
  proj_description : pyval;
  proj_deadline : Datetime.date;
  proj_status : string;
  proj_team : list eref
}.

Record company := mkCompany {
  comp_name : string;
  comp_departments : list dref;
  comp_projects : list pref
}.

(** What a file holds: the value that [json.dump] wrote (and [json.load]
    reads back), or the rows given to a [csv.writer], first row first. *)
Inductive file :=
| JsonFile (data : pyval)
| CsvFile (rows : list (list pyval)).

Record store := mkStore {
  employees : list employee;
  departments : list department;
  projects : list project;
  companies : list company;
  files : list (string * file)
}.

Definition empty_store : store := mkStore [] [] [] [] [].

(** A computation reads and writes the store and ends with a value or a
    raised exception; what it wrote before raising stays written. *)
Definition M (A : Type) : Type := store -> store * outcome A.

Definition ret {A} (a : A) : M A := fun s => (s, Ret a).

Definition raise {A} (e : exn) : M A := fun s => (s, Raise e).

Definition bind {A B} (m : M A) (k : A -> M B) : M B :=
  fun s => match m s with
           | (s', Ret a) => k a s'
           | (s', Raise e) => (s', Raise e)
           end.

Definition lift {A} (o : outcome A) : M A := fun s => (s, o).

(** [try: m  except kinds: handler] *)
Definition try_except {A} (m : M A) (kinds : list exn) (handler : M A) : M A :=
  fun s => match m s with
           | (s', Ret a) => (s', Ret a)
           | (s', Raise e) =>
               if existsb (exn_eqb e) kinds then handler s' else (s', Raise e)
           end.

Declare Scope monad_scope.
Delimit Scope monad_scope with monad.
Notation "x <- c1 ;; c2" := (bind c1 (fun x => c2))
  (at level 100, c1 at next level, right associativity) : monad_scope.
Notation "c1 ;; c2" := (bind c1 (fun _ => c2))
  (at level 100, right associativity) : monad_scope.
Local Open Scope monad_scope.

(** [for x in l: body(x)] *)
Fixpoint for_each {A} (l : list A) (body : A -> M unit) : M unit :=
  match l with
  | [] => ret tt
  | x :: l' => body x ;; for_each l' body
  end.

(** [[f(x) for x in l]] *)
Fixpoint map_m {A B} (f : A -> M B) (l : list A) : M (list B) :=
  match l with
  | [] => ret []
  | x :: l' => y <- f x ;; ys <- map_m f l' ;; ret (y :: ys)
  end.

Definition of_option {A} (o : option A) : M A :=
  match o with
  | Some a => ret a
  | None => raise NoSuchObject
  end.

Definition read_employee (r : eref) : M employee :=
  fun s => of_option (employees s !! r) s.
Definition read_department (r : dref) : M department :=
  fun s => of_option (departments s !! r) s.
Definition read_project (r : pref) : M project :=
  fun s => of_option (projects s !! r) s.
Definition read_company (r : cref) : M company :=
  fun s => of_option (companies s !! r) s.

Definition write_employee (r : eref) (e : employee) : M unit :=
  fun s => (mkStore (<[r := e]> (employees s)) (departments s) (projects s) (companies s) (files s),
            Ret tt).
Definition write_department (r : dref) (d : department) : M unit :=
  fun s => (mkStore (employees s) (<[r := d]> (departments s)) (projects s) (companies s) (files s),
            Ret tt).
Definition write_project (r : pref) (p : project) : M unit :=
  fun s => (mkStore (employees s) (departments s) (<[r := p]> (projects s)) (companies s) (files s),
            Ret tt).
Definition write_company (r : cref) (c : company) : M unit :=
  fun s => (mkStore (employees s) (departments s) (projects s) (<[r := c]> (companies s)) (files s),
            Ret tt).

Definition new_employee (e : employee) : M eref :=
  fun s => (mkStore (employees s ++ [e]) (departments s) (projects s) (companies s) (files s),
            Ret (length (employees s))).
Definition new_department (d : department) : M dref :=
  fun s => (mkStore (employees s) (departments s ++ [d]) (projects s) (companies s) (files s),
            Ret (length (departments s))).
Definition new_project (p : project) : M pref :=
  fun s => (mkStore (employees s) (departments s) (projects s ++ [p]) (companies s) (files s),
            Ret (length (projects s))).
Definition new_company (c : company) : M cref :=
  fun s => (mkStore (employees s) (departments s) (projects s) (companies s ++ [c]) (files s),
            Ret (length (companies s))).

(** *** Files

    A file system that accepts every name.  [json.dump] followed by
    [json.load] gives back the value that was written. *)

Fixpoint file_get (name : string) (fs : list (string * file)) : option file :=
  match fs with
  | [] => None
  | (n, f) :: fs' => if String.eqb name n then Some f else file_get name fs'
  end.

Fixpoint file_set (name : string) (f : file) (fs : list (string * file))
  : list (string * file) :=
  match fs with
  | [] => [(name, f)]
  | (n, f') :: fs' =>
      if String.eqb name n then (n, f) :: fs' else (n, f') :: file_set name f fs'
  end.

Definition write_file (filename : string) (f : file) : M unit :=
  fun s => (mkStore (employees s) (departments s) (projects s) (companies s)
              (file_set filename f (files s)),
            Ret tt).

(** [with open(filename, 'w') as f: json.dump(data, f)] *)
Definition json_dump (data : pyval) (filename : string) : M unit :=
  write_file filename (JsonFile data).

(** [with open(filename, 'r') as f: data = json.load(f)].  A file of CSV
    rows is not a JSON text. *)
Definition json_load (filename : string) : M pyval :=
  fun s => match file_get filename (files s) with
           | Some (JsonFile data) => (s, Ret data)
           | Some (CsvFile _) => (s, Raise ValueError)
           | None => (s, Raise FileNotFoundError)
           end.

(** [open(filename, 'w', newline='')] followed by [csv.writer(f)] *)
Definition csv_open (filename : string) : M unit :=
  write_file filename (CsvFile []).

(** [writer.writerow(row)] on the writer of [filename] *)
Definition csv_writerow (filename : string) (row : list pyval) : M unit :=
  fun s => match file_get filename (files s) with
           | Some (CsvFile rows) => write_file filename (CsvFile (rows ++ [row])) s
           | _ => (s, Raise NoSuchObject)
           end.

Local Open Scope outcome_scope.

(** A validator returns the value it accepted, at the type it checked. *)

Module Employee.

Definition _validate_id (value : pyval) : outcome Z :=
  match value with
  | VNum (PInt z) => if z <=? 0 then Raise ValueError else Ret z
  | _ => Raise ValueError
  end.

Definition _validate_name (value : pyval) : outcome string :=
  match value with
  | VStr s => if Py.blank s then Raise ValueError else Ret s
  | _ => Raise ValueError
  end.

Definition _validate_base_salary (value : pyval) : outcome pynum :=
  match value with
  | VNum n => if Num.ltb n Num.zero then Raise ValueError else Ret n
  | _ => Raise ValueError
  end.

(** [Employee.__init__]: the attributes of the object it leaves, or the
    exception of the first validation that fails. *)
Definition __init__ (id name department base_salary : pyval) : outcome employee :=
  i <~ _validate_id id ;;
  n <~ _validate_name name ;;
  b <~ _validate_base_salary base_salary ;;
  Ret (mkEmployee i n department b IsEmployee).

(** The property setters: validate, then assign. *)
Definition set_id (self : eref) (value : pyval) : M unit :=
  v <- lift (_validate_id value) ;;
  e <- read_employee self ;;
  write_employee self (with_id v e).

Definition set_name (self : eref) (value : pyval) : M unit :=
  v <- lift (_validate_name value) ;;
  e <- read_employee self ;;
  write_employee self (with_name v e).

Definition set_department (self : eref) (value : pyval) : M unit :=
  v <- lift (match value with
             | VStr s => if Py.blank s then Raise ValueError else Ret s
             | _ => Raise ValueError
             end) ;;
  e <- read_employee self ;;
  write_employee self (with_department (VStr v) e).

Definition set_base_salary (self : eref) (value : pyval) : M unit :=
  v <- lift (_validate_base_salary value) ;;
  x <- lift (Num.to_float v) ;;
  e <- read_employee self ;;
  write_employee self (with_base_salary x e).

Definition calculate_salary (e : employee) : pynum := emp_base_salary e.

Definition to_dict (e : employee) : list (string * pyval) :=
  [("type", VStr "Employee");
   ("id", VNum (PInt (emp_id e)));
   ("name", VStr (emp_name e));
   ("department", emp_department e);
   ("base_salary", VNum (emp_base_salary e))].

Definition from_dict (data : pyval) : outcome employee :=
  id <~ Py.getitem data "id" ;;
  name <~ Py.getitem data "name" ;;
  department <~ Py.getitem data "department" ;;
  base_salary <~ Py.getitem data "base_salary" ;;
  __init__ id name department base_salary.

End Employee.

Module Manager.

Definition _validate_bonus (value : pyval) : outcome pynum :=
  match value with
  | VNum n => if Num.ltb n Num.zero then Raise ValueError else Ret n
  | _ => Raise ValueError
  end.

Definition __init__ (id name department base_salary bonus : pyval)
  : outcome employee :=
  e <~ Employee.__init__ id name department base_salary ;;
  b <~ _validate_bonus bonus ;;
  Ret (with_class (IsManager b) e).

Definition set_bonus (self : eref) (value : pyval) : M unit :=
  v <- lift (_validate_bonus value) ;;
  x <- lift (Num.to_float v) ;;
  e <- read_employee self ;;
  match emp_class_of e with
  | IsManager _ => write_employee self (with_class (IsManager x) e)
  | _ => raise NoSuchObject
  end.

Definition calculate_salary (e : employee) (bonus : pynum) : outcome pynum :=
  Num.add (emp_base_salary e) bonus.

Definition to_dict (e : employee) (bonus : pynum) : list (string * pyval) :=
  let base_dict := Employee.to_dict e in
  let base_dict := Py.dict_set "type" (VStr "Manager") base_dict in
  Py.dict_set "bonus" (VNum bonus) base_dict.

End Manager.

Module Developer.

Definition SENIORITY_COEFFICIENTS : list (string * pynum) :=
  [("junior", Num.ratio 1 1); ("middle", Num.ratio 3 2);
   ("senior", Num.ratio 2 1)].

Fixpoint coefficient (level : string) (table : list (string * pynum))
  : option pynum :=
  match table with
  | [] => None
  | (k, c) :: table' => if String.eqb level k then Some c else coefficient level table'
  end.

Definition _validate_seniority_level (value : pyval) : outcome string :=
  if negb (Py.hashable value) then Raise TypeError
  else match value with
       | VStr s => match coefficient s SENIORITY_COEFFICIENTS with
                   | Some _ => Ret s
                   | None => Raise ValueError
                   end
       | _ => Raise ValueError
       end.

Fixpoint all_skills (l : list pyval) : option (list string) :=
  match l with
  | [] => Some []
  | VStr s :: l' =>
      if Py.blank s then None
      else match all_skills l' with
           | Some ss => Some (s :: ss)
           | None => None
           end
  | _ :: _ => None
  end.

Definition _validate_tech_stack (value : pyval) : outcome (list string) :=
  match value with
  | VList l => match all_skills l with
               | Some ss => Ret ss
               | None => Raise ValueError
               end
  | _ => Raise ValueError
  end.

Definition __init__ (id name department base_salary tech_stack seniority_level : pyval)
  : outcome employee :=
  e <~ Employee.__init__ id name department base_salary ;;
  (* list(tech_stack) if tech_stack else [] *)
  _ <~ (if Py.truthy tech_stack then Py.iter tech_stack else Ret []) ;;
  level <~ _validate_seniority_level seniority_level ;;
  stack <~ _validate_tech_stack tech_stack ;;
  Ret (with_class (IsDeveloper stack level) e).

Definition set_seniority_level (self : eref) (value : pyval) : M unit :=
  v <- lift (_validate_seniority_level value) ;;
  e <- read_employee self ;;
  match emp_class_of e with
  | IsDeveloper stack _ => write_employee self (with_class (IsDeveloper stack v) e)
  | _ => raise NoSuchObject
  end.

Definition add_skill (self : eref) (new_skill : pyval) : M unit :=
  v <- lift (match new_skill with
             | VStr s => if Py.blank s then Raise ValueError else Ret s
             | _ => Raise ValueError
             end) ;;
  e <- read_employee self ;;
  match emp_class_of e with
  | IsDeveloper stack level =>
      if existsb (String.eqb v) stack then ret tt
      else write_employee self (with_class (IsDeveloper (stack ++ [v]) level) e)
  | _ => raise NoSuchObject
  end.

Definition calculate_salary (e : employee) (seniority_level : string)
  : outcome pynum :=
  match coefficient seniority_level SENIORITY_COEFFICIENTS with
  | Some c => Num.mul (emp_base_salary e) c
  | None => Raise KeyError
  end.

Definition to_dict (e : employee) (tech_stack : list string) (seniority_level : string)
  : list (string * pyval) :=
  let base_dict := Employee.to_dict e in
  let base_dict := Py.dict_set "type" (VStr "Developer") base_dict in
  let base_dict := Py.dict_set "tech_stack" (VList (map VStr tech_stack)) base_dict in
  Py.dict_set "seniority_level" (VStr seniority_level) base_dict.

End Developer.

Module Salesperson.

Definition _validate_commission_rate (value : pyval) : outcome pynum :=
  match value with
  | VNum n =>
      if Num.ltb n Num.zero || Num.ltb Num.one n then Raise ValueError else Ret n
  | _ => Raise ValueError
  end.

Definition _validate_sales_volume (value : pyval) : outcome pynum :=
  match value with
  | VNum n => if Num.ltb n Num.zero then Raise ValueError else Ret n
  | _ => Raise ValueError
  end.

Definition __init__ (id name department base_salary commission_rate sales_volume : pyval)
  : outcome employee :=
  e <~ Employee.__init__ id name department base_salary ;;
  c <~ _validate_commission_rate commission_rate ;;
  s <~ _validate_sales_volume sales_volume ;;
  Ret (with_class (IsSalesperson c s) e).

Definition set_commission_rate (self : eref) (value : pyval) : M unit :=
  v <- lift (_validate_commission_rate value) ;;
  x <- lift (Num.to_float v) ;;
  e <- read_employee self ;;
  match emp_class_of e with
  | IsSalesperson _ volume =>
      write_employee self (with_class (IsSalesperson x volume) e)
  | _ => raise NoSuchObject
  end.

Definition set_sales_volume (self : eref) (value : pyval) : M unit :=
  v <- lift (_validate_sales_volume value) ;;
  x <- lift (Num.to_float v) ;;
  e <- read_employee self ;;
  match emp_class_of e with
  | IsSalesperson rate _ =>
      write_employee self (with_class (IsSalesperson rate x) e)
  | _ => raise NoSuchObject
  end.

Definition update_sales (self : eref) (new_sales : pyval) : M unit :=
  v <- lift (match new_sales with
             | VNum n => if Num.ltb n Num.zero then Raise ValueError else Ret n
             | _ => Raise ValueError
             end) ;;
  e <- read_employee self ;;
  match emp_class_of e with
  | IsSalesperson rate volume =>
      x <- lift (Num.add volume v) ;;
      write_employee self (with_class (IsSalesperson rate x) e)
  | _ => raise NoSuchObject
  end.

Definition calculate_salary (e : employee) (commission_rate sales_volume : pynum)
  : outcome pynum :=
  commission <~ Num.mul sales_volume commission_rate ;;
  Num.add (emp_base_salary e) commission.

Definition to_dict (e : employee) (commission_rate sales_volume : pynum)
  : list (string * pyval) :=
  let base_dict := Employee.to_dict e in
  let base_dict := Py.dict_set "type" (VStr "Salesperson") base_dict in
  let base_dict := Py.dict_set "commission_rate" (VNum commission_rate) base_dict in
  Py.dict_set "sales_volume" (VNum sales_volume) base_dict.

End Salesperson.

(** Method resolution: the call [emp.calculate_salary()] and [emp.to_dict()]
    run the method of the object's class. *)
Definition calculate_salary (e : employee) : outcome pynum :=
  match emp_class_of e with
  | IsEmployee => Ret (Employee.calculate_salary e)
  | IsManager bonus => Manager.calculate_salary e bonus
  | IsDeveloper _ level => Developer.calculate_salary e level
  | IsSalesperson rate volume => Salesperson.calculate_salary e rate volume
  end.

Definition to_dict (e : employee) : pyval :=
  VDict match emp_class_of e with
        | IsEmployee => Employee.to_dict e
        | IsManager bonus => Manager.to_dict e bonus
        | IsDeveloper stack level => Developer.to_dict e stack level
        | IsSalesperson rate volume => Salesperson.to_dict e rate volume
        end.

(** [Employee.__eq__] and [Employee.__lt__] between two employees. *)
Definition __eq__ (self other : employee) : bool := emp_id self =? emp_id other.

Definition __lt__ (self other : employee) : outcome bool :=
  a <~ calculate_salary self ;;
  b <~ calculate_salary other ;;
  Ret (Num.ltb a b).

(** *** Attributes

    The attributes of an employee object that a caller can read, the
    assignment [emp.<attribute> = value] through the property setter, and
    the read [emp.<attribute>].  [tech_stack] is a property without a
    setter. *)

Inductive field :=
| F_id | F_name | F_department | F_base_salary
| F_bonus | F_tech_stack | F_seniority_level
| F_commission_rate | F_sales_volume.

Definition setattr (f : field) (self : eref) (value : pyval) : M unit :=
  match f with
  | F_id => Employee.set_id self value
  | F_name => Employee.set_name self value
  | F_department => Employee.set_department self value
  | F_base_salary => Employee.set_base_salary self value
  | F_bonus => Manager.set_bonus self value
  | F_tech_stack => raise AttributeError
  | F_seniority_level => Developer.set_seniority_level self value
  | F_commission_rate => Salesperson.set_commission_rate self value
  | F_sales_volume => Salesperson.set_sales_volume self value
  end.

Definition getattr (f : field) (e : employee) : option pyval :=
  match f, emp_class_of e with
  | F_id, _ => Some (VNum (PInt (emp_id e)))
  | F_name, _ => Some (VStr (emp_name e))
  | F_department, _ => Some (emp_department e)
  | F_base_salary, _ => Some (VNum (emp_base_salary e))
  | F_bonus, IsManager bonus => Some (VNum bonus)
  | F_tech_stack, IsDeveloper stack _ => Some (VList (map VStr stack))
  | F_seniority_level, IsDeveloper _ level => Some (VStr level)
  | F_commission_rate, IsSalesperson rate _ => Some (VNum rate)
  | F_sales_volume, IsSalesperson _ volume => Some (VNum volume)
  | _, _ => None
  end.

(** The values that the specification names as invalid for an attribute:
    an id that is not positive, a string that is empty or all white space,
    a negative amount, a rate outside [0, 1], an unknown seniority level.
    NaN is below nothing and above nothing, so it is not among them. *)
Definition rejected (f : field) (value : pyval) : Prop :=
  match f with
  | F_id => exists z, value = VNum (PInt z) /\ z <= 0
  | F_name | F_department => exists s, value = VStr s /\ Py.blank s = true
  | F_base_salary | F_bonus | F_sales_volume =>
      exists n, value = VNum n /\ Num.lt (Num.val n) (Num.Fin 0)
  | F_commission_rate =>
      exists n, value = VNum n /\
        (Num.lt (Num.val n) (Num.Fin 0) \/ Num.lt (Num.Fin 1) (Num.val n))
  | F_seniority_level =>
      exists s, value = VStr s /\ s <> "junior" /\ s <> "middle" /\ s <> "senior"
  | F_tech_stack => False
  end.

(** The values of the right type that are not invalid. *)
Definition accepted (f : field) (value : pyval) : Prop :=
  match f with
  | F_id => exists z, value = VNum (PInt z) /\ 0 < z
  | F_name | F_department => exists s, value = VStr s /\ Py.blank s = false
  | F_base_salary | F_bonus | F_sales_volume =>
      exists n, value = VNum n /\ ~ Num.lt (Num.val n) (Num.Fin 0)
  | F_commission_rate =>
      exists n, value = VNum n /\
        ~ Num.lt (Num.val n) (Num.Fin 0) /\ ~ Num.lt (Num.Fin 1) (Num.val n)
  | F_seniority_level =>
      value = VStr "junior" \/ value = VStr "middle" \/ value = VStr "senior"
  | F_tech_stack => False
  end.

(** What the attribute holds after an accepted assignment: the setters of
    the amounts and of the rate store [float(value)], which raises
    OverflowError on an int beyond the doubles. *)
Definition stored (f : field) (value : pyval) : outcome pyval :=
  match f, value with
  | (F_base_salary | F_bonus | F_commission_rate | F_sales_volume), VNum n =>
      x <~ Num.to_float n ;; Ret (VNum x)
  | _, _ => Ret value
  end.

(** *** Lists of employee objects *)

(** [x == y] on two employee objects. *)
Definition employees_equal (x y : eref) : M bool :=
  a <- read_employee x ;;
  b <- read_employee y ;;
  ret (__eq__ a b).

(** [employee in l]: some element is the same object or is equal to it. *)
Fixpoint list_contains (l : list eref) (employee : eref) : M bool :=
  match l with
  | [] => ret false
  | x :: l' =>
      if Nat.eqb x employee then ret true
      else same <- employees_equal x employee ;;
           if same then ret true else list_contains l' employee
  end.

(** [l.remove(employee)]: drops the first such element. *)
Fixpoint list_remove (l : list eref) (employee : eref) : M (list eref) :=
  match l with
  | [] => raise ValueError
  | x :: l' =>
      if Nat.eqb x employee then ret l'
      else same <- employees_equal x employee ;;
           if same then ret l'
           else rest <- list_remove l' employee ;; ret (x :: rest)
  end.

(** The first element whose [id] equals [employee_id], as the loops of
    [find_employee_by_id] and [find_team_member] return it. *)
Fixpoint first_with_id (l : list eref) (employee_id : pyval) : M (option eref) :=
  match l with
  | [] => ret None
  | emp :: l' =>
      e <- read_employee emp ;;
      if Py.eq_int (emp_id e) employee_id then ret (Some emp)
      else first_with_id l' employee_id
  end.

(** [sum(emp.calculate_salary() for emp in l)], started from [acc]. *)
Fixpoint sum_salaries (l : list eref) (acc : pynum) : M pynum :=
  match l with
  | [] => ret acc
  | emp :: l' =>
      e <- read_employee emp ;;
      s <- lift (calculate_salary e) ;;
      acc' <- lift (Num.add acc s) ;;
      sum_salaries l' acc'
  end.

(** ** Department *)

Module Department.

Definition _validate_name (value : pyval) : outcome string :=
  match value with
  | VStr s => if Py.blank s then Raise ValueError else Ret s
  | _ => Raise ValueError
  end.

Definition __init__ (name : pyval) : M dref :=
  n <- lift (_validate_name name) ;;
  new_department (mkDepartment n []).

Definition add_employee (self : dref) (employee : eref) : M unit :=
  d <- read_department self ;;
  present <- list_contains (dept_employees d) employee ;;
  if present then raise ValueError
  else write_department self (mkDepartment (dept_name d) (dept_employees d ++ [employee])).

Definition find_employee_by_id (self : dref) (employee_id : pyval) : M (option eref) :=
  d <- read_department self ;;
  first_with_id (dept_employees d) employee_id.

Definition remove_employee (self : dref) (employee_id : pyval) : M unit :=
  found <- find_employee_by_id self employee_id ;;
  match found with
  | None => raise ValueError
  | Some employee =>
      d <- read_department self ;;
      rest <- list_remove (dept_employees d) employee ;;
      write_department self (mkDepartment (dept_name d) rest)
  end.

Definition get_employees (self : dref) : M (list eref) :=
  d <- read_department self ;; ret (dept_employees d).

Definition calculate_total_salary (self : dref) : M pynum :=
  d <- read_department self ;; sum_salaries (dept_employees d) Num.zero.

Definition __len__ (self : dref) : M nat :=
  d <- read_department self ;; ret (length (dept_employees d)).

Definition _employee_to_dict (employee : eref) : M pyval :=
  e <- read_employee employee ;; ret (to_dict e).

Definition _employee_from_dict (data : pyval) : M eref :=
  emp_type <- lift (Py.get data "type" (VStr "Employee")) ;;
  e <- lift
    (if Py.eq_str emp_type "Manager" then
       id <~ Py.getitem data "id" ;;
       name <~ Py.getitem data "name" ;;
       department <~ Py.getitem data "department" ;;
       base_salary <~ Py.getitem data "base_salary" ;;
       bonus <~ Py.get data "bonus" (VNum (PInt 0)) ;;
       Manager.__init__ id name department base_salary bonus
     else if Py.eq_str emp_type "Developer" then
       id <~ Py.getitem data "id" ;;
       name <~ Py.getitem data "name" ;;
       department <~ Py.getitem data "department" ;;
       base_salary <~ Py.getitem data "base_salary" ;;
       tech_stack <~ Py.get data "tech_stack" (VList []) ;;
       seniority_level <~ Py.get data "seniority_level" (VStr "junior") ;;
       Developer.__init__ id name department base_salary tech_stack seniority_level
     else if Py.eq_str emp_type "Salesperson" then
       id <~ Py.getitem data "id" ;;
       name <~ Py.getitem data "name" ;;
       department <~ Py.getitem data "department" ;;
       base_salary <~ Py.getitem data "base_salary" ;;
       commission_rate <~ Py.get data "commission_rate" (VNum (PInt 0)) ;;
       sales_volume <~ Py.get data "sales_volume" (VNum (PInt 0)) ;;
       Salesperson.__init__ id name department base_salary commission_rate sales_volume
     else Employee.from_dict data)%outcome ;;
  new_employee e.

Definition load_from_file_dict (data : pyval) : M dref :=
  name <- lift (Py.getitem data "name") ;;
  dept <- __init__ name ;;
  records <- lift (l <~ Py.get data "employees" (VList []) ;; Py.iter l)%outcome ;;
  for_each records (fun emp_data =>
    employee <- _employee_from_dict emp_data ;;
    add_employee dept employee) ;;
  ret dept.

Definition save_to_file (self : dref) (filename : string) : M unit :=
  d <- read_department self ;;
  records <- map_m _employee_to_dict (dept_employees d) ;;
  json_dump (VDict [("name", VStr (dept_name d)); ("employees", VList records)])
    filename.

Definition load_from_file (filename : string) : M dref :=
  data <- json_load filename ;;
  load_from_file_dict data.

End Department.

(** ** Project *)

Module Project.

Definition VALID_STATUSES : list string :=
  ["planning"; "active"; "completed"; "cancelled"].

Definition _validate_project_id (value : pyval) : outcome Z :=
  match value with
  | VNum (PInt z) => if z <=? 0 then Raise ValueError else Ret z
  | _ => Raise ValueError
  end.

Definition _validate_name (value : pyval) : outcome string :=
  match value with
  | VStr s => if Py.blank s then Raise ValueError else Ret s
  | _ => Raise ValueError
  end.

Definition _validate_deadline (value : pyval) : outcome Datetime.date :=
  Datetime.strptime value.

Definition _validate_status (value : pyval) : outcome string :=
  match value with
  | VStr s => if existsb (String.eqb s) VALID_STATUSES then Ret s
              else Raise InvalidStatusError
  | _ => Raise InvalidStatusError
  end.

Definition __init__ (project_id name description deadline status : pyval) : M pref :=
  p <- lift (i <~ _validate_project_id project_id ;;
             n <~ _validate_name name ;;
             d <~ _validate_deadline deadline ;;
             s <~ _validate_status status ;;
             Ret (mkProject i n description d s []))%outcome ;;
  new_project p.

Definition with_team (team : list eref) (p : project) : project :=
  mkProject (proj_id p) (proj_name p) (proj_description p) (proj_deadline p)
    (proj_status p) team.

Definition with_status (status : string) (p : project) : project :=
  mkProject (proj_id p) (proj_name p) (proj_description p) (proj_deadline p)
    status (proj_team p).

Definition add_team_member (self : pref) (employee : eref) : M unit :=
  p <- read_project self ;;
  present <- list_contains (proj_team p) employee ;;
  if present then raise ValueError
  else write_project self (with_team (proj_team p ++ [employee]) p).

Definition find_team_member (self : pref) (employee_id : pyval) : M (option eref) :=
  p <- read_project self ;;
  first_with_id (proj_team p) employee_id.

Definition remove_team_member (self : pref) (employee_id : pyval) : M unit :=
  found <- find_team_member self employee_id ;;
  match found with
  | None => raise ValueError
  | Some employee =>
      p <- read_project self ;;
      rest <- list_remove (proj_team p) employee ;;
      write_project self (with_team rest p)
  end.

Definition get_team (self : pref) : M (list eref) :=
  p <- read_project self ;; ret (proj_team p).

Definition get_team_size (self : pref) : M nat :=
  p <- read_project self ;; ret (length (proj_team p)).

Definition calculate_total_salary (self : pref) : M pynum :=
  p <- read_project self ;; sum_salaries (proj_team p) Num.zero.

Definition change_status (self : pref) (new_status : pyval) : M unit :=
  s <- lift (_validate_status new_status) ;;
  p <- read_project self ;;
  write_project self (with_status s p).

Definition _employee_to_dict (employee : eref) : M pyval :=
  e <- read_employee employee ;; ret (to_dict e).

Definition to_dict (self : pref) : M pyval :=
  p <- read_project self ;;
  team <- map_m _employee_to_dict (proj_team p) ;;
  ret (VDict [("project_id", VNum (PInt (proj_id p)));
              ("name", VStr (proj_name p));
              ("description", proj_description p);
              ("deadline", VStr (Datetime.strftime (proj_deadline p)));
              ("status", VStr (proj_status p));
              ("team", VList team)]).

Definition from_dict (data : pyval) : M pref :=
  args <- lift (project_id <~ Py.getitem data "project_id" ;;
                name <~ Py.getitem data "name" ;;
                description <~ Py.getitem data "description" ;;
                deadline <~ Py.getitem data "deadline" ;;
                status <~ Py.get data "status" (VStr "planning") ;;
                Ret (project_id, name, description, deadline, status))%outcome ;;
  let '(project_id, name, description, deadline, status) := args in
  __init__ project_id name description deadline status.

End Project.

(** ** Company *)

Module Company.

Definition __init__ (name : pyval) : M cref :=
  n <- lift (match name with
             | VStr s => if Py.blank s then Raise ValueError else Ret s
             | _ => Raise ValueError
             end) ;;
  new_company (mkCompany n [] []).

(** [Department] and [Project] define no [__eq__]: [x in l] holds when [x]
    is one of the objects of [l]. *)
Definition same_object_in (x : nat) (l : list nat) : bool := existsb (Nat.eqb x) l.

Fixpoint _find_department_in (l : list dref) (name : pyval) : M (option dref) :=
  match l with
  | [] => ret None
  | dept :: l' =>
      d <- read_department dept ;;
      if Py.eq_str name (dept_name d) then ret (Some dept)
      else _find_department_in l' name
  end.

Definition _find_department_by_name (self : cref) (name : pyval) : M (option dref) :=
  c <- read_company self ;; _find_department_in (comp_departments c) name.

Fixpoint _find_project_in (l : list pref) (project_id : pyval) : M (option pref) :=
  match l with
  | [] => ret None
  | proj :: l' =>
      p <- read_project proj ;;
      if Py.eq_int (proj_id p) project_id then ret (Some proj)
      else _find_project_in l' project_id
  end.

Definition _find_project_by_id (self : cref) (project_id : pyval) : M (option pref) :=
  c <- read_company self ;; _find_project_in (comp_projects c) project_id.

Definition add_department (self : cref) (department : dref) : M unit :=
  c <- read_company self ;;
  if same_object_in department (comp_departments c) then raise ValueError
  else write_company self
         (mkCompany (comp_name c) (comp_departments c ++ [department]) (comp_projects c)).

Fixpoint remove_first (x : nat) (l : list nat) : list nat :=
  match l with
  | [] => []
  | y :: l' => if Nat.eqb y x then l' else y :: remove_first x l'
  end.

Definition remove_department (self : cref) (department_name : pyval) : M unit :=
  found <- _find_department_by_name self department_name ;;
  match found with
  | None => raise DepartmentNotFoundError
  | Some department =>
      n <- Department.__len__ department ;;
      if (0 <? n)%nat then raise ValueError
      else c <- read_company self ;;
           write_company self
             (mkCompany (comp_name c) (remove_first department (comp_departments c))
                (comp_projects c))
  end.

Definition get_departments (self : cref) : M (list dref) :=
  c <- read_company self ;; ret (comp_departments c).

Definition add_project (self : cref) (project : pref) : M unit :=
  c <- read_company self ;;
  if same_object_in project (comp_projects c) then raise ValueError
  else
    p <- read_project project ;;
    found <- _find_project_by_id self (VNum (PInt (proj_id p))) ;;
    match found with
    | Some _ => raise DuplicateIdError
    | None =>
        write_company self
          (mkCompany (comp_name c) (comp_departments c) (comp_projects c ++ [project]))
    end.

Definition get_projects (self : cref) : M (list pref) :=
  c <- read_company self ;; ret (comp_projects c).

Fixpoint all_employees_of (l : list dref) : M (list eref) :=
  match l with
  | [] => ret []
  | dept :: l' =>
      es <- Department.get_employees dept ;;
      rest <- all_employees_of l' ;;
      ret (es ++ rest)%list
  end.

Definition get_all_employees (self : cref) : M (list eref) :=
  c <- read_company self ;; all_employees_of (comp_departments c).

Fixpoint find_employee_in (l : list dref) (employee_id : pyval) : M (option eref) :=
  match l with
  | [] => ret None
  | dept :: l' =>
      found <- Department.find_employee_by_id dept employee_id ;;
      match found with
      | Some employee => ret (Some employee)
      | None => find_employee_in l' employee_id
      end
  end.

Definition find_employee_by_id (self : cref) (employee_id : pyval) : M (option eref) :=
  c <- read_company self ;; find_employee_in (comp_departments c) employee_id.

Definition transfer_employee (self : cref) (employee_id from_dept to_dept : pyval)
  : M bool :=
  source_dept <- _find_department_by_name self from_dept ;;
  target_dept <- _find_department_by_name self to_dept ;;
  match source_dept with
  | None => raise DepartmentNotFoundError
  | Some source_dept =>
      match target_dept with
      | None => raise DepartmentNotFoundError
      | Some target_dept =>
          employee <- Department.find_employee_by_id source_dept employee_id ;;
          match employee with
          | None => raise EmployeeNotFoundError
          | Some employee =>
              Department.remove_employee source_dept employee_id ;;
              Department.add_employee target_dept employee ;;
              ret true
          end
      end
  end.

Definition assign_employee_to_project (self : cref) (employee_id project_id : pyval)
  : M bool :=
  employee <- find_employee_by_id self employee_id ;;
  match employee with
  | None => raise EmployeeNotFoundError
  | Some employee =>
      project <- _find_project_by_id self project_id ;;
      match project with
      | None => raise ProjectNotFoundError
      | Some project =>
          Project.add_team_member project employee ;;
          ret true
      end
  end.

(** [employee_project_count]: a dict from employee id to a count, in the
    order in which the ids were first met. *)
Fixpoint count_get (k : Z) (d : list (Z * Z)) : Z :=
  match d with
  | [] => 0
  | (k', n) :: d' => if k =? k' then n else count_get k d'
  end.

Fixpoint count_set (k : Z) (n : Z) (d : list (Z * Z)) : list (Z * Z) :=
  match d with
  | [] => [(k, n)]
  | (k', n') :: d' => if k =? k' then (k', n) :: d' else (k', n') :: count_set k n d'
  end.

Fixpoint count_team (team : list eref) (counts : list (Z * Z)) : M (list (Z * Z)) :=
  match team with
  | [] => ret counts
  | emp :: team' =>
      e <- read_employee emp ;;
      let emp_id := emp_id e in
      count_team team' (count_set emp_id (count_get emp_id counts + 1) counts)
  end.

Fixpoint count_projects (l : list pref) (counts : list (Z * Z)) : M (list (Z * Z)) :=
  match l with
  | [] => ret counts
  | proj :: l' =>
      team <- Project.get_team proj ;;
      counts' <- count_team team counts ;;
      count_projects l' counts'
  end.

Fixpoint collect_overloaded (self : cref) (items : list (Z * Z)) : M (list eref) :=
  match items with
  | [] => ret []
  | (emp_id, count) :: items' =>
      if 1 <? count then
        employee <- find_employee_by_id self (VNum (PInt emp_id)) ;;
        rest <- collect_overloaded self items' ;;
        match employee with
        | Some employee => ret (employee :: rest)
        | None => ret rest
        end
      else collect_overloaded self items'
  end.

Definition find_overloaded_employees (self : cref) : M (list eref) :=
  c <- read_company self ;;
  employee_project_count <- count_projects (comp_projects c) [] ;;
  collect_overloaded self employee_project_count.

Fixpoint count_member_of (l : list pref) (employee_id : pyval) : M Z :=
  match l with
  | [] => ret 0
  | proj :: l' =>
      found <- Project.find_team_member proj employee_id ;;
      rest <- count_member_of l' employee_id ;;
      ret (match found with Some _ => 1 + rest | None => rest end)
  end.

Definition check_employee_availability (self : cref) (employee_id : pyval) : M bool :=
  c <- read_company self ;;
  project_count <- count_member_of (comp_projects c) employee_id ;;
  ret (project_count <? 2).



(** One round of the innermost loop of [load_from_json]. *)
Definition relink (company : cref) (project : pref) (emp_data : pyval) : M unit :=
  emp_id <- lift (Py.get emp_data "id" VNone) ;;
  if Py.truthy emp_id then
    try_except
      (p <- read_project project ;;
       assign_employee_to_project company emp_id (VNum (PInt (proj_id p))) ;;
       ret tt)
      [EmployeeNotFoundError; ProjectNotFoundError]
      (ret tt)
  else ret tt.

(** One round of the loop over [data.get("projects", [])]. *)
Definition load_project (company : cref) (proj_data : pyval) : M unit :=
  project <- Project.from_dict proj_data ;;
  add_project company project ;;
  team <- lift (l <~ Py.get proj_data "team" (VList []) ;; Py.iter l)%outcome ;;
  for_each team (relink company project).

(** One round of the loop over [data.get("departments", [])]. *)
Definition load_department (company : cref) (dept_data : pyval) : M unit :=
  dept <- Department.load_from_file_dict dept_data ;;
  add_department company dept.

Definition load_from_json (filename : string) : M cref :=
  data <- json_load filename ;;
  name <- lift (Py.getitem data "name") ;;
  company <- __init__ name ;;
  depts <- lift (l <~ Py.get data "departments" (VList []) ;; Py.iter l)%outcome ;;
  for_each depts (load_department company) ;;
  projs <- lift (l <~ Py.get data "projects" (VList []) ;; Py.iter l)%outcome ;;
  for_each projs (load_project company) ;;
  ret company.

Definition EMPLOYEES_HEADER : list pyval :=
  [VStr "ID"; VStr "Имя"; VStr "Отдел"; VStr "Тип";
   VStr "Базовая зарплата"; VStr "Итоговая зарплата"].

Definition PROJECTS_HEADER : list pyval :=
  [VStr "ID проекта"; VStr "Название"; VStr "Статус"; VStr "Срок";
   VStr "Размер команды"; VStr "Бюджет команды"].

Definition export_employees_csv (self : cref) (filename : string) : M unit :=
  employees <- get_all_employees self ;;
  csv_open filename ;;
  csv_writerow filename EMPLOYEES_HEADER ;;
  for_each employees (fun emp =>
    e <- read_employee emp ;;
    salary <- lift (calculate_salary e) ;;
    csv_writerow filename
      [VNum (PInt (emp_id e)); VStr (emp_name e); emp_department e;
       VStr (class_name e); VNum (emp_base_salary e); VNum salary]).

Definition export_projects_csv (self : cref) (filename : string) : M unit :=
  csv_open filename ;;
  csv_writerow filename PROJECTS_HEADER ;;
  c <- read_company self ;;
  for_each (comp_projects c) (fun proj =>
    p <- read_project proj ;;
    size <- Project.get_team_size proj ;;
    budget <- Project.calculate_total_salary proj ;;
    csv_writerow filename
      [VNum (PInt (proj_id p)); VStr (proj_name p); VStr (proj_status p);
       VStr (Datetime.strftime (proj_deadline p)); VNum (PInt (Z.of_nat size));
       VNum budget]).

Definition remove_project (self : cref) (project_id : pyval) : M unit :=
  found <- _find_project_by_id self project_id ;;
  match found with
  | None => raise ProjectNotFoundError
  | Some project =>
      n <- Project.get_team_size project ;;
      if (0 <? n)%nat then raise ValueError
      else c <- read_company self ;;
           write_company self
             (mkCompany (comp_name c) (comp_departments c)
                (remove_first project (comp_projects c)))
  end.

(** [sum(dept.calculate_total_salary() for dept in l)], started from [acc]. *)
Fixpoint sum_departments (l : list dref) (acc : pynum) : M pynum :=
  match l with
  | [] => ret acc
  | dept :: l' =>
      total <- Department.calculate_total_salary dept ;;
      acc' <- lift (Num.add acc total) ;;
      sum_departments l' acc'
  end.

Definition calculate_total_monthly_cost (self : cref) : M pynum :=
  c <- read_company self ;; sum_departments (comp_departments c) Num.zero.

Fixpoint projects_with_status (l : list pref) (status : pyval) : M (list pref) :=
  match l with
  | [] => ret []
  | proj :: l' =>
      p <- read_project proj ;;
      rest <- projects_with_status l' status ;;
      ret (if Py.eq_str status (proj_status p) then proj :: rest else rest)
  end.

Definition get_projects_by_status (self : cref) (status : pyval) : M (list pref) :=
  c <- read_company self ;; projects_with_status (comp_projects c) status.

End Company.

(** ** Class invariants

    What the validators of the constructors and setters guarantee of an
    employee object: a positive id, a name that is not blank, a base salary
    that is not below zero, and for the subclasses a bonus that is not
    below zero, skills that are not blank with a known seniority level, a
    commission rate that is neither below 0 nor above 1 and a sales volume
    that is not below zero.  These are the validators' own tests
    [value < 0] and [value > 1], which are false of NaN: an amount or a
    rate may be NaN. *)
Definition valid_employee (e : employee) : bool :=
  (0 <? emp_id e) && negb (Py.blank (emp_name e))
  && negb (Num.ltb (emp_base_salary e) Num.zero)
  && match emp_class_of e with
     | IsEmployee => true
     | IsManager bonus => negb (Num.ltb bonus Num.zero)
     | IsDeveloper stack level =>
         forallb (fun skill => negb (Py.blank skill)) stack
         && match Developer.coefficient level Developer.SENIORITY_COEFFICIENTS with
            | Some _ => true
            | None => false
            end
     | IsSalesperson rate volume =>
         negb (Num.ltb rate Num.zero) && negb (Num.ltb Num.one rate)
         && negb (Num.ltb volume Num.zero)
     end.

Definition all_valid (s : store) : Prop :=
  Forall (fun e => valid_employee e = true) (employees s).

(** What [Project.__init__] guarantees of a project object: a positive id,
    a name that is not blank, a calendar date as deadline and one of the
    four statuses. *)
Definition valid_project (p : project) : bool :=
  (0 <? proj_id p) && negb (Py.blank (proj_name p))
  && Datetime.valid (proj_deadline p)
  && existsb (String.eqb (proj_status p)) Project.VALID_STATUSES.

(** The projects that can be saved and loaded again: [strftime] prints a
    year below 1000 with fewer than the four digits that [strptime] asks
    for. *)
Definition reloadable (p : project) : bool :=
  valid_project p && (1000 <=? Datetime.year (proj_deadline p))%nat.

(** The references of [l] address employee objects, in this order [es]. *)
Definition employees_at (s : store) (l : list eref) (es : list employee) : Prop :=
  Forall2 (fun r e => employees s !! r = Some e) l es.

Definition all_projects_valid (s : store) : Prop :=
  Forall (fun p => valid_project p = true) (projects s).

(** The first member of [l] whose id equals [v], with the members before
    it, or nothing when no member has that id. *)
Inductive first_match (v : pyval) : list eref -> list employee -> option eref -> Prop :=
| first_match_none l es :
    Forall (fun e => Py.eq_int (emp_id e) v = false) es ->
    first_match v l es None
| first_match_some l1 r l2 es1 e es2 :
    length l1 = length es1 ->
    Forall (fun e => Py.eq_int (emp_id e) v = false) es1 ->
    Py.eq_int (emp_id e) v = true ->
    first_match v (l1 ++ r :: l2) (es1 ++ e :: es2) (Some r).

(** The references of [l] address project objects, in this order [ps];
    likewise for departments. *)
Definition projects_at (s : store) (l : list pref) (ps : list project) : Prop :=
  Forall2 (fun r p => projects s !! r = Some p) l ps.

Definition departments_at (s : store) (l : list dref) (ds : list department) : Prop :=
  Forall2 (fun r d => departments s !! r = Some d) l ds.

(** ** Views of a company

    What the theorems about a company speak of: the objects behind its
    references, the counts that its queries compute, and the records that
    saving writes. *)

(** The teams of the projects [ps] and the members of the departments
    [ds], as employee objects. *)
Definition teams_at (s : store) (ps : list project) (teams : list (list employee))
  : Prop :=
  Forall2 (fun p team => employees_at s (proj_team p) team) ps teams.

Definition staff_at (s : store) (ds : list department) (staff : list (list employee))
  : Prop :=
  Forall2 (fun d es => employees_at s (dept_employees d) es) ds staff.

(** Whether a member of [team] has the id [v], and the number of the teams
    with such a member. *)
Definition holds_id (v : pyval) (team : list employee) : bool :=
  existsb (fun e => Py.eq_int (emp_id e) v) team.

Definition teams_holding (v : pyval) (teams : list (list employee)) : Z :=
  Z.of_nat (length (List.filter (holds_id v) teams)).

(** How often the id [z] occurs in [ids]; the ids of [ids] in the order in
    which they first occur; and those of them that occur more than once. *)
Definition occurrences (z : Z) (ids : list Z) : Z :=
  Z.of_nat (count_occ Z.eq_dec ids z).

Fixpoint first_occurrences (ids : list Z) : list Z :=
  match ids with
  | [] => []
  | z :: ids' => z :: List.filter (fun k => negb (k =? z)) (first_occurrences ids')
  end.

Definition overloaded_ids (ids : list Z) : list Z :=
  List.filter (fun z => 1 <? occurrences z ids) (first_occurrences ids).

(** The first of the objects [l] (which are [es]) whose id equals [v]. *)
Fixpoint first_holder (v : pyval) (l : list eref) (es : list employee) : option eref :=
  match l, es with
  | r :: l', e :: es' =>
      if Py.eq_int (emp_id e) v then Some r else first_holder v l' es'
  | _, _ => None
  end.

(** The members of all the departments [ds], department after department. *)
Definition staff_of (ds : list department) : list eref :=
  concat (map dept_employees ds).

(** The dict [employee_project_count] after the ids [ids] were counted into
    [counts]. *)
Fixpoint tally (ids : list Z) (counts : list (Z * Z)) : list (Z * Z) :=
  match ids with
  | [] => counts
  | z :: ids' =>
      tally ids' (Company.count_set z (Company.count_get z counts + 1) counts)
  end.

(** The row of the employees report for [e], and of the projects report for
    [p], given the salary and the budget that were computed for them. *)
Definition employee_row (e : employee) (salary : pynum) : list pyval :=
  [VNum (PInt (emp_id e)); VStr (emp_name e); emp_department e;
   VStr (class_name e); VNum (emp_base_salary e); VNum salary].

Definition project_row (p : project) (budget : pynum) : list pyval :=
  [VNum (PInt (proj_id p)); VStr (proj_name p); VStr (proj_status p);
   VStr (Datetime.strftime (proj_deadline p));
   VNum (PInt (Z.of_nat (length (proj_team p)))); VNum budget].

(** [sum(emp.calculate_salary() for emp in es)] on the objects themselves,
    started from [acc]. *)
Fixpoint total_salary (es : list employee) (acc : pynum) : outcome pynum :=
  match es with
  | [] => Ret acc
  | e :: es' =>
      match calculate_salary e with
      | Ret salary => acc' <~ Num.add acc salary ;; total_salary es' acc'
      | Raise err => Raise err
      end
  end.

(** The store [s] with the file [filename] replaced by [f]. *)
Definition with_file (filename : string) (f : file) (s : store) : store :=
  mkStore (employees s) (departments s) (projects s) (companies s)
    (file_set filename f (files s)).

(** What [save_to_json] writes for a department with the members [es], for
    a project with the team [team], and for a company. *)
Definition department_record (d : department) (es : list employee) : pyval :=
  VDict [("name", VStr (dept_name d)); ("employees", VList (map to_dict es))].

Definition project_record (p : project) (team : list employee) : pyval :=
  VDict [("project_id", VNum (PInt (proj_id p)));
         ("name", VStr (proj_name p));
         ("description", proj_description p);
         ("deadline", VStr (Datetime.strftime (proj_deadline p)));
         ("status", VStr (proj_status p));
         ("team", VList (map to_dict team))].

Definition company_record (c : company) (ds : list department)
    (staff : list (list employee)) (ps : list project) (teams : list (list employee))
  : pyval :=
  VDict [("name", VStr (comp_name c));
         ("departments", VList (zip_with department_record ds staff));
         ("projects", VList (zip_with project_record ps teams))].

(** The departments that loading creates for the saved departments [ds]
    with the members [staff], when the first new employee object gets the
    reference [first]. *)
Fixpoint department_copies (first : nat) (ds : list department)
    (staff : list (list employee)) : list department :=
  match ds, staff with
  | d :: ds', es :: staff' =>
      mkDepartment (dept_name d) (seq first (length es))
      :: department_copies (first + length es) ds' staff'
  | _, _ => []
  end.

(** The first of the employees [es] that has the id of [e]. *)
Definition same_id_in (es : list employee) (e : employee) : option employee :=
  List.find (fun m => emp_id m =? emp_id e) es.

(** The employee object that relinking finds for the id of [e]: the first
    member of the loaded departments [copies] with that id. *)
Definition holder_of (copies : list department) (staff : list (list employee))
    (e : employee) : option eref :=
  first_holder (VNum (PInt (emp_id e))) (staff_of copies) (concat staff).

(** ** Further methods

    The comparator [compare_by_salary] and [Department.get_employee_count]. *)

(** [compare_by_salary(emp1, emp2)] of [utils/comparators.py]. *)
Definition compare_by_salary (emp1 emp2 : employee) : outcome Z :=
  salary1 <~ calculate_salary emp1 ;;
  salary2 <~ calculate_salary emp2 ;;
  Ret (if Num.ltb salary1 salary2 then -1
       else if Num.ltb salary2 salary1 then 1
       else 0).

(** [counts.get(k, 0)] and [counts[k] = n] on a dict from class names to
    counts. *)
Fixpoint type_count_get (k : string) (counts : list (string * Z)) : Z :=
  match counts with
  | [] => 0
  | (k', n) :: counts' => if String.eqb k k' then n else type_count_get k counts'
  end.

Fixpoint type_count_set (k : string) (n : Z) (counts : list (string * Z))
  : list (string * Z) :=
  match counts with
  | [] => [(k, n)]
  | (k', n') :: counts' =>
      if String.eqb k k' then (k', n) :: counts'
      else (k', n') :: type_count_set k n counts'
  end.

Fixpoint count_types (l : list eref) (counts : list (string * Z))
  : M (list (string * Z)) :=
  match l with
  | [] => ret counts
  | emp :: l' =>
      e <- read_employee emp ;;
      let emp_type := class_name e in
      count_types l' (type_count_set emp_type (type_count_get emp_type counts + 1) counts)
  end.

Definition get_employee_count (self : dref) : M (list (string * Z)) :=
  d <- read_department self ;; count_types (dept_employees d) [].

(** ** Sample data

    Stores built by running the program, used to evaluate it. *)

Definition VInt (z : Z) : pyval := VNum (PInt z).

Definition sample_salesperson : employee :=
  mkEmployee 4 "Sam" (VStr "Sales") (PInt 40000)
    (IsSalesperson (Num.ratio 15 100) (PInt 100000)).

Definition sample_store : store := mkStore [sample_salesperson] [] [] [] [].

(** A company (reference 0) with departments "Dev" (references 0: Ann, a
    manager with id 7, and Bob, a developer with id 9) and "Sales" (Sam, a
    salesperson with id 4), and three projects: Ann is on projects 1 and 2,
    Bob on project 2. *)
Definition acme_script : M cref :=
  c <- Company.__init__ (VStr "Acme") ;;
  dev <- Department.__init__ (VStr "Dev") ;;
  sales <- Department.__init__ (VStr "Sales") ;;
  Company.add_department c dev ;;
  Company.add_department c sales ;;
  ann <- (e <- lift (Manager.__init__ (VInt 7) (VStr "Ann") (VStr "Dev")
                       (VInt 70000) (VInt 20000)) ;; new_employee e) ;;
  bob <- (e <- lift (Developer.__init__ (VInt 9) (VStr "Bob") (VStr "Dev")
                       (VInt 50000) (VList [VStr "Python"]) (VStr "senior")) ;;
          new_employee e) ;;
  sam <- (e <- lift (Salesperson.__init__ (VInt 4) (VStr "Sam") (VStr "Sales")
                       (VInt 40000) (VNum (Num.ratio 15 100)) (VInt 100000)) ;;
          new_employee e) ;;
  Department.add_employee dev ann ;;
  Department.add_employee dev bob ;;
  Department.add_employee sales sam ;;
  p1 <- Project.__init__ (VInt 1) (VStr "Site") (VStr "web site") (VStr "2025-01-31")
          (VStr "active") ;;
  p2 <- Project.__init__ (VInt 2) (VStr "App") (VStr "mobile app") (VStr "2025-6-1")
          (VStr "planning") ;;
  p3 <- Project.__init__ (VInt 3) (VStr "Audit") VNone (VStr "2024-02-29")
          (VStr "completed") ;;
  Company.add_project c p1 ;;
  Company.add_project c p2 ;;
  Company.add_project c p3 ;;
  Company.assign_employee_to_project c (VInt 7) (VInt 1) ;;
  Company.assign_employee_to_project c (VInt 7) (VInt 2) ;;
  Company.assign_employee_to_project c (VInt 9) (VInt 2) ;;
  ret c.

Definition acme : store := Eval vm_compute in fst (acme_script empty_store).

(** A company (reference 0) whose departments "A" and "B" each hold an
    employee with id 1: two distinct objects. *)
Definition twins_script : M cref :=
  c <- Company.__init__ (VStr "Twins") ;;
  a <- Department.__init__ (VStr "A") ;;
  b <- Department.__init__ (VStr "B") ;;
  Company.add_department c a ;;
  Company.add_department c b ;;
  e1 <- (e <- lift (Employee.__init__ (VInt 1) (VStr "Ann") (VStr "A") (VInt 100)) ;;
         new_employee e) ;;
  e2 <- (e <- lift (Employee.__init__ (VInt 1) (VStr "Bob") (VStr "B") (VInt 200)) ;;
         new_employee e) ;;
  Department.add_employee a e1 ;;
  Department.add_employee b e2 ;;
  ret c.

Definition twins : store := Eval vm_compute in fst (twins_script empty_store).

(** Saved companies.  In [ghost_file] the team of the project names the
    ids 7, 99 and 9, of which no department holds 99; in [twice_file] it
    names the id 7 twice. *)
Definition saved_company (team : list pyval) : pyval :=
  VDict [("name", VStr "Acme");
         ("departments",
          VList [VDict [("name", VStr "Dev");
                        ("employees",
                         VList [to_dict (mkEmployee 7 "Ann" (VStr "Dev") (PInt 70000)
                                           (IsManager (PInt 20000)));
                                to_dict (mkEmployee 9 "Bob" (VStr "Dev") (PInt 50000)
                                           (IsDeveloper ["Python"] "senior"))])]]);
         ("projects",
          VList [VDict [("project_id", VInt 1); ("name", VStr "Site");
                        ("description", VStr "web site");
                        ("deadline", VStr "2025-01-31"); ("status", VStr "active");
                        ("team", VList team)]])].

Definition ghost_file : pyval :=
  saved_company [VDict [("id", VInt 7)]; VDict [("id", VInt 99)]; VDict [("id", VInt 9)]].

Definition twice_file : pyval :=
  saved_company [VDict [("id", VInt 7)]; VDict [("id", VInt 7)]].

Definition disk (data : pyval) : store :=
  mkStore [] [] [] [] [("company.json", JsonFile data)].

(** The first two employees and the first department of [acme]. *)
Definition ann : employee :=
  mkEmployee 7 "Ann" (VStr "Dev") (PInt 70000) (IsManager (PInt 20000)).
Definition bob : employee :=
  mkEmployee 9 "Bob" (VStr "Dev") (PInt 50000) (IsDeveloper ["Python"] "senior").
Definition dev : department := mkDepartment "Dev" [0; 1]%nat.

(** The company and the projects of [acme]. *)
Definition acme_company : company := mkCompany "Acme" [0; 1]%nat [0; 1; 2]%nat.
Definition site_project : project :=
  mkProject 1 "Site" (VStr "web site") (Datetime.mkDate 2025 1 31) "active" [0%nat].
Definition app_project : project :=
  mkProject 2 "App" (VStr "mobile app") (Datetime.mkDate 2025 6 1) "planning" [0; 1]%nat.
Definition audit_project : project :=
  mkProject 3 "Audit" VNone (Datetime.mkDate 2024 2 29) "completed" [].

(** The second department of [acme]. *)
Definition sales : department := mkDepartment "Sales" [2%nat].

(** What [save_to_json] writes for a company with the department "Dev" of
    Ann and Bob and with the project "Site", in whose team Zed, with the id
    99 that no department holds, is between Ann and Bob. *)
Definition zed : employee := mkEmployee 99 "Zed" (VStr "Ops") (PInt 1) IsEmployee.

Definition zed_file : pyval :=
  company_record acme_company [dev] [[ann; bob]] [site_project] [[ann; zed; bob]].

(** [acme] after [bob.id = 7]: the department "Dev" holds two members with
    the id 7. *)
Definition renumbered : store :=
  Eval vm_compute in fst (Employee.set_id 1%nat (VInt 7) acme).

(** * Properties *)

(** ** Numbers *)

Lemma value_ltb_lt (x y : Num.value) : Num.value_ltb x y = true <-> Num.lt x y.
Proof.
  destruct x as [|[]|p], y as [|[]|q]; simpl;
    try (split; [discriminate | contradiction]); try tauto.
  rewrite negb_true_iff, <- not_true_iff_false, Qle_bool_iff.
  split; [apply Qnot_le_lt | apply Qlt_not_le].
Qed.

Lemma ltb_lt (a b : pynum) :
  Num.ltb a b = true <-> Num.lt (Num.val a) (Num.val b).
Proof. apply value_ltb_lt. Qed.

Lemma ltb_not_lt (a b : pynum) :
  Num.ltb a b = false <-> ~ Num.lt (Num.val a) (Num.val b).
Proof.
  rewrite <- ltb_lt. split; [intros -> | apply not_true_is_false]. discriminate.
Qed.

Lemma lt_irrefl (x : Num.value) : ~ Num.lt x x.
Proof. destruct x as [|[]|p]; simpl; auto. apply Qlt_irrefl. Qed.

Lemma lt_asym (x y : Num.value) : Num.lt x y -> ~ Num.lt y x.
Proof.
  destruct x as [|[]|p], y as [|[]|q]; simpl; auto.
  intros H1 H2. exact (Qlt_irrefl _ (Qlt_trans _ _ _ H1 H2)).
Qed.

(** The only exception of the arithmetic is that of an int too large for
    a float. *)
Lemma of_int_raises z x : Num.of_int z = Raise x -> x = OverflowError.
Proof.
  unfold Num.of_int. destruct (binary_normalize _ _ _ _ _); congruence.
Qed.

Lemma as_float_raises a x : Num.as_float a = Raise x -> x = OverflowError.
Proof. destruct a; simpl; [apply of_int_raises | discriminate]. Qed.

Lemma to_float_raises a x : Num.to_float a = Raise x -> x = OverflowError.
Proof.
  unfold Num.to_float. destruct (Num.as_float a) eqn:E; simpl; [discriminate |].
  intros [= <-]. exact (as_float_raises _ _ E).
Qed.

Lemma float_operation_raises (op : spec_float -> spec_float -> spec_float) a b x :
  (u <~ Num.as_float a ;; v <~ Num.as_float b ;; Ret (PFloat (op u v)))%outcome
    = Raise x ->
  x = OverflowError.
Proof.
  destruct (Num.as_float a) eqn:Ea; simpl;
    [| intros [= <-]; exact (as_float_raises _ _ Ea)].
  destruct (Num.as_float b) eqn:Eb; simpl;
    [discriminate | intros [= <-]; exact (as_float_raises _ _ Eb)].
Qed.

Lemma add_raises a b x : Num.add a b = Raise x -> x = OverflowError.
Proof.
  destruct a, b; try discriminate; apply float_operation_raises.
Qed.

Lemma mul_raises a b x : Num.mul a b = Raise x -> x = OverflowError.
Proof.
  destruct a, b; try discriminate; apply float_operation_raises.
Qed.

Lemma to_float_float f : Num.to_float (PFloat f) = Ret (PFloat f).
Proof. reflexivity. Qed.

(** The floats of the literals [1.0], [1.5], [2.0] and [0.15]; the sum
    [0.1 + 0.2], which is above [0.3]; and the largest int that [float]
    converts, [2 ** 1024 - 2 ** 970 - 1]. *)
Example floats_of_the_literals :
  Num.ratio 1 1 = PFloat (S754_finite false 4503599627370496 (-52)) /\
  Num.ratio 3 2 = PFloat (S754_finite false 6755399441055744 (-52)) /\
  Num.ratio 2 1 = PFloat (S754_finite false 4503599627370496 (-51)) /\
  Num.ratio 15 100 = PFloat (S754_finite false 5404319552844595 (-55)).
Proof. vm_compute. repeat split; reflexivity. Qed.

Example sum_of_floats_is_rounded :
  (total <~ Num.add (Num.ratio 1 10) (Num.ratio 2 10) ;;
   Ret (Num.ltb (Num.ratio 3 10) total))%outcome = Ret true.
Proof. vm_compute. reflexivity. Qed.

Example float_of_large_ints :
  Num.of_int (2 ^ 1024 - 2 ^ 970 - 1)
    = Ret (S754_finite false 9007199254740991 971) /\
  Num.of_int (2 ^ 1024 - 2 ^ 970) = Raise OverflowError /\
  Num.of_int (2 ^ 53 + 1) = Ret (S754_finite false 4503599627370496 1).
Proof. vm_compute. repeat split; reflexivity. Qed.

(** *** Signs *)

(** The floats below zero. *)
Definition float_negative (f : spec_float) : bool :=
  match f with
  | S754_finite true _ _ | S754_infinity true => true
  | _ => false
  end.

Lemma float_ltb_zero f : Num.ltb (PFloat f) Num.zero = float_negative f.
Proof.
  destruct f as [s|[]| |[] m e]; try reflexivity; unfold Num.ltb; simpl.
  - apply negb_true_iff, not_true_iff_false. rewrite Qle_bool_iff.
    apply Qlt_not_le. rewrite <- (Qmult_0_l (2 ^ e)).
    apply Qmult_lt_compat_r; [apply Qpower_0_lt |]; reflexivity.
  - apply negb_false_iff, Qle_bool_iff.
    apply Qmult_le_0_compat; [discriminate | apply Qpower_0_le; discriminate].
Qed.

Lemma int_ltb_zero z : Num.ltb (PInt z) Num.zero = (z <? 0).
Proof.
  destruct z; reflexivity.
Qed.

Lemma one_ltb_int z : Num.ltb Num.one (PInt z) = (1 <? z).
Proof.
  unfold Num.ltb, Num.val, Num.value_ltb, Qle_bool, Num.one, inject_Z, Qnum, Qden.
  rewrite (Z.mul_1_r z), (Z.ltb_antisym z 1). reflexivity.
Qed.

Lemma binary_round_aux_sign mx ex lx :
  float_negative (binary_round_aux Num.prec Num.emax false mx ex lx) = false.
Proof.
  unfold binary_round_aux.
  destruct (shr_fexp _ _ mx ex lx) as [m1 e1].
  destruct (shr_fexp _ _ _ e1 _) as [m2 e2].
  destruct (shr_m m2); try reflexivity.
  destruct (e2 <=? _); reflexivity.
Qed.

Lemma binary_normalize_sign z e :
  0 <= z -> float_negative (binary_normalize Num.prec Num.emax z e false) = false.
Proof.
  intros Hz. destruct z as [|m|m]; [reflexivity | | lia].
  unfold binary_normalize, binary_round.
  destruct (shl_align _ _ _). apply binary_round_aux_sign.
Qed.

Lemma as_float_sign a f :
  Num.as_float a = Ret f -> Num.ltb a Num.zero = false -> float_negative f = false.
Proof.
  destruct a as [z|g]; simpl.
  - rewrite int_ltb_zero. intros H Hz. apply Z.ltb_ge in Hz.
    pose proof (binary_normalize_sign z 0 Hz) as Hs. unfold Num.of_int in H.
    destruct (binary_normalize _ _ z 0 false); try discriminate H;
      injection H as <-; exact Hs.
  - intros [= <-]. rewrite float_ltb_zero. auto.
Qed.

(** [float(n)] of a number that is not below zero is not below zero. *)
Lemma to_float_not_negative n x :
  Num.to_float n = Ret x -> Num.ltb n Num.zero = false -> Num.ltb x Num.zero = false.
Proof.
  unfold Num.to_float. destruct (Num.as_float n) as [f|] eqn:E; [| discriminate].
  intros [= <-] Hn. rewrite float_ltb_zero. exact (as_float_sign _ _ E Hn).
Qed.

(** [float(n)] of a number that is not above one is not above one. *)
Lemma to_float_at_most_one n x :
  Num.to_float n = Ret x -> Num.ltb n Num.zero = false ->
  Num.ltb Num.one n = false -> Num.ltb Num.one x = false.
Proof.
  destruct n as [z|f]; [| intros [= <-]; auto].
  rewrite int_ltb_zero, one_ltb_int. intros H H0 H1.
  apply Z.ltb_ge in H0, H1.
  assert (Hz : z = 0 \/ z = 1) by lia.
  destruct Hz as [-> | ->]; injection H as <-; reflexivity.
Qed.

Lemma SFadd_sign x y :
  float_negative x = false -> float_negative y = false ->
  float_negative (SFadd Num.prec Num.emax x y) = false.
Proof.
  destruct x as [sx|[]| |[] mx ex], y as [sy|[]| |[] my ey];
    try discriminate; try reflexivity; intros _ _.
  - destruct sx, sy; reflexivity.
  - unfold SFadd. apply binary_normalize_sign. simpl. lia.
Qed.

(** The sum of two numbers that are not below zero is not below zero. *)
Lemma add_not_negative a b x :
  Num.add a b = Ret x -> Num.ltb a Num.zero = false ->
  Num.ltb b Num.zero = false -> Num.ltb x Num.zero = false.
Proof.
  intros H Ha Hb.
  assert (Hfloat : (u <~ Num.as_float a ;; v <~ Num.as_float b ;;
                    Ret (PFloat (SFadd Num.prec Num.emax u v)))%outcome = Ret x ->
                   Num.ltb x Num.zero = false).
  { destruct (Num.as_float a) as [u|] eqn:Eu; [| discriminate].
    destruct (Num.as_float b) as [v|] eqn:Ev; [| discriminate].
    intros [= <-]. rewrite float_ltb_zero.
    apply SFadd_sign; [exact (as_float_sign _ _ Eu Ha) | exact (as_float_sign _ _ Ev Hb)]. }
  destruct a as [y|f], b as [z|g]; try exact (Hfloat H).
  injection H as <-. rewrite int_ltb_zero in *.
  apply Z.ltb_ge in Ha, Hb. apply Z.ltb_ge. lia.
Qed.

(** ** Salaries *)

Ltac outcome_cases :=
  repeat match goal with
    | H : obind ?m _ = Ret _ |- _ =>
        let E := fresh "E" in destruct m eqn:E; simpl in H; [| discriminate H]
    | H : Raise _ = Ret _ |- _ => discriminate H
    | H : Ret _ = Ret _ |- _ => injection H as H
    | H : match ?v with VNone => _ | _ => _ end = Ret _ |- _ => destruct v; try discriminate H
    | H : match ?n with PInt _ => _ | _ => _ end = Ret _ |- _ => destruct n; try discriminate H
    | H : (if ?c then _ else _) = Ret _ |- _ =>
        let E := fresh "E" in destruct c eqn:E; try discriminate H
    end.

Lemma Employee_init_inv id name department base_salary e :
  Employee.__init__ id name department base_salary = Ret e ->
  exists i n b,
    id = VNum (PInt i) /\ 0 < i /\ name = VStr n /\ Py.blank n = false /\
    base_salary = VNum b /\ Num.ltb b Num.zero = false /\
    e = mkEmployee i n department b IsEmployee.
Proof.
  unfold Employee.__init__. intros H.
  destruct id as [|[i|]| | |]; try discriminate H. simpl in H.
  destruct (i <=? 0) eqn:Ei; [discriminate H |]. simpl in H.
  destruct name as [| |n| |]; try discriminate H. simpl in H.
  destruct (Py.blank n) eqn:En; [discriminate H |]. simpl in H.
  destruct base_salary as [|b| | |]; try discriminate H. simpl in H.
  destruct (Num.ltb b Num.zero) eqn:Eb; [discriminate H |]. simpl in H.
  injection H as <-.
  exists i, n, b. repeat split; auto.
  lia.
Qed.

Lemma coefficient_inv level c :
  Developer.coefficient level Developer.SENIORITY_COEFFICIENTS = Some c ->
  level = "junior" /\ c = Num.ratio 1 1 \/
  level = "middle" /\ c = Num.ratio 3 2 \/
  level = "senior" /\ c = Num.ratio 2 1.
Proof.
  simpl.
  destruct (String.eqb_spec level "junior"); [intros [= <-]; auto |].
  destruct (String.eqb_spec level "middle"); [intros [= <-]; auto |].
  destruct (String.eqb_spec level "senior"); [intros [= <-]; auto |].
  discriminate.
Qed.

Lemma Employee_init_salary id name department base_salary e :
  Employee.__init__ id name department base_salary = Ret e ->
  exists i n b,
    base_salary = VNum b /\ e = mkEmployee i n department b IsEmployee.
Proof.
  intros H. apply Employee_init_inv in H as (i & n & b & _ & _ & _ & _ & -> & _ & ->).
  exists i, n, b. split; reflexivity.
Qed.

(** C2.  An employee that a constructor returned is paid by the formula of
    its class as Python evaluates it: the base salary for [Employee]; base
    salary plus bonus for [Manager]; base salary times 1.0, 1.5 or 2.0 for
    a junior, middle or senior [Developer]; base salary plus sales volume
    times commission rate for [Salesperson].  A sum or a product with a
    float is the nearest double, and the only exception of the method is
    the OverflowError of an int operand beyond the doubles. *)
Theorem calculate_salary_matches_formula :
  (forall id name department base_salary e,
      Employee.__init__ id name department base_salary = Ret e ->
      exists b, base_salary = VNum b /\ calculate_salary e = Ret b) /\
  (forall id name department base_salary bonus e,
      Manager.__init__ id name department base_salary bonus = Ret e ->
      exists b bo,
        base_salary = VNum b /\ bonus = VNum bo /\
        calculate_salary e = Num.add b bo /\
        forall x, calculate_salary e = Raise x -> x = OverflowError) /\
  (forall id name department base_salary tech_stack seniority_level e,
      Developer.__init__ id name department base_salary tech_stack seniority_level
        = Ret e ->
      exists b level c,
        base_salary = VNum b /\ seniority_level = VStr level /\
        (level = "junior" /\ c = Num.ratio 1 1 \/
         level = "middle" /\ c = Num.ratio 3 2 \/
         level = "senior" /\ c = Num.ratio 2 1) /\
        calculate_salary e = Num.mul b c /\
        forall x, calculate_salary e = Raise x -> x = OverflowError) /\
  (forall id name department base_salary commission_rate sales_volume e,
      Salesperson.__init__ id name department base_salary commission_rate sales_volume
        = Ret e ->
      exists b rate volume,
        base_salary = VNum b /\ commission_rate = VNum rate /\
        sales_volume = VNum volume /\
        calculate_salary e
          = (commission <~ Num.mul volume rate ;; Num.add b commission) /\
        forall x, calculate_salary e = Raise x -> x = OverflowError).
Proof.
  repeat apply conj.
  - intros * H. apply Employee_init_salary in H as (i & n & b & -> & ->).
    exists b. split; reflexivity.
  - intros * H. unfold Manager.__init__ in H.
    destruct (Employee.__init__ _ _ _ _) as [e0|] eqn:E0; [| discriminate].
    apply Employee_init_salary in E0 as (i & n & b & -> & ->).
    simpl in H. unfold Manager._validate_bonus in H. outcome_cases. subst.
    eexists b, _. repeat split.
    intros x. apply add_raises.
  - intros id name dept base_salary tech_stack seniority_level e H.
    unfold Developer.__init__ in H.
    destruct (Employee.__init__ _ _ _ _) as [e0|] eqn:E0; [| discriminate].
    apply Employee_init_salary in E0 as (i & n & b & -> & ->).
    simpl in H.
    destruct (if Py.truthy tech_stack then _ else _); [| discriminate]. simpl in H.
    unfold Developer._validate_seniority_level in H.
    destruct (negb (Py.hashable seniority_level)); [discriminate |].
    destruct seniority_level as [| | level | |]; try discriminate.
    destruct (Developer.coefficient level _) as [c|] eqn:Ec; [| discriminate].
    simpl in H.
    destruct (Developer._validate_tech_stack tech_stack) as [stack|];
      [| discriminate].
    simpl in H. injection H as <-.
    assert (Hsalary : calculate_salary
                        (with_class (IsDeveloper stack level)
                           (mkEmployee i n dept b IsEmployee))
                      = Num.mul b c).
    { unfold calculate_salary, Developer.calculate_salary, with_class.
      cbn -[Developer.coefficient]. rewrite Ec. reflexivity. }
    exists b, level, c. repeat split.
    + exact (coefficient_inv _ _ Ec).
    + exact Hsalary.
    + intros x. rewrite Hsalary. apply mul_raises.
  - intros * H. unfold Salesperson.__init__ in H.
    destruct (Employee.__init__ _ _ _ _) as [e0|] eqn:E0; [| discriminate].
    apply Employee_init_salary in E0 as (i & n & b & -> & ->).
    simpl in H.
    unfold Salesperson._validate_commission_rate, Salesperson._validate_sales_volume in H.
    outcome_cases. subst.
    eexists b, _, _. repeat split.
    intros x. unfold calculate_salary, Salesperson.calculate_salary. cbn.
    destruct (Num.mul _ _) eqn:Em; cbn.
    + apply add_raises.
    + intros [= <-]. exact (mul_raises _ _ _ Em).
Qed.

Example salary_of_employee :
  (e <~ Employee.__init__ (VNum (PInt 1)) (VStr "Eve") (VStr "IT") (VNum (PInt 50000)) ;;
   calculate_salary e)%outcome = Ret (PInt 50000).
Proof. reflexivity. Qed.

Example salary_of_manager :
  (e <~ Manager.__init__ (VNum (PInt 2)) (VStr "Max") (VStr "IT")
          (VNum (PInt 70000)) (VNum (PInt 20000)) ;;
   calculate_salary e)%outcome = Ret (PInt 90000).
Proof. reflexivity. Qed.

(** [50000 * 2.0] is the float [100000.0]. *)
Example salary_of_developer :
  (e <~ Developer.__init__ (VNum (PInt 3)) (VStr "Dan") (VStr "IT")
          (VNum (PInt 50000)) (VList [VStr "Python"]) (VStr "senior") ;;
   calculate_salary e)%outcome = Ret (Num.ratio 100000 1).
Proof. vm_compute. reflexivity. Qed.

(** [40000 + 100000 * 0.15] is the float [55000.0]. *)
Example salary_of_salesperson :
  (e <~ Salesperson.__init__ (VNum (PInt 4)) (VStr "Sam") (VStr "Sales")
          (VNum (PInt 40000)) (VNum (Num.ratio 15 100)) (VNum (PInt 100000)) ;;
   calculate_salary e)%outcome = Ret (Num.ratio 55000 1).
Proof. vm_compute. reflexivity. Qed.

Lemma calculate_salary_matches_formula_witness :
  exists b level c,
    VNum (PInt 50000) = VNum b /\ VStr "middle" = VStr level /\
    (level = "junior" /\ c = Num.ratio 1 1 \/
     level = "middle" /\ c = Num.ratio 3 2 \/
     level = "senior" /\ c = Num.ratio 2 1) /\
    calculate_salary
      (mkEmployee 3 "Dan" (VStr "IT") (PInt 50000) (IsDeveloper ["Python"] "middle"))
      = Num.mul b c /\
    forall x,
      calculate_salary
        (mkEmployee 3 "Dan" (VStr "IT") (PInt 50000) (IsDeveloper ["Python"] "middle"))
        = Raise x -> x = OverflowError.
Proof.
  apply (proj1 (proj2 (proj2 calculate_salary_matches_formula))
           (VNum (PInt 3)) (VStr "Dan") (VStr "IT") (VNum (PInt 50000))
           (VList [VStr "Python"]) (VStr "middle")).
  reflexivity.
Defined.

(** The salary is not always returned, and not always the exact number:
    a developer whose base salary is the int [10 ** 400] is constructed,
    and [calculate_salary] raises OverflowError on it; for a manager with
    the base salary [0.1] and the bonus [0.2] it returns a float that is
    not the sum of the two. *)
Lemma calculate_salary_exact_counterexample :
  (exists e,
     Developer.__init__ (VNum (PInt 3)) (VStr "Dan") (VStr "IT")
       (VNum (PInt (10 ^ 400))) (VList [VStr "Python"]) (VStr "junior") = Ret e /\
     calculate_salary e = Raise OverflowError) /\
  (exists e s b bo total,
     Manager.__init__ (VNum (PInt 2)) (VStr "Max") (VStr "IT")
       (VNum (Num.ratio 1 10)) (VNum (Num.ratio 2 10)) = Ret e /\
     calculate_salary e = Ret s /\
     Num.val (Num.ratio 1 10) = Num.Fin b /\
     Num.val (Num.ratio 2 10) = Num.Fin bo /\
     Num.val s = Num.Fin total /\
     ~ (total == b + bo)%Q).
Proof.
  split.
  - eexists. split; vm_compute; reflexivity.
  - eexists _, _, _, _, _. repeat split; try (vm_compute; reflexivity).
    vm_compute. discriminate.
Qed.

(** ** Equality and ordering of employees *)

(** C6.  Two employees are equal exactly when their ids are equal, whatever
    their classes, names and other attributes; [<] compares the salaries
    that [calculate_salary] returns for them, by the numbers they stand
    for. *)
Theorem equality_by_id_ordering_by_salary (a b : employee) :
  (__eq__ a b = true <-> emp_id a = emp_id b) /\
  (forall sa sb,
      calculate_salary a = Ret sa -> calculate_salary b = Ret sb ->
      exists r, __lt__ a b = Ret r /\
                (r = true <-> Num.lt (Num.val sa) (Num.val sb))).
Proof.
  split.
  - unfold __eq__. apply Z.eqb_eq.
  - intros sa sb Ha Hb. unfold __lt__. rewrite Ha, Hb. simpl.
    exists (Num.ltb sa sb). split; [reflexivity | apply ltb_lt].
Qed.

Example manager_equals_employee_of_same_id :
  __eq__ (mkEmployee 5 "Ann" (VStr "IT") (PInt 70000) (IsManager (PInt 20000)))
         (mkEmployee 5 "Bob" (VStr "HR") (PInt 10) IsEmployee) = true.
Proof. reflexivity. Qed.

Example smaller_id_larger_salary_is_not_less :
  __lt__ (mkEmployee 1 "Ann" (VStr "IT") (PInt 70000) (IsManager (PInt 20000)))
         (mkEmployee 2 "Bob" (VStr "HR") (PInt 80000) IsEmployee) = Ret false.
Proof. reflexivity. Qed.

Lemma equality_by_id_ordering_by_salary_witness :
  exists r,
    __lt__ (mkEmployee 2 "Bob" (VStr "HR") (PInt 80000) IsEmployee)
           (mkEmployee 1 "Ann" (VStr "IT") (PInt 70000) (IsManager (PInt 20000)))
      = Ret r /\
    (r = true <-> Num.lt (Num.val (PInt 80000)) (Num.val (PInt 90000))).
Proof.
  apply (proj2 (equality_by_id_ordering_by_salary
                  (mkEmployee 2 "Bob" (VStr "HR") (PInt 80000) IsEmployee)
                  (mkEmployee 1 "Ann" (VStr "IT") (PInt 70000) (IsManager (PInt 20000))))
           (PInt 80000) (PInt 90000)); reflexivity.
Defined.

(** ** Validation on every write *)

Lemma ltb_zero_true n : Num.lt (Num.val n) (Num.Fin 0) -> Num.ltb n Num.zero = true.
Proof. intros H. apply ltb_lt. exact H. Qed.

Lemma ltb_zero_false n : ~ Num.lt (Num.val n) (Num.Fin 0) -> Num.ltb n Num.zero = false.
Proof. intros H. apply ltb_not_lt. exact H. Qed.

Lemma ltb_one_true n : Num.lt (Num.Fin 1) (Num.val n) -> Num.ltb Num.one n = true.
Proof. intros H. apply ltb_lt. exact H. Qed.

Lemma ltb_one_false n : ~ Num.lt (Num.Fin 1) (Num.val n) -> Num.ltb Num.one n = false.
Proof. intros H. apply ltb_not_lt. exact H. Qed.

Lemma to_float_raises_on_int n x :
  Num.to_float n = Raise x -> x = OverflowError /\ exists z, n = PInt z.
Proof.
  intros H. split; [exact (to_float_raises _ _ H) |].
  destruct n as [z|f]; [exists z; reflexivity | discriminate H].
Qed.

Lemma coefficient_unknown s :
  s <> "junior" -> s <> "middle" -> s <> "senior" ->
  Developer.coefficient s Developer.SENIORITY_COEFFICIENTS = None.
Proof.
  intros H1 H2 H3. simpl.
  apply String.eqb_neq in H1, H2, H3. rewrite H1, H2, H3. reflexivity.
Qed.

Ltac run_setter Hlook :=
  unfold setattr, Employee.set_id, Employee.set_name, Employee.set_department,
    Employee.set_base_salary, Manager.set_bonus, Developer.set_seniority_level,
    Salesperson.set_commission_rate, Salesperson.set_sales_volume,
    Employee._validate_id, Employee._validate_name, Employee._validate_base_salary,
    Manager._validate_bonus, Developer._validate_seniority_level,
    Salesperson._validate_commission_rate, Salesperson._validate_sales_volume,
    bind, lift, read_employee, of_option, write_employee, raise, ret;
  try rewrite Hlook.

(** C8.  Every property setter validates what it is given.  Assigning one
    of the invalid values raises [ValueError]; whenever an assignment raises,
    the store is what it was, so the attribute keeps its value; assigning a
    valid value returns, and afterwards the attribute holds the value (as a
    float for the amounts and the rate) while every other attribute of the
    object, and every other object, are unchanged, unless the value is an
    int that [float] cannot convert: then the assignment raises
    OverflowError. *)
Theorem setters_validate_every_write
    (f : field) (self : eref) (value : pyval) (s : store) (e : employee) :
  employees s !! self = Some e ->
  is_Some (getattr f e) ->
  (rejected f value -> setattr f self value s = (s, Raise ValueError)) /\
  (forall s' x, setattr f self value s = (s', Raise x) -> s' = s) /\
  (accepted f value ->
   match stored f value with
   | Ret v =>
       exists e',
         setattr f self value s
           = (mkStore (<[self := e']> (employees s)) (departments s) (projects s)
                (companies s) (files s), Ret tt) /\
         getattr f e' = Some v /\
         class_name e' = class_name e /\
         forall g, g <> f -> getattr g e' = getattr g e
   | Raise x =>
       x = OverflowError /\ (exists z, value = VNum (PInt z)) /\
       setattr f self value s = (s, Raise OverflowError)
   end).
Proof.
  intros Hlook Hattr.
  split; [| split].
  - destruct f; cbn [rejected]; intros Hrej; run_setter Hlook;
      try (destruct Hrej as (n & -> & Hn)); try contradiction.
    + destruct (Z.leb_spec n 0); [reflexivity | lia].
    + rewrite Hn. reflexivity.
    + rewrite Hn. reflexivity.
    + rewrite (ltb_zero_true _ Hn). reflexivity.
    + rewrite (ltb_zero_true _ Hn). reflexivity.
    + destruct Hn as (H1 & H2 & H3). cbn [negb Py.hashable].
      rewrite (coefficient_unknown _ H1 H2 H3). reflexivity.
    + destruct Hn as [Hn | Hn].
      * rewrite (ltb_zero_true _ Hn). reflexivity.
      * rewrite (ltb_one_true _ Hn), orb_true_r. reflexivity.
    + rewrite (ltb_zero_true _ Hn). reflexivity.
  - intros s' x.
    destruct f; simpl in *; run_setter Hlook;
      repeat match goal with
        | |- (_, _) = (_, _) -> _ => intros [= <- <-] || intros [= <-]; try reflexivity
        | |- context [match ?v with VNone => _ | _ => _ end] => destruct v
        | |- context [match ?n with PInt _ => _ | _ => _ end] => destruct n
        | |- context [if ?c then _ else _] => destruct c
        | |- context [match emp_class_of ?e with IsEmployee => _ | _ => _ end] =>
            destruct (emp_class_of e)
        | |- context [match ?o with Some _ => _ | None => _ end] => destruct o
        | |- context [match Num.to_float ?n with Ret _ => _ | Raise _ => _ end] =>
            destruct (Num.to_float n)
        | _ => progress simpl
        | _ => discriminate
        end.
  - destruct e as [i n d b c].
    assert (Hnone : forall A, is_Some (@None A) -> False)
      by (intros A [? [=]]).
    destruct f; cbn [accepted stored obind]; intros Hacc; run_setter Hlook;
      cbn [getattr emp_class_of] in Hattr;
      try (destruct Hacc as (v & -> & Hv));
      try match type of Hattr with
          | context [match c with IsEmployee => _ | _ => _ end] =>
              destruct c; try (exfalso; exact (Hnone _ Hattr))
          end; clear Hattr.
    + destruct (Z.leb_spec v 0); [lia |].
      eexists. repeat split. intros g Hg. destruct g; try reflexivity; congruence.
    + rewrite Hv. eexists. repeat split.
      intros g Hg. destruct g; try reflexivity; congruence.
    + rewrite Hv. eexists. repeat split.
      intros g Hg. destruct g; try reflexivity; congruence.
    + rewrite (ltb_zero_false _ Hv).
      cbn. destruct (Num.to_float v) as [x|x] eqn:Ex; cbn.
      * eexists. repeat split.
        intros g Hg. destruct g; try reflexivity; congruence.
      * apply to_float_raises_on_int in Ex as [-> [z ->]]. eauto.
    + rewrite (ltb_zero_false _ Hv).
      cbn. destruct (Num.to_float v) as [x|x] eqn:Ex; cbn.
      * eexists. repeat split.
        intros g Hg. destruct g; try reflexivity; congruence.
      * apply to_float_raises_on_int in Ex as [-> [z ->]]. eauto.
    + contradiction.
    + destruct Hacc as [-> | [-> | ->]]; (eexists; repeat split;
        intros g Hg; destruct g; try reflexivity; congruence).
    + destruct Hv as [H0 H1].
      rewrite (ltb_zero_false _ H0), (ltb_one_false _ H1).
      cbn. destruct (Num.to_float v) as [x|x] eqn:Ex; cbn.
      * eexists. repeat split.
        intros g Hg. destruct g; try reflexivity; congruence.
      * apply to_float_raises_on_int in Ex as [-> [z ->]]. eauto.
    + rewrite (ltb_zero_false _ Hv).
      cbn. destruct (Num.to_float v) as [x|x] eqn:Ex; cbn.
      * eexists. repeat split.
        intros g Hg. destruct g; try reflexivity; congruence.
      * apply to_float_raises_on_int in Ex as [-> [z ->]]. eauto.
Qed.

Lemma setters_validate_every_write_witness :
  setattr F_commission_rate 0%nat (VNum (Num.ratio 3 2)) sample_store
    = (sample_store, Raise ValueError) /\
  exists e',
    setattr F_commission_rate 0%nat (VNum (PInt 1)) sample_store
      = (mkStore (<[0%nat := e']> (employees sample_store)) (departments sample_store)
           (projects sample_store) (companies sample_store) (files sample_store),
         Ret tt) /\
    getattr F_commission_rate e' = Some (VNum (Num.ratio 1 1)) /\
    class_name e' = class_name sample_salesperson /\
    forall g, g <> F_commission_rate -> getattr g e' = getattr g sample_salesperson.
Proof.
  split.
  - refine (proj1 (setters_validate_every_write F_commission_rate 0%nat _
                     sample_store sample_salesperson _ _) _).
    + reflexivity.
    + eexists; reflexivity.
    + eexists; split; [reflexivity | right; reflexivity].
  - refine (proj2 (proj2 (setters_validate_every_write F_commission_rate 0%nat
                            (VNum (PInt 1)) sample_store sample_salesperson _ _)) _).
    + reflexivity.
    + eexists; reflexivity.
    + eexists; split; [reflexivity | split; intros H; vm_compute in H; discriminate H].
Defined.

(** A valid assignment does not always succeed: the int [10 ** 400] is not
    negative, and assigning it to [base_salary] raises OverflowError. *)
Lemma setters_overflow_counterexample :
  accepted F_base_salary (VNum (PInt (10 ^ 400))) /\
  setattr F_base_salary 0%nat (VNum (PInt (10 ^ 400))) sample_store
    = (sample_store, Raise OverflowError).
Proof.
  split.
  - eexists; split; [reflexivity | intros H; vm_compute in H; discriminate H].
  - vm_compute. reflexivity.
Qed.

(** ** Running computations *)

(** [m] keeps [P]: from a store where [P] holds it ends, whatever its
    outcome, in a store where [P] holds. *)
Definition keeps {A} (P : store -> Prop) (m : M A) : Prop :=
  forall s, P s -> P (fst (m s)).

Lemma keeps_ret {A} P (a : A) : keeps P (ret a).
Proof. intros s H. exact H. Qed.

Lemma keeps_raise {A} P e : keeps P (@raise A e).
Proof. intros s H. exact H. Qed.

Lemma keeps_lift {A} P (o : outcome A) : keeps P (lift o).
Proof. intros s H. exact H. Qed.

Lemma keeps_bind {A B} P (m : M A) (k : A -> M B) :
  keeps P m -> (forall a, keeps P (k a)) -> keeps P (bind m k).
Proof.
  intros Hm Hk s H. unfold bind. specialize (Hm s H).
  destruct (m s) as [s' [a|e]]; simpl in *.
  - apply Hk, Hm.
  - exact Hm.
Qed.

Lemma keeps_for_each {A} P (l : list A) (body : A -> M unit) :
  (forall x, keeps P (body x)) -> keeps P (for_each l body).
Proof.
  intros Hb. induction l as [|x l IH]; simpl.
  - apply keeps_ret.
  - apply keeps_bind; [apply Hb | intros _; exact IH].
Qed.

Lemma keeps_of_option {A} P (o : option A) : keeps P (of_option o).
Proof. destruct o; [apply keeps_ret | apply keeps_raise]. Qed.

Lemma keeps_read_employee P r : keeps P (read_employee r).
Proof. intros s H. unfold read_employee. apply keeps_of_option, H. Qed.

Lemma keeps_read_department P r : keeps P (read_department r).
Proof. intros s H. unfold read_department. apply keeps_of_option, H. Qed.

Lemma keeps_read_project P r : keeps P (read_project r).
Proof. intros s H. unfold read_project. apply keeps_of_option, H. Qed.

Lemma keeps_read_company P r : keeps P (read_company r).
Proof. intros s H. unfold read_company. apply keeps_of_option, H. Qed.

Lemma keeps_sum_salaries P l acc : keeps P (sum_salaries l acc).
Proof.
  revert acc. induction l as [|x l IH]; intros acc; simpl.
  - apply keeps_ret.
  - apply keeps_bind; [apply keeps_read_employee | intros e].
    apply keeps_bind; [apply keeps_lift | intros v].
    apply keeps_bind; [apply keeps_lift | intros acc']. apply IH.
Qed.

(** ** CSV reports *)

Lemma file_get_set name f fs : file_get name (file_set name f fs) = Some f.
Proof.
  induction fs as [|[n f'] fs IH]; simpl.
  - rewrite String.eqb_refl. reflexivity.
  - destruct (String.eqb name n) eqn:E; simpl; rewrite E; [reflexivity | exact IH].
Qed.

(** The file [filename] holds CSV rows of which [header] is the first. *)
Definition starts_with (filename : string) (header : list pyval) (s : store) : Prop :=
  exists rows, file_get filename (files s) = Some (CsvFile (header :: rows)).

Lemma keeps_header_writerow filename header row :
  keeps (starts_with filename header) (csv_writerow filename row).
Proof.
  intros s [rows H]. unfold csv_writerow. rewrite H. simpl.
  exists (rows ++ [row])%list. apply file_get_set.
Qed.

Lemma bind_run {A B} (m : M A) (k : A -> M B) s s' a :
  m s = (s', Ret a) -> bind m k s = k a s'.
Proof. intros H. unfold bind. rewrite H. reflexivity. Qed.

Lemma after_bind {A B} (P : store -> Prop) (m : M A) (k : A -> M B) s :
  P (fst (m s)) -> (forall a, keeps P (k a)) -> P (fst (bind m k s)).
Proof.
  intros H Hk. unfold bind. destruct (m s) as [s' [a|e]]; simpl in *.
  - apply Hk, H.
  - exact H.
Qed.

Lemma header_written filename header s s' :
  csv_open filename s = (s', Ret tt) ->
  starts_with filename header (fst (csv_writerow filename header s')).
Proof.
  unfold csv_open, write_file. intros [= <-].
  unfold csv_writerow, write_file. simpl.
  rewrite file_get_set. simpl. exists []. apply file_get_set.
Qed.

(** C7, as the code has it.  Both reports start with a header row, and the
    header is the Russian one: the employees report starts with the row
    ID, Имя, Отдел, Тип, Базовая зарплата, Итоговая зарплата (whenever the
    employees of the company can be listed, which happens before the file
    is opened), and the projects report with the row ID проекта, Название,
    Статус, Срок, Размер команды, Бюджет команды. *)
Theorem csv_exports_start_with_header (self : cref) (filename : string) (s : store) :
  (forall es,
      Company.get_all_employees self s = (s, Ret es) ->
      exists rows,
        file_get filename (files (fst (Company.export_employees_csv self filename s)))
        = Some (CsvFile
                  ([VStr "ID"; VStr "Имя"; VStr "Отдел"; VStr "Тип";
                    VStr "Базовая зарплата"; VStr "Итоговая зарплата"] :: rows))) /\
  (exists rows,
      file_get filename (files (fst (Company.export_projects_csv self filename s)))
      = Some (CsvFile
                ([VStr "ID проекта"; VStr "Название"; VStr "Статус"; VStr "Срок";
                  VStr "Размер команды"; VStr "Бюджет команды"] :: rows))).
Proof.
  split.
  - intros es Hes.
    change (starts_with filename Company.EMPLOYEES_HEADER
              (fst (Company.export_employees_csv self filename s))).
    unfold Company.export_employees_csv.
    rewrite (bind_run _ _ _ _ _ Hes).
    rewrite (bind_run _ _ s _ tt eq_refl).
    apply after_bind; [eapply header_written; reflexivity | intros _].
    apply keeps_for_each. intros emp.
    apply keeps_bind; [apply keeps_read_employee | intros e].
    apply keeps_bind; [apply keeps_lift | intros v].
    apply keeps_header_writerow.
  - change (starts_with filename Company.PROJECTS_HEADER
              (fst (Company.export_projects_csv self filename s))).
    unfold Company.export_projects_csv.
    rewrite (bind_run _ _ s _ tt eq_refl).
    apply after_bind; [eapply header_written; reflexivity | intros _].
    apply keeps_bind; [apply keeps_read_company | intros c].
    apply keeps_for_each. intros proj.
    apply keeps_bind; [apply keeps_read_project | intros p].
    apply keeps_bind.
    { unfold Project.get_team_size.
      apply keeps_bind; [apply keeps_read_project | intros; apply keeps_ret]. }
    intros n. apply keeps_bind.
    { unfold Project.calculate_total_salary.
      apply keeps_bind; [apply keeps_read_project | intros; apply keeps_sum_salaries]. }
    intros b. apply keeps_header_writerow.
Qed.


Lemma csv_exports_start_with_header_witness :
  exists rows,
    file_get "employees.csv"
      (files (fst (Company.export_employees_csv 0%nat "employees.csv" acme)))
    = Some (CsvFile
              ([VStr "ID"; VStr "Имя"; VStr "Отдел"; VStr "Тип";
                VStr "Базовая зарплата"; VStr "Итоговая зарплата"] :: rows)).
Proof.
  apply (proj1 (csv_exports_start_with_header 0%nat "employees.csv" acme)
           [0; 1; 2]%nat).
  reflexivity.
Defined.

(** The first row of the employees report of the sample company is not the
    English header, and neither is the first row of its projects report. *)
Lemma csv_english_header_counterexample :
  (exists row rows,
      file_get "employees.csv"
        (files (fst (Company.export_employees_csv 0%nat "employees.csv" acme)))
      = Some (CsvFile (row :: rows)) /\
      row <> [VStr "ID"; VStr "Name"; VStr "Department"; VStr "Type";
              VStr "BaseSalary"; VStr "FinalSalary"]) /\
  (exists row rows,
      file_get "projects.csv"
        (files (fst (Company.export_projects_csv 0%nat "projects.csv" acme)))
      = Some (CsvFile (row :: rows)) /\
      row <> [VStr "ProjectID"; VStr "Name"; VStr "Status"; VStr "Deadline";
              VStr "TeamSize"; VStr "TeamBudget"]).
Proof.
  split; eexists _, _; (split; [vm_compute; reflexivity | discriminate]).
Qed.

(** ** Departments of a company *)

(** C4 fails on the code: [add_department] looks for the object, not for its
    name.  A second department named "Dev" is added to the sample company,
    which then holds two departments of that name. *)
Lemma add_department_accepts_a_used_name :
  snd ((d <- Department.__init__ (VStr "Dev") ;;
        Company.add_department 0%nat d ;;
        ds <- Company.get_departments 0%nat ;;
        map_m read_department ds) acme)
  = Ret [mkDepartment "Dev" [0; 1]%nat; mkDepartment "Sales" [2%nat];
         mkDepartment "Dev" []].
Proof. vm_compute. reflexivity. Qed.

(** C3 fails on the code: both departments of the sample hold an employee
    with id 1; the transfer from "A" to "B" raises [ValueError] in
    [add_employee] after [remove_employee] has emptied "A". *)
Lemma transfer_employee_loses_the_employee :
  exists s',
    Company.transfer_employee 0%nat (VInt 1) (VStr "A") (VStr "B") twins
      = (s', Raise ValueError) /\
    departments twins = [mkDepartment "A" [0%nat]; mkDepartment "B" [1%nat]] /\
    departments s' = [mkDepartment "A" []; mkDepartment "B" [1%nat]].
Proof. eexists. vm_compute. repeat split. Qed.

(** ** Computations that only read *)

Definition readonly {A} (m : M A) : Prop := forall s, fst (m s) = s.

(** [m] gives the same outcome in two stores related by [R]. *)
Definition respects {A} (R : store -> store -> Prop) (m : M A) : Prop :=
  forall s s', R s s' -> snd (m s) = snd (m s').

Lemma readonly_ret {A} (a : A) : readonly (ret a).
Proof. intros s; reflexivity. Qed.

Lemma readonly_raise {A} e : readonly (@raise A e).
Proof. intros s; reflexivity. Qed.

Lemma readonly_lift {A} (o : outcome A) : readonly (lift o).
Proof. intros s; reflexivity. Qed.

Lemma readonly_bind {A B} (m : M A) (k : A -> M B) :
  readonly m -> (forall a, readonly (k a)) -> readonly (bind m k).
Proof.
  intros Hm Hk s. unfold bind. specialize (Hm s).
  destruct (m s) as [s' [a|e]]; simpl in *; subst; [apply Hk | reflexivity].
Qed.

Lemma readonly_of_option {A} (o : option A) : readonly (of_option o).
Proof. destruct o; [apply readonly_ret | apply readonly_raise]. Qed.

Lemma readonly_read_employee r : readonly (read_employee r).
Proof. intros s. unfold read_employee. apply readonly_of_option. Qed.

Lemma readonly_read_department r : readonly (read_department r).
Proof. intros s. unfold read_department. apply readonly_of_option. Qed.

Lemma readonly_read_project r : readonly (read_project r).
Proof. intros s. unfold read_project. apply readonly_of_option. Qed.

Lemma readonly_read_company r : readonly (read_company r).
Proof. intros s. unfold read_company. apply readonly_of_option. Qed.

Lemma readonly_keeps {A} P (m : M A) : readonly m -> keeps P m.
Proof. intros H s Hs. rewrite H. exact Hs. Qed.

Lemma readonly_run {A} (m : M A) s : readonly m -> m s = (s, snd (m s)).
Proof. intros H. rewrite <- (H s) at 2. destruct (m s); reflexivity. Qed.

Lemma respects_ret {A} R (a : A) : respects R (ret a).
Proof. intros s s' _; reflexivity. Qed.

Lemma respects_raise {A} R e : respects R (@raise A e).
Proof. intros s s' _; reflexivity. Qed.

Lemma respects_lift {A} R (o : outcome A) : respects R (lift o).
Proof. intros s s' _; reflexivity. Qed.

Lemma respects_bind {A B} R (m : M A) (k : A -> M B) :
  readonly m -> respects R m -> (forall a, respects R (k a)) ->
  respects R (bind m k).
Proof.
  intros Hro Hm Hk s s' HR. unfold bind.
  specialize (Hm s s' HR).
  rewrite (readonly_run m s Hro), (readonly_run m s' Hro), <- Hm.
  destruct (snd (m s)) as [a|e]; [apply Hk, HR | reflexivity].
Qed.

Ltac readonly_step :=
  first [ apply readonly_ret | apply readonly_raise | apply readonly_lift
        | apply readonly_read_employee | apply readonly_read_department
        | apply readonly_read_project | apply readonly_read_company
        | apply readonly_bind; [| intros ?] ].

Lemma readonly_employees_equal x y : readonly (employees_equal x y).
Proof. unfold employees_equal. repeat readonly_step. Qed.

Lemma readonly_list_contains l x : readonly (list_contains l x).
Proof.
  induction l as [|y l IH]; simpl; [apply readonly_ret |].
  destruct (Nat.eqb y x); [apply readonly_ret |].
  apply readonly_bind; [apply readonly_employees_equal | intros []];
    [apply readonly_ret | exact IH].
Qed.

Lemma readonly_first_with_id l v : readonly (first_with_id l v).
Proof.
  induction l as [|y l IH]; simpl; [apply readonly_ret |].
  apply readonly_bind; [apply readonly_read_employee | intros e].
  destruct (Py.eq_int _ _); [apply readonly_ret | exact IH].
Qed.

Lemma readonly_dept_find d v : readonly (Department.find_employee_by_id d v).
Proof.
  unfold Department.find_employee_by_id.
  apply readonly_bind; [apply readonly_read_department | intros D].
  apply readonly_first_with_id.
Qed.

Lemma readonly_find_employee_in l v : readonly (Company.find_employee_in l v).
Proof.
  induction l as [|d l IH]; simpl; [apply readonly_ret |].
  apply readonly_bind; [apply readonly_dept_find | intros [r|]];
    [apply readonly_ret | exact IH].
Qed.

Lemma readonly_find_employee_by_id c v : readonly (Company.find_employee_by_id c v).
Proof.
  unfold Company.find_employee_by_id.
  apply readonly_bind; [apply readonly_read_company | intros C].
  apply readonly_find_employee_in.
Qed.

Lemma readonly_find_project_in l v : readonly (Company._find_project_in l v).
Proof.
  induction l as [|p l IH]; simpl; [apply readonly_ret |].
  apply readonly_bind; [apply readonly_read_project | intros P].
  destruct (Py.eq_int _ _); [apply readonly_ret | exact IH].
Qed.

Lemma readonly_find_project_by_id c v : readonly (Company._find_project_by_id c v).
Proof.
  unfold Company._find_project_by_id.
  apply readonly_bind; [apply readonly_read_company | intros C].
  apply readonly_find_project_in.
Qed.

(** Two stores with the same employee objects and the same departments. *)
Definition same_staff (s s' : store) : Prop :=
  employees s = employees s' /\ departments s = departments s'.

Lemma respects_read_employee r : respects same_staff (read_employee r).
Proof. intros s s' [H _]. unfold read_employee. rewrite H. destruct (_ !! _); reflexivity. Qed.

Lemma respects_read_department r : respects same_staff (read_department r).
Proof. intros s s' [_ H]. unfold read_department. rewrite H. destruct (_ !! _); reflexivity. Qed.

Lemma respects_first_with_id l v : respects same_staff (first_with_id l v).
Proof.
  induction l as [|y l IH]; simpl; [apply respects_ret |].
  apply respects_bind;
    [apply readonly_read_employee | apply respects_read_employee | intros e].
  destruct (Py.eq_int _ _); [apply respects_ret | exact IH].
Qed.

Lemma respects_find_employee_in l v : respects same_staff (Company.find_employee_in l v).
Proof.
  induction l as [|d l IH]; simpl; [apply respects_ret |].
  apply respects_bind; [apply readonly_dept_find | | intros [r|]];
    [| apply respects_ret | exact IH].
  unfold Department.find_employee_by_id.
  apply respects_bind;
    [apply readonly_read_department | apply respects_read_department | intros D].
  apply respects_first_with_id.
Qed.

(** The search of a company for an employee depends on the employee
    objects, the departments, and the company's list of departments. *)
Lemma find_employee_by_id_frame c v s s' o :
  same_staff s s' ->
  comp_departments <$> companies s !! c = comp_departments <$> companies s' !! c ->
  Company.find_employee_by_id c v s = (s, o) ->
  Company.find_employee_by_id c v s' = (s', o).
Proof.
  intros HR Hc H.
  rewrite (readonly_run _ s' (readonly_find_employee_by_id c v)). f_equal.
  apply (f_equal snd) in H. simpl in H. rewrite <- H. clear H.
  unfold Company.find_employee_by_id, bind, read_company.
  destruct (companies s !! c) as [C|], (companies s' !! c) as [C'|];
    simpl in *; try discriminate; try reflexivity.
  injection Hc as Hc. rewrite <- Hc.
  rewrite (readonly_run _ s (readonly_find_employee_in _ v)),
    (readonly_run _ s' (readonly_find_employee_in _ v)).
  rewrite (respects_find_employee_in _ v s s' HR).
  destruct (snd _); reflexivity.
Qed.

(** ** Loading a project and relinking its team *)

Lemma bind_readonly_run {A B} (m : M A) (k : A -> M B) s :
  readonly m ->
  bind m k s = match snd (m s) with
               | Ret a => k a s
               | Raise e => (s, Raise e)
               end.
Proof.
  intros H. unfold bind. rewrite (readonly_run m s H). simpl.
  destruct (snd (m s)); reflexivity.
Qed.

Lemma keeps_try_except {A} P (m h : M A) kinds :
  keeps P m -> keeps P h -> keeps P (try_except m kinds h).
Proof.
  intros Hm Hh s HP. unfold try_except. specialize (Hm s HP).
  destruct (m s) as [s' [a|e]]; simpl in *; [exact Hm |].
  destruct (existsb _ _); [apply Hh, Hm | exact Hm].
Qed.

(** The stores in which the staff and the departments of company [c] are
    those of [s0], and [project] is a project object. *)
Definition same_departments (c : cref) (project : pref) (s0 s : store) : Prop :=
  same_staff s0 s /\
  comp_departments <$> companies s0 !! c = comp_departments <$> companies s !! c /\
  is_Some (projects s !! project).

Lemma keeps_write_project c project s0 r p :
  keeps (same_departments c project s0) (write_project r p).
Proof.
  intros s (Hs & Hc & Hp). repeat split; try apply Hs; try exact Hc.
  simpl. apply lookup_lt_is_Some. rewrite length_insert.
  apply lookup_lt_is_Some, Hp.
Qed.

Lemma keeps_add_team_member c project s0 r e :
  keeps (same_departments c project s0) (Project.add_team_member r e).
Proof.
  unfold Project.add_team_member.
  apply keeps_bind; [apply readonly_keeps, readonly_read_project | intros p].
  apply keeps_bind; [apply readonly_keeps, readonly_list_contains | intros []].
  - apply keeps_raise.
  - apply keeps_write_project.
Qed.

Lemma keeps_assign c project s0 c' v w :
  keeps (same_departments c project s0) (Company.assign_employee_to_project c' v w).
Proof.
  unfold Company.assign_employee_to_project.
  apply keeps_bind;
    [apply readonly_keeps, readonly_find_employee_by_id | intros [e|]];
    [| apply keeps_raise].
  apply keeps_bind;
    [apply readonly_keeps, readonly_find_project_by_id | intros [p|]];
    [| apply keeps_raise].
  apply keeps_bind; [apply keeps_add_team_member | intros _; apply keeps_ret].
Qed.

Lemma keeps_relink c project s0 c' r emp_data :
  keeps (same_departments c project s0) (Company.relink c' r emp_data).
Proof.
  unfold Company.relink.
  apply keeps_bind; [apply keeps_lift | intros v].
  destruct (Py.truthy v); [| apply keeps_ret].
  apply keeps_try_except; [| apply keeps_ret].
  apply keeps_bind; [apply readonly_keeps, readonly_read_project | intros p].
  apply keeps_bind; [apply keeps_assign | intros _; apply keeps_ret].
Qed.

(** A team record whose id no department of the company holds leaves the
    store as it is and raises nothing. *)
Lemma relink_unresolved company project emp_data v s :
  Py.get emp_data "id" VNone = Ret v ->
  is_Some (projects s !! project) ->
  Company.find_employee_by_id company v s = (s, Ret None) ->
  Company.relink company project emp_data s = (s, Ret tt).
Proof.
  intros Hget [p Hp] Hfind. unfold Company.relink.
  unfold bind at 1, lift. rewrite Hget.
  destruct (Py.truthy v); [| reflexivity].
  unfold try_except, bind at 1, read_project. rewrite Hp. simpl.
  unfold bind at 1, Company.assign_employee_to_project, bind at 1.
  rewrite Hfind. reflexivity.
Qed.

Lemma bind_assoc {A B C} (m : M A) (k : A -> M B) (h : B -> M C) s :
  bind (bind m k) h s = bind m (fun a => bind (k a) h) s.
Proof. unfold bind. destruct (m s) as [s' [a|e]]; reflexivity. Qed.

Lemma bind_ext {A B} (m : M A) (k1 k2 : A -> M B) s :
  (forall s' a, m s = (s', Ret a) -> k1 a s' = k2 a s') ->
  bind m k1 s = bind m k2 s.
Proof.
  intros H. unfold bind. destruct (m s) as [s' [a|e]]; [apply H |]; reflexivity.
Qed.

Lemma for_each_app {A} (l1 l2 : list A) (body : A -> M unit) s :
  for_each (l1 ++ l2) body s = bind (for_each l1 body) (fun _ => for_each l2 body) s.
Proof.
  revert s. induction l1 as [|x l1 IH]; intros s; simpl.
  - reflexivity.
  - rewrite bind_assoc. apply bind_ext. intros s' _ _. apply IH.
Qed.

Lemma relink_team_skips company project before emp_data after v s0 s :
  Py.get emp_data "id" VNone = Ret v ->
  Company.find_employee_by_id company v s0 = (s0, Ret None) ->
  same_departments company project s0 s ->
  for_each (before ++ emp_data :: after) (Company.relink company project) s
  = for_each (before ++ after) (Company.relink company project) s.
Proof.
  intros Hget Hfind Hs. rewrite !for_each_app.
  apply bind_ext. intros s1 [] H1.
  pose proof (keeps_for_each (same_departments company project s0) before
                _ (keeps_relink company project s0 company project) s Hs) as Hs1.
  rewrite H1 in Hs1. destruct Hs1 as (Hst & Hc & Hp).
  simpl in *. rewrite (bind_run _ _ s1 s1 tt); [reflexivity |].
  apply (relink_unresolved company project emp_data v s1 Hget Hp).
  apply (find_employee_by_id_frame _ _ _ _ _ Hst Hc Hfind).
Qed.

Lemma assoc_dict_set_eq k v d : Py.assoc k (Py.dict_set k v d) = Some v.
Proof.
  induction d as [|[k' v'] d IH]; simpl.
  - rewrite String.eqb_refl. reflexivity.
  - destruct (String.eqb k k') eqn:E; simpl; rewrite E; [reflexivity | exact IH].
Qed.

Lemma assoc_dict_set_ne k k' v d :
  k <> k' -> Py.assoc k (Py.dict_set k' v d) = Py.assoc k d.
Proof.
  intros Hne. induction d as [|[k0 v0] d IH]; simpl.
  - apply String.eqb_neq in Hne. rewrite Hne. reflexivity.
  - destruct (String.eqb k' k0) eqn:E; simpl.
    + apply String.eqb_eq in E. subst k0.
      apply String.eqb_neq in Hne. rewrite Hne. reflexivity.
    + rewrite IH. reflexivity.
Qed.

Lemma from_dict_ignores_team d team team' :
  Project.from_dict (VDict (Py.dict_set "team" team d))
  = Project.from_dict (VDict (Py.dict_set "team" team' d)).
Proof.
  unfold Project.from_dict, Py.getitem, Py.get.
  rewrite !(assoc_dict_set_ne _ "team") by discriminate. reflexivity.
Qed.

Lemma from_dict_effect c data s s1 project :
  Project.from_dict data s = (s1, Ret project) ->
  same_departments c project s s1.
Proof.
  unfold Project.from_dict, bind, lift.
  destruct (obind _ _) as [[[[[i n] d] dl] st]|]; [| discriminate].
  unfold Project.__init__, bind, lift.
  destruct (obind _ _) as [p|]; [| discriminate].
  unfold new_project. intros [= <- <-].
  repeat split. simpl. rewrite lookup_app_r, Nat.sub_diag by lia.
  eexists; reflexivity.
Qed.

Lemma keeps_add_project c project s0 c' r :
  keeps (same_departments c project s0) (Company.add_project c' r).
Proof.
  intros s HP. unfold Company.add_project.
  rewrite (bind_readonly_run _ _ s (readonly_read_company c')).
  unfold read_company at 1.
  destruct (companies s !! c') as [C|] eqn:EC; simpl; [| exact HP].
  destruct (Company.same_object_in _ _); [exact HP |].
  rewrite (bind_readonly_run _ _ s (readonly_read_project r)).
  destruct (snd (read_project r s)) as [p|]; [| exact HP].
  rewrite (bind_readonly_run _ _ s (readonly_find_project_by_id c' _)).
  destruct (snd (Company._find_project_by_id c' _ s)) as [[q|]|]; try exact HP.
  destruct HP as (Hs & Hc & Hp). repeat split; try apply Hs; [| exact Hp].
  simpl. rewrite Hc. destruct (decide (c' = c)) as [->|Hne].
  - rewrite list_lookup_insert_eq by (eapply lookup_lt_Some; exact EC).
    rewrite EC. reflexivity.
  - rewrite list_lookup_insert_ne by exact Hne. reflexivity.
Qed.

(** A team record of a saved project whose employee id is found in no
    department of the company being loaded is skipped: the round of the
    loading loop for that project ends in the same store and with the same
    outcome as for the file without the record. *)
Lemma load_project_skips
    (company : cref) (d : list (string * pyval)) (before after : list pyval)
    (emp_data v : pyval) (s : store) :
  Py.get emp_data "id" VNone = Ret v ->
  Company.find_employee_by_id company v s = (s, Ret None) ->
  Company.load_project company
    (VDict (Py.dict_set "team" (VList (before ++ emp_data :: after)) d)) s
  = Company.load_project company
      (VDict (Py.dict_set "team" (VList (before ++ after)) d)) s.
Proof.
  intros Hget Hfind. unfold Company.load_project.
  rewrite (from_dict_ignores_team d _ (VList (before ++ after))).
  apply bind_ext. intros s1 project H1.
  apply (from_dict_effect company) in H1.
  apply bind_ext. intros s2 [] H2.
  pose proof (keeps_add_project company project s company project s1 H1) as Hs2.
  rewrite H2 in Hs2. simpl in Hs2.
  unfold Py.get. rewrite !assoc_dict_set_eq. simpl.
  rewrite !(bind_run (lift (Ret _)) _ s2 s2 _ eq_refl).
  apply (relink_team_skips company project before emp_data after v s s2 Hget Hfind Hs2).
Qed.

Example load_skips_the_unknown_id :
  exists s',
    Company.load_from_json "company.json" (disk ghost_file) = (s', Ret 0%nat) /\
    proj_team <$> projects s' !! 0%nat = Some [0; 1]%nat.
Proof. eexists. vm_compute. split; reflexivity. Qed.

(** C10.  Relinking catches [EmployeeNotFoundError] and
    [ProjectNotFoundError] and nothing else.  A team record without an id,
    or with the id 0, is skipped in any store whatever, so without a lookup;
    any other exception of the assignment leaves [relink] as it is raised;
    and the load of a file whose project lists the id of a department's
    employee twice ends with the [ValueError] of [add_team_member]. *)
Theorem relinking_suppresses_only_not_found :
  (forall company project d s,
      Py.assoc "id" d = None \/ Py.assoc "id" d = Some (VNum (PInt 0)) ->
      Company.relink company project (VDict d) s = (s, Ret tt)) /\
  (forall company project emp_data v p s s' e,
      Py.get emp_data "id" VNone = Ret v ->
      Py.truthy v = true ->
      projects s !! project = Some p ->
      Company.assign_employee_to_project company v (VNum (PInt (proj_id p))) s
        = (s', Raise e) ->
      (e = EmployeeNotFoundError \/ e = ProjectNotFoundError ->
       Company.relink company project emp_data s = (s', Ret tt)) /\
      (e <> EmployeeNotFoundError -> e <> ProjectNotFoundError ->
       Company.relink company project emp_data s = (s', Raise e))) /\
  (exists s',
      Company.load_from_json "company.json" (disk twice_file) = (s', Raise ValueError)).
Proof.
  split; [| split].
  - intros company project d s H. unfold Company.relink, bind, lift, Py.get.
    destruct H as [-> | ->]; reflexivity.
  - intros company project emp_data v p s s' e Hget Hv Hp Hrun.
    assert (Hrel : Company.relink company project emp_data s
                   = (s', if existsb (exn_eqb e)
                               [EmployeeNotFoundError; ProjectNotFoundError]
                          then Ret tt else Raise e)).
    { unfold Company.relink. unfold bind at 1, lift. rewrite Hget, Hv.
      unfold try_except, bind at 1, read_project. rewrite Hp. simpl.
      unfold bind at 1. rewrite Hrun.
      destruct (exn_eqb e EmployeeNotFoundError || _); reflexivity. }
    split.
    + intros [-> | ->]; exact Hrel.
    + intros H1 H2. rewrite Hrel. destruct e; try reflexivity; contradiction.
  - eexists. vm_compute. reflexivity.
Qed.

Lemma relinking_suppresses_only_not_found_witness :
  Company.relink 0%nat 0%nat (VDict [("id", VInt 7)]) acme = (acme, Raise ValueError).
Proof.
  refine (proj2 (proj1 (proj2 relinking_suppresses_only_not_found)
                   0%nat 0%nat (VDict [("id", VInt 7)]) (VInt 7) _ acme acme ValueError
                   _ _ _ _) _ _).
  - reflexivity.
  - reflexivity.
  - reflexivity.
  - vm_compute. reflexivity.
  - discriminate.
  - discriminate.
Defined.

(** * Further properties *)

Local Open Scope list_scope.

(** ** Employee records *)

Lemma all_skills_map stack :
  forallb (fun skill => negb (Py.blank skill)) stack = true ->
  Developer.all_skills (map VStr stack) = Some stack.
Proof.
  induction stack as [|t stack IH]; simpl; [reflexivity |].
  intros H. apply andb_prop in H as [Ht Hs]. apply negb_true_iff in Ht.
  rewrite Ht, (IH Hs). reflexivity.
Qed.

Lemma employee_init_valid i n d b :
  (0 <? i) = true -> Py.blank n = false -> Num.ltb b Num.zero = false ->
  Employee.__init__ (VNum (PInt i)) (VStr n) d (VNum b)
  = Ret (mkEmployee i n d b IsEmployee).
Proof.
  intros Hi Hn Hb. unfold Employee.__init__. simpl.
  apply Z.ltb_lt in Hi. destruct (Z.leb_spec i 0); [lia |]. simpl.
  rewrite Hn. simpl. rewrite Hb. reflexivity.
Qed.

Lemma employee_from_dict_run e s :
  valid_employee e = true ->
  Department._employee_from_dict (to_dict e) s = new_employee e s.
Proof.
  destruct e as [i n d b c]. unfold valid_employee.
  cbn [emp_id emp_name emp_base_salary emp_class_of].
  intros H. apply andb_prop in H as [H Hc]. apply andb_prop in H as [H Hb].
  apply andb_prop in H as [Hi Hn].
  apply negb_true_iff in Hn, Hb.
  pose proof (employee_init_valid i n d b Hi Hn Hb) as Hinit.
  unfold Department._employee_from_dict, to_dict.
  destruct c as [|bonus|stack level|rate volume]; cbn [emp_class_of].
  - unfold bind, lift. cbn. rewrite Hinit. reflexivity.
  - apply negb_true_iff in Hc.
    unfold bind, lift. cbn [Py.get Py.getitem Py.assoc Manager.to_dict Employee.to_dict Py.dict_set String.eqb Ascii.eqb Bool.eqb emp_id emp_name emp_department emp_base_salary Py.eq_str obind].
    unfold Manager.__init__. rewrite Hinit. cbn [obind Manager._validate_bonus].
    rewrite Hc. reflexivity.
  - apply andb_prop in Hc as [Hstack Hlevel].
    destruct (Developer.coefficient level _) as [k|] eqn:Ek; [| discriminate].
    unfold bind, lift. cbn [Py.get Py.getitem Py.assoc Developer.to_dict Employee.to_dict Py.dict_set String.eqb Ascii.eqb Bool.eqb emp_id emp_name emp_department emp_base_salary Py.eq_str obind].
    unfold Developer.__init__. rewrite Hinit. cbn [obind].
    assert (Hiter : (if Py.truthy (VList (map VStr stack))
                     then Py.iter (VList (map VStr stack)) else Ret [])
                    = Ret (match stack with [] => [] | _ => map VStr stack end)).
    { destruct stack; reflexivity. }
    rewrite Hiter. cbn [obind].
    unfold Developer._validate_seniority_level, Developer._validate_tech_stack.
    cbn [Py.hashable negb]. rewrite Ek. cbn [obind].
    rewrite (all_skills_map stack Hstack). reflexivity.
  - apply andb_prop in Hc as [Hc Hv]. apply andb_prop in Hc as [Hr0 Hr1].
    apply negb_true_iff in Hv, Hr0, Hr1.
    unfold bind, lift. cbn [Py.get Py.getitem Py.assoc Salesperson.to_dict Employee.to_dict Py.dict_set String.eqb Ascii.eqb Bool.eqb emp_id emp_name emp_department emp_base_salary Py.eq_str obind].
    unfold Salesperson.__init__. rewrite Hinit. cbn [obind].
    unfold Salesperson._validate_commission_rate, Salesperson._validate_sales_volume.
    rewrite Hr0, Hr1, Hv. reflexivity.
Qed.

(** X1.  Rebuilding an employee from the dict that [to_dict] gave for it
    creates an object with the same class and the same attributes. *)
Theorem employee_record_round_trip (e : employee) (s : store) :
  valid_employee e = true ->
  Department._employee_from_dict (to_dict e) s = new_employee e s.
Proof. apply employee_from_dict_run. Qed.

Lemma employee_record_round_trip_witness :
  Department._employee_from_dict (to_dict sample_salesperson) empty_store
  = new_employee sample_salesperson empty_store.
Proof. apply employee_record_round_trip. reflexivity. Defined.

(** ** The class invariant *)

Lemma validate_id_ok value v :
  Employee._validate_id value = Ret v -> (0 <? v) = true.
Proof.
  destruct value as [|[z|]| | |]; simpl; try discriminate.
  destruct (Z.leb_spec z 0); [discriminate |]. intros [= <-]. apply Z.ltb_lt. lia.
Qed.

Lemma validate_name_ok value v :
  Employee._validate_name value = Ret v -> negb (Py.blank v) = true.
Proof.
  destruct value as [| |n| |]; simpl; try discriminate.
  destruct (Py.blank n) eqn:E; [discriminate |]. intros [= <-]. rewrite E. reflexivity.
Qed.

Lemma validate_amount_ok value v :
  (match value with
   | VNum n => if Num.ltb n Num.zero then Raise ValueError else Ret n
   | _ => Raise ValueError
   end) = Ret v ->
  negb (Num.ltb v Num.zero) = true.
Proof.
  destruct value as [|n| | |]; try discriminate.
  destruct (Num.ltb n Num.zero) eqn:E; [discriminate |]. intros [= <-].
  rewrite E. reflexivity.
Qed.

Lemma validate_rate_ok value v :
  Salesperson._validate_commission_rate value = Ret v ->
  negb (Num.ltb v Num.zero) = true /\ negb (Num.ltb Num.one v) = true.
Proof.
  destruct value as [|n| | |]; simpl; try discriminate.
  destruct (Num.ltb n Num.zero) eqn:E0; [discriminate |].
  destruct (Num.ltb Num.one n) eqn:E1; [discriminate |]. simpl.
  intros [= <-]. rewrite E0, E1. split; reflexivity.
Qed.

Lemma validate_level_ok value v :
  Developer._validate_seniority_level value = Ret v ->
  exists c, Developer.coefficient v Developer.SENIORITY_COEFFICIENTS = Some c.
Proof.
  unfold Developer._validate_seniority_level.
  destruct (negb (Py.hashable value)); [discriminate |].
  destruct value as [| |l| |]; try discriminate.
  destruct (Developer.coefficient l _) as [c|] eqn:E; [| discriminate].
  intros [= <-]. exists c. exact E.
Qed.

Lemma all_skills_ok l stack :
  Developer.all_skills l = Some stack ->
  forallb (fun skill => negb (Py.blank skill)) stack = true.
Proof.
  revert stack. induction l as [|x l IH]; simpl; intros stack.
  - intros [= <-]. reflexivity.
  - destruct x as [| |t| |]; try discriminate.
    destruct (Py.blank t) eqn:E; [discriminate |].
    destruct (Developer.all_skills l) as [ss|]; [| discriminate].
    intros [= <-]. simpl. rewrite E, (IH ss eq_refl). reflexivity.
Qed.

Lemma Employee_init_valid id name department base_salary e :
  Employee.__init__ id name department base_salary = Ret e ->
  valid_employee e = true /\ emp_class_of e = IsEmployee.
Proof.
  unfold Employee.__init__. intros H.
  destruct (Employee._validate_id id) as [i|] eqn:Ei; [| discriminate]. simpl in H.
  destruct (Employee._validate_name name) as [n|] eqn:En; [| discriminate]. simpl in H.
  destruct (Employee._validate_base_salary base_salary) as [b|] eqn:Eb;
    [| discriminate]. simpl in H. injection H as <-.
  split; [| reflexivity]. unfold valid_employee. cbn [emp_id emp_name emp_base_salary emp_class_of].
  rewrite (validate_id_ok _ _ Ei), (validate_name_ok _ _ En),
    (validate_amount_ok _ _ Eb). reflexivity.
Qed.

Lemma valid_with_class e c :
  valid_employee e = true -> emp_class_of e = IsEmployee ->
  valid_employee (with_class c (mkEmployee (emp_id e) (emp_name e) (emp_department e)
                                  (emp_base_salary e) IsEmployee))
  = match c with
    | IsEmployee => true
    | IsManager bonus => negb (Num.ltb bonus Num.zero)
    | IsDeveloper stack level =>
        forallb (fun skill => negb (Py.blank skill)) stack
        && match Developer.coefficient level Developer.SENIORITY_COEFFICIENTS with
           | Some _ => true
           | None => false
           end
    | IsSalesperson rate volume =>
        negb (Num.ltb rate Num.zero) && negb (Num.ltb Num.one rate)
        && negb (Num.ltb volume Num.zero)
    end.
Proof.
  destruct e as [i n d b k]. unfold valid_employee, with_class.
  cbn [emp_id emp_name emp_base_salary emp_class_of emp_department].
  intros H ->. rewrite andb_true_r in H. rewrite H. reflexivity.
Qed.

(** X2.  Every employee object that a constructor returns satisfies the
    class invariant: the tests of the validators hold of its attributes
    (an amount is not below zero, a rate neither below 0 nor above 1; NaN
    passes these tests). *)
Theorem constructors_establish_invariant :
  (forall id name department base_salary e,
      Employee.__init__ id name department base_salary = Ret e ->
      valid_employee e = true) /\
  (forall id name department base_salary bonus e,
      Manager.__init__ id name department base_salary bonus = Ret e ->
      valid_employee e = true) /\
  (forall id name department base_salary tech_stack seniority_level e,
      Developer.__init__ id name department base_salary tech_stack seniority_level
        = Ret e ->
      valid_employee e = true) /\
  (forall id name department base_salary commission_rate sales_volume e,
      Salesperson.__init__ id name department base_salary commission_rate sales_volume
        = Ret e ->
      valid_employee e = true).
Proof.
  repeat split.
  - intros * H. apply (Employee_init_valid _ _ _ _ _ H).
  - intros * H. unfold Manager.__init__ in H.
    destruct (Employee.__init__ _ _ _ _) as [e0|] eqn:E0; [| discriminate].
    apply Employee_init_valid in E0 as [Hv Hc]. simpl in H.
    destruct (Manager._validate_bonus bonus) as [b|] eqn:Eb; [| discriminate].
    simpl in H. injection H as <-.
    destruct e0 as [i n d bs k]. simpl in Hc. subst k.
    rewrite (valid_with_class _ _ Hv eq_refl).
    apply (validate_amount_ok _ _ Eb).
  - intros * H. unfold Developer.__init__ in H.
    destruct (Employee.__init__ _ _ _ _) as [e0|] eqn:E0; [| discriminate].
    apply Employee_init_valid in E0 as [Hv Hc]. simpl in H.
    destruct (if Py.truthy tech_stack then _ else _); [| discriminate]. simpl in H.
    destruct (Developer._validate_seniority_level _) as [level|] eqn:El;
      [| discriminate]. simpl in H.
    destruct (Developer._validate_tech_stack _) as [stack|] eqn:Es; [| discriminate].
    simpl in H. injection H as <-.
    destruct e0 as [i n d bs k]. simpl in Hc. subst k.
    rewrite (valid_with_class _ _ Hv eq_refl).
    apply validate_level_ok in El as [c ->].
    unfold Developer._validate_tech_stack in Es.
    destruct tech_stack as [| | |l|]; try discriminate.
    destruct (Developer.all_skills l) as [ss|] eqn:Ess; [| discriminate].
    injection Es as <-. rewrite (all_skills_ok _ _ Ess). reflexivity.
  - intros * H. unfold Salesperson.__init__ in H.
    destruct (Employee.__init__ _ _ _ _) as [e0|] eqn:E0; [| discriminate].
    apply Employee_init_valid in E0 as [Hv Hc]. simpl in H.
    destruct (Salesperson._validate_commission_rate _) as [r|] eqn:Er;
      [| discriminate]. simpl in H.
    destruct (Salesperson._validate_sales_volume _) as [v|] eqn:Ev; [| discriminate].
    simpl in H. injection H as <-.
    destruct e0 as [i n d bs k]. simpl in Hc. subst k.
    rewrite (valid_with_class _ _ Hv eq_refl).
    apply validate_rate_ok in Er as [-> ->].
    rewrite (validate_amount_ok _ _ Ev). reflexivity.
Qed.

Lemma all_valid_lookup s r e :
  all_valid s -> employees s !! r = Some e -> valid_employee e = true.
Proof. intros H Hl. apply (Forall_lookup_1 _ _ _ _ H Hl). Qed.

Lemma all_valid_write s r e :
  all_valid s -> valid_employee e = true -> all_valid (fst (write_employee r e s)).
Proof. intros H He. apply Forall_insert; assumption. Qed.

(** A mutator that reads the object, computes its new attributes and
    writes them keeps the invariant when the new attributes satisfy it. *)
Lemma keeps_all_valid_update {A} (validate : outcome A) self
    (update : A -> employee -> M unit) :
  (forall v e s, validate = Ret v -> employees s !! self = Some e ->
                 valid_employee e = true -> all_valid s ->
                 all_valid (fst (update v e s))) ->
  keeps all_valid (v <- lift validate ;; e <- read_employee self ;; update v e).
Proof.
  intros Hu s Hs. unfold bind, lift, read_employee.
  destruct validate as [v|]; [| exact Hs].
  destruct (employees s !! self) as [e|] eqn:El; simpl; [| exact Hs].
  apply (Hu v e s eq_refl El (all_valid_lookup s self e Hs El) Hs).
Qed.

(** The same for a mutator that converts the value between the validation
    and the write. *)
Lemma keeps_all_valid_convert {A B} (validate : outcome A) (convert : A -> outcome B)
    self (update : B -> employee -> M unit) :
  (forall v x e s, validate = Ret v -> convert v = Ret x ->
                   employees s !! self = Some e ->
                   valid_employee e = true -> all_valid s ->
                   all_valid (fst (update x e s))) ->
  keeps all_valid (v <- lift validate ;; x <- lift (convert v) ;;
                   e <- read_employee self ;; update x e).
Proof.
  intros Hu s Hs. unfold bind, lift, read_employee.
  destruct validate as [v|]; [| exact Hs].
  destruct (convert v) as [x|] eqn:Ex; [| exact Hs].
  destruct (employees s !! self) as [e|] eqn:El; simpl; [| exact Hs].
  apply (Hu v x e s eq_refl Ex El (all_valid_lookup s self e Hs El) Hs).
Qed.

Ltac split_valid H :=
  unfold valid_employee in H |- *;
  cbn [emp_id emp_name emp_base_salary emp_class_of emp_department
       with_id with_name with_department with_base_salary with_class] in H |- *;
  rewrite ?andb_true_iff in H; rewrite ?andb_true_iff.

Lemma setter_keeps_invariant f self value : keeps all_valid (setattr f self value).
Proof.
  destruct f; simpl; try (apply keeps_raise);
    first [apply keeps_all_valid_convert; intros v x e s Hv Hx Hl He Hs
          | apply keeps_all_valid_update; intros v e s Hv Hl He Hs].
  - apply all_valid_write; [exact Hs |]. apply validate_id_ok in Hv.
    destruct e as [i n d b c]. split_valid He. tauto.
  - apply all_valid_write; [exact Hs |]. apply validate_name_ok in Hv.
    destruct e as [i n d b c]. split_valid He. tauto.
  - apply all_valid_write; [exact Hs |].
    destruct e as [i n d b c]. split_valid He. tauto.
  - apply all_valid_write; [exact Hs |]. apply validate_amount_ok in Hv.
    apply negb_true_iff in Hv.
    destruct e as [i n d b c]. split_valid He.
    rewrite (to_float_not_negative _ _ Hx Hv). tauto.
  - destruct (emp_class_of e) eqn:Ec; try exact Hs.
    apply all_valid_write; [exact Hs |]. apply validate_amount_ok in Hv.
    apply negb_true_iff in Hv.
    destruct e as [i n d b c]. simpl in Ec. subst c. split_valid He.
    rewrite (to_float_not_negative _ _ Hx Hv). tauto.
  - destruct (emp_class_of e) eqn:Ec; try exact Hs.
    apply all_valid_write; [exact Hs |]. apply validate_level_ok in Hv as [k Hk].
    destruct e as [i n d b c]. simpl in Ec. subst c. split_valid He.
    rewrite Hk. tauto.
  - destruct (emp_class_of e) eqn:Ec; try exact Hs.
    apply all_valid_write; [exact Hs |]. apply validate_rate_ok in Hv as [H0 H1].
    apply negb_true_iff in H0, H1.
    destruct e as [i n d b c]. simpl in Ec. subst c. split_valid He.
    rewrite (to_float_not_negative _ _ Hx H0), (to_float_at_most_one _ _ Hx H0 H1).
    tauto.
  - destruct (emp_class_of e) eqn:Ec; try exact Hs.
    apply all_valid_write; [exact Hs |]. apply validate_amount_ok in Hv.
    apply negb_true_iff in Hv.
    destruct e as [i n d b c]. simpl in Ec. subst c. split_valid He.
    rewrite (to_float_not_negative _ _ Hx Hv). tauto.
Qed.

(** X3.  The property setters, [update_sales] and [add_skill] keep the
    class invariant of every employee object of the store, whatever they
    are given and whether they return or raise: the tests of the
    validators still hold of every attribute. *)
Theorem mutators_keep_invariant (self : eref) (value : pyval) :
  (forall f, keeps all_valid (setattr f self value)) /\
  keeps all_valid (Salesperson.update_sales self value) /\
  keeps all_valid (Developer.add_skill self value).
Proof.
  split; [intros f; apply setter_keeps_invariant | split];
    apply keeps_all_valid_update; intros v e s Hv Hl He Hs.
  - destruct (emp_class_of e) eqn:Ec; try exact Hs.
    unfold bind, lift.
    destruct (Num.add sales_volume v) as [x|] eqn:Ex; [| exact Hs].
    apply all_valid_write; [exact Hs |]. apply validate_amount_ok in Hv.
    apply negb_true_iff in Hv.
    destruct e as [i n d b c]. simpl in Ec. subst c. split_valid He.
    destruct He as [He [Hrate Hvol]]. apply negb_true_iff in Hvol.
    rewrite (add_not_negative _ _ _ Ex Hvol Hv). tauto.
  - destruct (emp_class_of e) eqn:Ec; try exact Hs.
    destruct (existsb _ _); [exact Hs |].
    apply all_valid_write; [exact Hs |].
    assert (Hb : negb (Py.blank v) = true).
    { destruct value as [| |t| |]; try discriminate.
      destruct (Py.blank t) eqn:E; [discriminate |]. injection Hv as <-.
      rewrite E. reflexivity. }
    destruct e as [i n d b c]. simpl in Ec. subst c. split_valid He.
    rewrite forallb_app. simpl. rewrite Hb. rewrite !andb_true_iff. tauto.
Qed.

(** ** Dates *)

Lemma characters_ascii (l : list ascii) :
  Forall (fun c => (N_of_ascii c <? 128)%N = true) l ->
  Utf8.characters l = map (fun c => (N_of_ascii c, [c])) l.
Proof.
  induction 1 as [|c l Hc _ IH]; [reflexivity |].
  cbn [Utf8.characters map]. rewrite Hc, IH. reflexivity.
Qed.

Lemma code_points_ascii (l : list ascii) :
  Forall (fun c => (N_of_ascii c <? 128)%N = true) l ->
  Utf8.code_points (string_of_list_ascii l) = map N_of_ascii l.
Proof.
  intros H. unfold Utf8.code_points.
  rewrite list_ascii_of_string_of_list_ascii, (characters_ascii l H), map_map.
  reflexivity.
Qed.

Definition digit_code (k : nat) : N := N_of_ascii (Datetime.digit_char k).

Lemma digit_char_ascii k :
  (k < 10)%nat -> (N_of_ascii (Datetime.digit_char k) <? 128)%N = true.
Proof.
  intros H. do 10 (destruct k as [|k]; [reflexivity |]). lia.
Qed.

Lemma digit_digit_char k : (k < 10)%nat -> Datetime.digit (digit_code k) = Some k.
Proof.
  intros H. do 10 (destruct k as [|k]; [reflexivity |]). lia.
Qed.

Lemma digit_char_not_dash k :
  (k < 10)%nat -> (digit_code k =? 45)%N = false.
Proof.
  intros H. do 10 (destruct k as [|k]; [reflexivity |]). lia.
Qed.

Lemma year_field_digits y :
  (y <= 9999)%nat ->
  Datetime.year_field
    (digit_code (y / 1000 mod 10)) (digit_code (y / 100 mod 10))
    (digit_code (y / 10 mod 10)) (digit_code (y mod 10))
  = Some y.
Proof.
  intros H. unfold Datetime.year_field.
  rewrite !digit_digit_char by (apply Nat.mod_upper_bound; discriminate).
  f_equal. change (y <= 99 * 101)%nat in H.
  replace (y / 100)%nat with (y / 10 / 10)%nat
    by (rewrite Nat.Div0.div_div; reflexivity).
  replace (y / 1000)%nat with (y / 10 / 10 / 10)%nat
    by (rewrite !Nat.Div0.div_div; reflexivity).
  pose proof (Nat.div_mod_eq y 10).
  pose proof (Nat.div_mod_eq (y / 10) 10).
  pose proof (Nat.div_mod_eq (y / 10 / 10) 10).
  pose proof (Nat.div_mod_eq (y / 10 / 10 / 10) 10).
  pose proof (Nat.mod_upper_bound y 10).
  pose proof (Nat.mod_upper_bound (y / 10) 10).
  pose proof (Nat.mod_upper_bound (y / 10 / 10) 10).
  pose proof (Nat.mod_upper_bound (y / 10 / 10 / 10) 10).
  lia.
Qed.

(** A year of four digits is printed with its four digits. *)
Lemma decimal_four_digits y :
  (1000 <= y)%nat ->
  Datetime.decimal y
  = [Datetime.digit_char (y / 1000 mod 10); Datetime.digit_char (y / 100 mod 10);
     Datetime.digit_char (y / 10 mod 10); Datetime.digit_char (y mod 10)]%nat.
Proof.
  intros H. unfold Datetime.decimal.
  rewrite !(proj2 (Nat.leb_le _ _)) by lia. reflexivity.
Qed.

Lemma month_field_two_digits m :
  (1 <= m <= 12)%nat ->
  Datetime.month_field (map N_of_ascii (Datetime.two_digits m)) = Some m.
Proof.
  intros H. do 13 (destruct m as [|m]; [first [lia | reflexivity] |]). lia.
Qed.

Lemma day_field_two_digits d :
  (1 <= d <= 31)%nat ->
  Datetime.day_field (map N_of_ascii (Datetime.two_digits d)) = Some d.
Proof.
  intros H. do 32 (destruct d as [|d]; [first [lia | reflexivity] |]). lia.
Qed.

Lemma until_dash_two_digits m rest :
  Datetime.until_dash (map N_of_ascii (Datetime.two_digits m) ++ 45%N :: rest)
  = Some (map N_of_ascii (Datetime.two_digits m), rest).
Proof.
  unfold Datetime.two_digits. cbn [app map Datetime.until_dash].
  fold (digit_code (m / 10 mod 10)) (digit_code (m mod 10)).
  rewrite !digit_char_not_dash by (apply Nat.mod_upper_bound; discriminate).
  reflexivity.
Qed.

Lemma two_digits_ascii m :
  Forall (fun c => (N_of_ascii c <? 128)%N = true) (Datetime.two_digits m).
Proof.
  repeat constructor; apply digit_char_ascii, Nat.mod_upper_bound; discriminate.
Qed.

Lemma days_in_month_le y m : (Datetime.days_in_month y m <= 31)%nat.
Proof.
  unfold Datetime.days_in_month.
  do 12 (destruct m as [|m]; [try destruct (Datetime.is_leap y); lia |]). lia.
Qed.

(** Printing a date of a year of four digits and parsing the text gives
    the date back. *)
Lemma parse_strftime d :
  Datetime.valid d = true -> (1000 <= Datetime.year d)%nat ->
  Datetime.parse (Datetime.strftime d) = Some d.
Proof.
  intros Hv Hy. pose proof Hv as Hv'. destruct d as [y m dd].
  unfold Datetime.valid in Hv'. cbn [Datetime.year Datetime.month Datetime.day] in Hv', Hy.
  rewrite !andb_true_iff, !Nat.leb_le in Hv'.
  destruct Hv' as [[[[[Hy1 Hy2] Hm1] Hm2] Hd1] Hd2].
  pose proof (days_in_month_le y m).
  unfold Datetime.parse, Datetime.strftime.
  cbn [Datetime.year Datetime.month Datetime.day].
  rewrite (decimal_four_digits y Hy).
  rewrite code_points_ascii.
  2:{ cbn [app].
      do 5 (apply Forall_cons_2;
            [first [reflexivity
                   | apply digit_char_ascii, Nat.mod_upper_bound; discriminate] |]).
      apply Forall_app_2; [apply two_digits_ascii |].
      apply Forall_cons_2; [reflexivity | apply two_digits_ascii]. }
  cbn [app map]. rewrite map_app. cbn [map].
  change (N_of_ascii "-") with 45%N. change (45 =? 45)%N with true. cbv iota.
  fold (digit_code (y / 1000 mod 10)) (digit_code (y / 100 mod 10))
       (digit_code (y / 10 mod 10)) (digit_code (y mod 10)).
  rewrite (year_field_digits y Hy2), until_dash_two_digits.
  rewrite month_field_two_digits, day_field_two_digits by lia.
  rewrite Hv. reflexivity.
Qed.

Lemma parse_valid text d : Datetime.parse text = Some d -> Datetime.valid d = true.
Proof.
  unfold Datetime.parse.
  destruct (Utf8.code_points text) as [|y1 [|y2 [|y3 [|y4 [|dash rest]]]]];
    try discriminate.
  destruct (dash =? 45)%N; [| discriminate].
  destruct (Datetime.year_field _ _ _ _); [| discriminate].
  destruct (Datetime.until_dash rest) as [[mt dt]|]; [| discriminate].
  destruct (Datetime.month_field mt); [| discriminate].
  destruct (Datetime.day_field dt); [| discriminate].
  destruct (Datetime.valid _) eqn:E; [| discriminate].
  intros [= <-]. exact E.
Qed.

(** [strptime] reads the decimal digits of every script where the format
    has [%Y] and in the second place of a day from 10 to 29, and only the
    ASCII ones elsewhere; a year below 1000 is printed without padding and
    is then not read back. *)
Example strptime_reads_unicode_digits :
  Datetime.parse "２０２５-01-1٣" = Some (Datetime.mkDate 2025 1 13) /\
  Datetime.parse "2025-0١-13" = None /\
  Datetime.parse "2025-1- 5" = Some (Datetime.mkDate 2025 1 5).
Proof. vm_compute. repeat split; reflexivity. Qed.

Example strftime_does_not_pad_the_year :
  Datetime.parse "0999-01-01" = Some (Datetime.mkDate 999 1 1) /\
  Datetime.strftime (Datetime.mkDate 999 1 1) = "999-01-01" /\
  Datetime.parse "999-01-01" = None.
Proof. vm_compute. repeat split; reflexivity. Qed.

(** The no-break space U+00A0, whose encoding is the bytes 194 and 160,
    and the ideographic space U+3000 are white space. *)
Example blank_follows_unicode :
  Py.blank (String "194" (String "160" " 　")) = true /\
  Py.blank " é " = false /\ Py.blank "" = true.
Proof. vm_compute. repeat split; reflexivity. Qed.

Lemma reloadable_valid p : reloadable p = true -> valid_project p = true.
Proof. unfold reloadable. intros H. apply andb_prop in H as [H _]. exact H. Qed.

(** ** Project records *)

Lemma map_m_employee_to_dict s l es :
  employees_at s l es ->
  map_m Project._employee_to_dict l s = (s, Ret (map to_dict es)).
Proof.
  induction 1 as [|r e l es Hr _ IH]; simpl; [reflexivity |].
  unfold bind at 1, Project._employee_to_dict at 1, bind at 1, read_employee.
  rewrite Hr. simpl. unfold bind at 1. rewrite IH. reflexivity.
Qed.

Lemma project_init_valid p :
  reloadable p = true ->
  Project.__init__ (VNum (PInt (proj_id p))) (VStr (proj_name p)) (proj_description p)
    (VStr (Datetime.strftime (proj_deadline p))) (VStr (proj_status p))
  = new_project (Project.with_team [] p).
Proof.
  destruct p as [i n d dl st team]. unfold reloadable, valid_project.
  cbn [proj_id proj_name proj_deadline proj_status proj_description].
  rewrite !andb_true_iff. intros [[[[Hi Hn] Hd] Hs] Hy].
  apply Z.ltb_lt in Hi. apply negb_true_iff in Hn. apply Nat.leb_le in Hy.
  unfold Project.__init__, Project._validate_project_id, Project._validate_name,
    Project._validate_deadline, Project._validate_status, Datetime.strptime.
  destruct (Z.leb_spec i 0); [lia |]. cbn [obind].
  rewrite Hn. cbn [obind]. rewrite (parse_strftime dl Hd Hy). cbn [obind].
  rewrite Hs. reflexivity.
Qed.

(** X4.  A project whose deadline is in the year 1000 or later, saved
    with [to_dict] and rebuilt with [from_dict], is a new project object
    with the same id, name, description, deadline and status, and with an
    empty team. *)
Theorem project_record_round_trip
    (self : pref) (p : project) (es : list employee) (s : store) :
  projects s !! self = Some p ->
  reloadable p = true ->
  employees_at s (proj_team p) es ->
  exists data,
    Project.to_dict self s = (s, Ret data) /\
    Project.from_dict data s = new_project (Project.with_team [] p) s.
Proof.
  intros Hp Hv Hes. eexists. split.
  - unfold Project.to_dict, bind at 1, read_project. rewrite Hp. simpl.
    unfold bind at 1. rewrite (map_m_employee_to_dict s _ es Hes). reflexivity.
  - unfold Project.from_dict, bind at 1, lift. simpl.
    rewrite (project_init_valid p Hv). reflexivity.
Qed.

Lemma project_record_round_trip_witness :
  exists data,
    Project.to_dict 1%nat acme = (acme, Ret data) /\
    Project.from_dict data acme
    = new_project
        (mkProject 2 "App" (VStr "mobile app") (Datetime.mkDate 2025 6 1) "planning" [])
        acme.
Proof.
  apply (project_record_round_trip 1%nat
           (mkProject 2 "App" (VStr "mobile app") (Datetime.mkDate 2025 6 1) "planning"
              [0; 1]%nat)
           [mkEmployee 7 "Ann" (VStr "Dev") (PInt 70000) (IsManager (PInt 20000));
            mkEmployee 9 "Bob" (VStr "Dev") (PInt 50000) (IsDeveloper ["Python"] "senior")]
           acme).
  - reflexivity.
  - reflexivity.
  - repeat constructor.
Defined.

(** ** The status of a project *)

Lemma readonly_list_remove l x : readonly (list_remove l x).
Proof.
  induction l as [|y l IH]; simpl; [apply readonly_raise |].
  destruct (Nat.eqb y x); [apply readonly_ret |].
  apply readonly_bind; [apply readonly_employees_equal | intros []];
    [apply readonly_ret |].
  apply readonly_bind; [exact IH | intros; apply readonly_ret].
Qed.

Lemma validate_status_ok value st :
  Project._validate_status value = Ret st ->
  existsb (String.eqb st) Project.VALID_STATUSES = true.
Proof.
  destruct value as [| |t| |]; try discriminate.
  unfold Project._validate_status.
  destruct (existsb (String.eqb t) Project.VALID_STATUSES) eqn:E; [| discriminate].
  intros [= <-]. exact E.
Qed.

Lemma keeps_projects_write r p :
  valid_project p = true -> keeps all_projects_valid (write_project r p).
Proof. intros Hp s Hs. apply Forall_insert; assumption. Qed.

Lemma keeps_projects_update {A} (m : M A) self (update : A -> project -> M unit) :
  readonly m ->
  (forall v p, valid_project p = true -> keeps all_projects_valid (update v p)) ->
  keeps all_projects_valid (p <- read_project self ;; v <- m ;; update v p).
Proof.
  intros Hm Hu s Hs. unfold bind at 1, read_project.
  destruct (projects s !! self) as [p|] eqn:El; simpl; [| exact Hs].
  apply keeps_bind; [apply readonly_keeps, Hm | intros v | exact Hs].
  apply Hu. apply (Forall_lookup_1 _ _ _ _ Hs El).
Qed.

Lemma valid_with_team team p :
  valid_project (Project.with_team team p) = valid_project p.
Proof. reflexivity. Qed.

(** X5.  The invariant of projects: an id that is positive, a name that is
    not blank, a calendar date as deadline and one of the four statuses.
    Creating a project, changing its status and adding or removing a team
    member keep it for every project of the store. *)
Theorem projects_stay_valid :
  (forall project_id name description deadline status,
      keeps all_projects_valid
        (Project.__init__ project_id name description deadline status)) /\
  (forall self new_status,
      keeps all_projects_valid (Project.change_status self new_status)) /\
  (forall self employee,
      keeps all_projects_valid (Project.add_team_member self employee)) /\
  (forall self employee_id,
      keeps all_projects_valid (Project.remove_team_member self employee_id)).
Proof.
  repeat split.
  - intros * s Hs. unfold Project.__init__, bind, lift.
    destruct (Project._validate_project_id project_id) as [i|] eqn:Ei;
      [| exact Hs]. cbn [obind].
    destruct (Project._validate_name name) as [n|] eqn:En; [| exact Hs]. cbn [obind].
    destruct (Project._validate_deadline deadline) as [d|] eqn:Ed; [| exact Hs].
    cbn [obind].
    destruct (Project._validate_status status) as [st|] eqn:Est; [| exact Hs].
    cbn [obind]. simpl. apply Forall_app. split; [exact Hs |].
    constructor; [| constructor]. unfold valid_project.
    cbn [proj_id proj_name proj_deadline proj_status].
    rewrite (validate_status_ok _ _ Est), (validate_name_ok _ _ En),
      (validate_id_ok _ _ Ei).
    unfold Project._validate_deadline, Datetime.strptime in Ed.
    destruct deadline as [| |t| |]; try discriminate.
    destruct (Datetime.parse t) as [d'|] eqn:Ep; [| discriminate].
    injection Ed as <-. rewrite (parse_valid _ _ Ep). reflexivity.
  - intros self new_status. unfold Project.change_status.
    intros s Hs. unfold bind at 1, lift.
    destruct (Project._validate_status new_status) as [st|] eqn:Est; [| exact Hs].
    unfold bind, read_project. destruct (projects s !! self) as [p|] eqn:El;
      simpl; [| exact Hs].
    apply Forall_insert; [exact Hs |].
    pose proof (Forall_lookup_1 _ _ _ _ Hs El) as Hp. simpl in Hp.
    destruct p as [i n d dl st0 team]. unfold valid_project in *.
    cbn [proj_id proj_name proj_deadline proj_status Project.with_status] in *.
    rewrite !andb_true_iff in *. rewrite (validate_status_ok _ _ Est). tauto.
  - intros self employee. unfold Project.add_team_member.
    intros s Hs. unfold bind at 1, read_project.
    destruct (projects s !! self) as [p|] eqn:El; simpl; [| exact Hs].
    apply keeps_bind; [apply readonly_keeps, readonly_list_contains | | exact Hs].
    intros []; [apply keeps_raise |].
    apply keeps_projects_write. rewrite valid_with_team.
    apply (Forall_lookup_1 _ _ _ _ Hs El).
  - intros self employee_id. unfold Project.remove_team_member.
    apply keeps_bind.
    { apply readonly_keeps. unfold Project.find_team_member.
      apply readonly_bind; [apply readonly_read_project | intros p].
      apply readonly_first_with_id. }
    intros [employee|]; [| apply keeps_raise].
    intros s Hs. unfold bind at 1, read_project.
    destruct (projects s !! self) as [p|] eqn:El; simpl; [| exact Hs].
    apply keeps_bind; [apply readonly_keeps, readonly_list_remove | | exact Hs].
    intros rest. apply keeps_projects_write. rewrite valid_with_team.
    apply (Forall_lookup_1 _ _ _ _ Hs El).
Qed.

(** X6.  The status of a project can be changed to any of the four statuses
    from any status: only the status of that project changes.  Any other
    value raises [InvalidStatusError] and changes nothing. *)
Theorem change_status_is_permissive
    (self : pref) (p : project) (new_status : pyval) (s : store) :
  projects s !! self = Some p ->
  (forall st,
      new_status = VStr st ->
      In st ["planning"; "active"; "completed"; "cancelled"] ->
      Project.change_status self new_status s
      = (mkStore (employees s) (departments s)
           (<[self := mkProject (proj_id p) (proj_name p) (proj_description p)
                        (proj_deadline p) st (proj_team p)]> (projects s))
           (companies s) (files s),
         Ret tt)) /\
  ((forall st,
       new_status = VStr st ->
       ~ In st ["planning"; "active"; "completed"; "cancelled"]) ->
   Project.change_status self new_status s = (s, Raise InvalidStatusError)).
Proof.
  intros Hp. split.
  - intros st -> Hin. unfold Project.change_status, bind, lift, read_project.
    assert (Hok : Project._validate_status (VStr st) = Ret st).
    { simpl in Hin. destruct Hin as [<- | [<- | [<- | [<- | []]]]]; reflexivity. }
    rewrite Hok, Hp. reflexivity.
  - intros Hbad. unfold Project.change_status, bind, lift.
    assert (Hko : Project._validate_status new_status = Raise InvalidStatusError).
    { destruct new_status as [| |st| |]; try reflexivity.
      unfold Project._validate_status.
      destruct (existsb _ _) eqn:E; [| reflexivity].
      exfalso. apply (Hbad st eq_refl).
      apply existsb_exists in E as (x & Hx & Heq).
      apply String.eqb_eq in Heq. subst x. exact Hx. }
    rewrite Hko. reflexivity.
Qed.

Lemma change_status_is_permissive_witness :
  Project.change_status 2%nat (VStr "planning") acme
  = (mkStore (employees acme) (departments acme)
       (<[2%nat := mkProject 3 "Audit" VNone (Datetime.mkDate 2024 2 29) "planning" []]>
          (projects acme))
       (companies acme) (files acme),
     Ret tt).
Proof.
  apply (proj1 (change_status_is_permissive 2%nat
                  (mkProject 3 "Audit" VNone (Datetime.mkDate 2024 2 29) "completed" [])
                  (VStr "planning") acme eq_refl) "planning" eq_refl).
  simpl. tauto.
Defined.

(** ** Lists of employee objects, read through the store *)

Lemma employees_at_app s l1 l2 es1 es2 :
  employees_at s l1 es1 -> employees_at s l2 es2 ->
  employees_at s (l1 ++ l2) (es1 ++ es2).
Proof. apply Forall2_app. Qed.

Lemma employees_at_length s l es : employees_at s l es -> length l = length es.
Proof. apply Forall2_length. Qed.

(** [x in l] is true exactly when a member has the id of [x]: the same
    object has the same id. *)
Lemma list_contains_run s l es x ex :
  employees_at s l es -> employees s !! x = Some ex ->
  list_contains l x s = (s, Ret (existsb (fun e => emp_id e =? emp_id ex) es)).
Proof.
  intros Hl Hx. induction Hl as [|r e l es Hr _ IH]; simpl; [reflexivity |].
  destruct (Nat.eqb_spec r x) as [-> | Hne].
  - rewrite Hx in Hr. injection Hr as <-. rewrite Z.eqb_refl. reflexivity.
  - unfold bind at 1, employees_equal, bind at 1, read_employee.
    rewrite Hr. simpl. unfold bind at 1. rewrite Hx. simpl.
    unfold __eq__. destruct (emp_id e =? emp_id ex); [reflexivity | exact IH].
Qed.

Lemma first_with_id_run s l es v :
  employees_at s l es ->
  exists o, first_with_id l v s = (s, Ret o) /\ first_match v l es o.
Proof.
  induction 1 as [|r e l es Hr Hl IH]; simpl.
  - exists None. split; [reflexivity | constructor; constructor].
  - unfold bind, read_employee. rewrite Hr. simpl.
    destruct (Py.eq_int (emp_id e) v) eqn:E.
    + exists (Some r). split; [reflexivity |].
      apply (first_match_some v [] r l [] e es); [reflexivity | constructor | exact E].
    + destruct IH as (o & Ho & Hm). exists o. split; [exact Ho |].
      destruct Hm as [l' es' Hall | l1 r' l2 es1 e' es2 Hlen Hall He'].
      * constructor. constructor; assumption.
      * apply (first_match_some v (r :: l1) r' l2 (e :: es1) e' es2);
          [simpl; f_equal; exact Hlen | constructor; assumption | exact He'].
Qed.

Lemma employees_at_split s l1 r l2 es1 e es2 :
  length l1 = length es1 ->
  employees_at s (l1 ++ r :: l2) (es1 ++ e :: es2) ->
  employees_at s l1 es1 /\ employees s !! r = Some e /\ employees_at s l2 es2.
Proof.
  intros Hlen H. apply Forall2_app_inv in H as [H1 H2]; [| exact Hlen].
  inversion H2; subst. auto.
Qed.

Lemma list_remove_run s l1 r l2 es1 e es2 :
  length l1 = length es1 ->
  employees_at s (l1 ++ r :: l2) (es1 ++ e :: es2) ->
  Forall (fun e' => emp_id e' <> emp_id e) es1 ->
  list_remove (l1 ++ r :: l2) r s = (s, Ret (l1 ++ l2)).
Proof.
  revert es1. induction l1 as [|x l1 IH]; intros [|e1 es1] Hlen H Hne;
    try discriminate; simpl.
  - rewrite Nat.eqb_refl. reflexivity.
  - inversion H as [|? ? ? ? Hx Hrest]; subst.
    inversion Hne as [|? ? Hne1 Hne']; subst.
    assert (Hr : employees s !! r = Some e).
    { apply employees_at_split in Hrest as (_ & Hr & _); [exact Hr | ].
      simpl in Hlen. lia. }
    destruct (Nat.eqb_spec x r) as [-> | Hxr].
    + rewrite Hr in Hx. injection Hx as <-. contradiction.
    + unfold bind at 1, employees_equal, bind at 1, read_employee.
      rewrite Hx. simpl. unfold bind at 1. rewrite Hr. simpl.
      unfold __eq__. destruct (Z.eqb_spec (emp_id e1) (emp_id e)); [contradiction |].
      unfold bind. rewrite (IH es1); [reflexivity | simpl in Hlen; lia | exact Hrest
                                     | exact Hne'].
Qed.

Lemma eq_int_same_id a b v :
  Py.eq_int a v = true -> Py.eq_int b v = false -> b <> a.
Proof. intros Ha Hb ->. congruence. Qed.

(** ** Employees of a department *)

Lemma add_employee_run self d es emp e s :
  departments s !! self = Some d ->
  employees_at s (dept_employees d) es ->
  employees s !! emp = Some e ->
  Department.add_employee self emp s
  = if existsb (fun member => emp_id member =? emp_id e) es
    then (s, Raise ValueError)
    else (mkStore (employees s)
            (<[self := mkDepartment (dept_name d) (dept_employees d ++ [emp])]>
               (departments s))
            (projects s) (companies s) (files s),
          Ret tt).
Proof.
  intros Hd Hes He. unfold Department.add_employee, bind at 1, read_department.
  rewrite Hd. simpl. unfold bind.
  rewrite (list_contains_run s _ es emp e Hes He).
  destruct (existsb _ es); reflexivity.
Qed.

(** X7.  [add_employee] refuses an employee whose id a member of the
    department already has, with [ValueError] and without changing
    anything; otherwise it puts the employee at the end of the list of the
    department, and changes nothing else. *)
Theorem add_employee_appends_or_refuses
    (self : dref) (d : department) (es : list employee)
    (emp : eref) (e : employee) (s : store) :
  departments s !! self = Some d ->
  employees_at s (dept_employees d) es ->
  employees s !! emp = Some e ->
  (Exists (fun member => emp_id member = emp_id e) es ->
   Department.add_employee self emp s = (s, Raise ValueError)) /\
  (Forall (fun member => emp_id member <> emp_id e) es ->
   Department.add_employee self emp s
   = (mkStore (employees s)
        (<[self := mkDepartment (dept_name d) (dept_employees d ++ [emp])]>
           (departments s))
        (projects s) (companies s) (files s),
      Ret tt)).
Proof.
  intros Hd Hes He. rewrite (add_employee_run self d es emp e s Hd Hes He).
  split.
  - intros Hex. apply Exists_exists in Hex as (m & Hm & Hid).
    replace (existsb _ es) with true; [reflexivity |].
    symmetry. apply existsb_exists. exists m.
    split; [apply list_elem_of_In, Hm | apply Z.eqb_eq, Hid].
  - intros Hall. replace (existsb _ es) with false; [reflexivity |].
    symmetry. apply not_true_is_false. intros Hex.
    apply existsb_exists in Hex as (m & Hm & Hid).
    rewrite Forall_forall in Hall.
    apply (Hall m); [apply list_elem_of_In, Hm | apply Z.eqb_eq, Hid].
Qed.

Lemma remove_employee_run self d es employee_id s :
  departments s !! self = Some d ->
  employees_at s (dept_employees d) es ->
  (Forall (fun e => Py.eq_int (emp_id e) employee_id = false) es ->
   Department.remove_employee self employee_id s = (s, Raise ValueError)) /\
  (forall l1 r l2 es1 e es2,
      dept_employees d = l1 ++ r :: l2 -> es = es1 ++ e :: es2 ->
      length l1 = length es1 ->
      Forall (fun e' => Py.eq_int (emp_id e') employee_id = false) es1 ->
      Py.eq_int (emp_id e) employee_id = true ->
      Department.remove_employee self employee_id s
      = (mkStore (employees s)
           (<[self := mkDepartment (dept_name d) (l1 ++ l2)]> (departments s))
           (projects s) (companies s) (files s),
         Ret tt)).
Proof.
  intros Hd Hes.
  destruct (first_with_id_run s _ es employee_id Hes) as (o & Ho & Hm).
  assert (Hfind : Department.find_employee_by_id self employee_id s = (s, Ret o)).
  { unfold Department.find_employee_by_id, bind, read_department. rewrite Hd. exact Ho. }
  split.
  - intros Hnone. unfold Department.remove_employee, bind at 1. rewrite Hfind.
    destruct Hm as [? ? _ | l1 r l2 es1 e es2 _ _ He]; [reflexivity |].
    apply Forall_app in Hnone as [_ Hnone]. inversion Hnone; subst. congruence.
  - intros l1 r l2 es1 e es2 Hl -> Hlen Hbefore He.
    assert (o = Some r) as ->.
    { revert Ho. rewrite Hl. clear Hm Hfind.
      rewrite Hl in Hes. apply employees_at_split in Hes as (H1 & Hr & _);
        [| exact Hlen].
      clear Hl. revert es1 Hlen Hbefore H1.
      induction l1 as [|x l1 IH]; intros [|e1 es1] Hlen Hb H1; try discriminate; simpl.
      - unfold bind, read_employee. rewrite Hr. simpl. rewrite He.
        intros [= <-]. reflexivity.
      - inversion H1 as [|? ? ? ? Hx H1']; subst.
        inversion Hb as [|? ? Hbx Hb']; subst.
        unfold bind at 1, read_employee. rewrite Hx. simpl. rewrite Hbx.
        apply (IH es1); [simpl in Hlen; lia | assumption | assumption]. }
    unfold Department.remove_employee, bind at 1. rewrite Hfind.
    unfold bind at 1, read_department. rewrite Hd. simpl. unfold bind.
    rewrite Hl. rewrite Hl in Hes.
    rewrite (list_remove_run s l1 r l2 es1 e es2 Hlen Hes); [reflexivity |].
    eapply Forall_impl; [exact Hbefore |]. intros e' He'.
    apply (eq_int_same_id _ _ employee_id He He').
Qed.

(** X8.  [remove_employee] takes out of the department the first member
    whose id equals the given one and leaves the others in their order;
    when no member has that id it raises [ValueError] and changes nothing. *)
Theorem remove_employee_takes_the_first_match
    (self : dref) (d : department) (es : list employee)
    (employee_id : pyval) (s : store) :
  departments s !! self = Some d ->
  employees_at s (dept_employees d) es ->
  (Forall (fun e => Py.eq_int (emp_id e) employee_id = false) es ->
   Department.remove_employee self employee_id s = (s, Raise ValueError)) /\
  (forall l1 r l2 es1 e es2,
      dept_employees d = l1 ++ r :: l2 -> es = es1 ++ e :: es2 ->
      length l1 = length es1 ->
      Forall (fun e' => Py.eq_int (emp_id e') employee_id = false) es1 ->
      Py.eq_int (emp_id e) employee_id = true ->
      Department.remove_employee self employee_id s
      = (mkStore (employees s)
           (<[self := mkDepartment (dept_name d) (l1 ++ l2)]> (departments s))
           (projects s) (companies s) (files s),
         Ret tt)).
Proof.
  intros Hd Hes.
  destruct (remove_employee_run self d es employee_id s Hd Hes) as [Hnone Hsome].
  split.
  - exact Hnone.
  - intros l1 r l2 es1 e es2 Hl Hes12 Hlen Hb He.
    exact (Hsome l1 r l2 es1 e es2 Hl Hes12 Hlen Hb He).
Qed.

Lemma eq_int_int a b : Py.eq_int a (VNum (PInt b)) = (a =? b).
Proof.
  unfold Py.eq_int, Num.eqb, Num.val, Num.value_eqb.
  destruct (Z.eqb_spec a b) as [-> | Hne].
  - apply Qeq_bool_iff. reflexivity.
  - apply not_true_is_false. intros H. apply Qeq_bool_iff in H.
    exact (Hne (proj1 (inject_Z_injective a b) H)).
Qed.

Lemma eq_int_inj a b v : Py.eq_int a v = true -> Py.eq_int b v = true -> a = b.
Proof.
  destruct v as [|n| | |]; try discriminate. unfold Py.eq_int, Num.eqb.
  cbn [Num.val]. destruct (Num.val n) as [| |q]; try discriminate.
  unfold Num.value_eqb. intros Ha Hb. apply Qeq_bool_iff in Ha, Hb.
  apply (proj1 (inject_Z_injective a b)).
  rewrite Ha, Hb. reflexivity.
Qed.

Lemma first_with_id_none s l es v :
  employees_at s l es ->
  Forall (fun e => Py.eq_int (emp_id e) v = false) es ->
  first_with_id l v s = (s, Ret None).
Proof.
  induction 1 as [|r e l es Hr _ IH]; intros Hall; simpl; [reflexivity |].
  inversion Hall as [|? ? He Hall']; subst.
  unfold bind, read_employee. rewrite Hr. simpl. rewrite He. apply IH, Hall'.
Qed.

Lemma first_with_id_some s l1 r l2 es1 e es2 v :
  length l1 = length es1 ->
  employees_at s (l1 ++ r :: l2) (es1 ++ e :: es2) ->
  Forall (fun e' => Py.eq_int (emp_id e') v = false) es1 ->
  Py.eq_int (emp_id e) v = true ->
  first_with_id (l1 ++ r :: l2) v s = (s, Ret (Some r)).
Proof.
  revert es1. induction l1 as [|x l1 IH]; intros [|e1 es1] Hlen H Hb He;
    try discriminate; simpl.
  - inversion H as [|? ? ? ? Hr _]; subst.
    unfold bind, read_employee. rewrite Hr. simpl. rewrite He. reflexivity.
  - inversion H as [|? ? ? ? Hx H']; subst.
    inversion Hb as [|? ? Hbx Hb']; subst.
    unfold bind at 1, read_employee. rewrite Hx. simpl. rewrite Hbx.
    apply (IH es1); [simpl in Hlen; lia | assumption | assumption | assumption].
Qed.

Lemma employees_at_same s s' l es :
  employees s = employees s' -> employees_at s l es -> employees_at s' l es.
Proof. intros H. unfold employees_at. rewrite H. auto. Qed.

(** X9.  Lookup after an update of a department.  An employee that
    [add_employee] accepted is the one that [find_employee_by_id] returns
    for its id; and in a department whose members have pairwise distinct
    ids, an id that [remove_employee] removed is no longer found. *)
Theorem department_lookup_after_update
    (self : dref) (d : department) (es : list employee) (s s' : store) :
  departments s !! self = Some d ->
  employees_at s (dept_employees d) es ->
  (forall emp e,
      employees s !! emp = Some e ->
      Department.add_employee self emp s = (s', Ret tt) ->
      Department.find_employee_by_id self (VNum (PInt (emp_id e))) s'
      = (s', Ret (Some emp))) /\
  (forall employee_id,
      NoDup (map emp_id es) ->
      Department.remove_employee self employee_id s = (s', Ret tt) ->
      Department.find_employee_by_id self employee_id s' = (s', Ret None)).
Proof.
  intros Hd Hes.
  assert (Hlen : (self < length (departments s))%nat) by (eapply lookup_lt_Some; exact Hd).
  split.
  - intros emp e He Hadd.
    rewrite (add_employee_run self d es emp e s Hd Hes He) in Hadd.
    destruct (existsb _ es) eqn:Hex; [discriminate |]. injection Hadd as <-.
    unfold Department.find_employee_by_id, bind, read_department. simpl.
    rewrite list_lookup_insert_eq by exact Hlen. simpl.
    apply (first_with_id_some _ _ emp [] es e []).
    + apply (employees_at_length _ _ _ Hes).
    + apply employees_at_app; [exact Hes | repeat constructor; exact He].
    + apply Forall_forall. intros m Hm. rewrite eq_int_int.
      destruct (emp_id m =? emp_id e) eqn:E; [| reflexivity].
      rewrite <- Hex. symmetry. apply existsb_exists. exists m.
      split; [apply list_elem_of_In; exact Hm | exact E].
    + rewrite eq_int_int. apply Z.eqb_refl.
  - intros employee_id Hnd Hrem.
    destruct (first_with_id_run s _ es employee_id Hes) as (o & Ho & Hm).
    destruct (remove_employee_run self d es employee_id s Hd Hes)
      as [Hnone Hsome].
    destruct Hm as [l es0 Hall | l1 r l2 es1 e es2 Hl12 Hb He].
    + rewrite (Hnone Hall) in Hrem. discriminate.
    + pose proof Hes as Hes'. apply employees_at_split in Hes' as (H1 & Hr & H2);
        [| exact Hl12].
      rewrite (Hsome l1 r l2 es1 e es2 eq_refl eq_refl Hl12 Hb He) in Hrem.
      injection Hrem as <-.
      unfold Department.find_employee_by_id, bind, read_department. simpl.
      rewrite list_lookup_insert_eq by exact Hlen. simpl.
      apply (first_with_id_none _ _ (es1 ++ es2)).
      * apply employees_at_app; assumption.
      * apply Forall_app. split; [exact Hb |].
        rewrite map_app in Hnd. simpl in Hnd.
        apply NoDup_app in Hnd as (_ & _ & Hnd2).
        apply NoDup_cons in Hnd2 as [Hnotin _].
        apply Forall_forall. intros m Hm.
        destruct (Py.eq_int (emp_id m) employee_id) eqn:E; [| reflexivity].
        exfalso. apply Hnotin. rewrite <- (eq_int_inj _ _ _ E He).
        apply list_elem_of_fmap. exists m. split; [reflexivity | exact Hm].
Qed.

Lemma add_employee_appends_or_refuses_witness :
  Department.add_employee 0%nat 0%nat acme = (acme, Raise ValueError) /\
  Department.add_employee 0%nat 2%nat acme
  = (mkStore (employees acme)
       (<[0%nat := mkDepartment "Dev" [0; 1; 2]%nat]> (departments acme))
       (projects acme) (companies acme) (files acme),
     Ret tt).
Proof.
  split.
  - apply (proj1 (add_employee_appends_or_refuses 0%nat dev [ann; bob] 0%nat ann acme
                    eq_refl ltac:(repeat constructor) eq_refl)).
    left. reflexivity.
  - apply (proj2 (add_employee_appends_or_refuses 0%nat dev [ann; bob] 2%nat
                    sample_salesperson acme
                    eq_refl ltac:(repeat constructor) eq_refl)).
    repeat constructor; discriminate.
Defined.

Lemma remove_employee_takes_the_first_match_witness :
  Department.remove_employee 0%nat (VInt 9) acme
  = (mkStore (employees acme)
       (<[0%nat := mkDepartment "Dev" [0%nat]]> (departments acme))
       (projects acme) (companies acme) (files acme),
     Ret tt).
Proof.
  apply (proj2 (remove_employee_takes_the_first_match 0%nat dev [ann; bob] (VInt 9) acme
                  eq_refl ltac:(repeat constructor))
           [0%nat] 1%nat [] [ann] bob []);
    try reflexivity.
  repeat constructor.
Defined.

Lemma department_lookup_after_update_witness :
  Department.find_employee_by_id 0%nat (VInt 9)
    (fst (Department.remove_employee 0%nat (VInt 9) acme))
  = (fst (Department.remove_employee 0%nat (VInt 9) acme), Ret None).
Proof.
  apply (proj2 (department_lookup_after_update 0%nat dev [ann; bob] acme _
                  eq_refl ltac:(repeat constructor)) (VInt 9)).
  - apply NoDup_cons. split; [| apply NoDup_singleton].
    intros H. apply list_elem_of_singleton in H. discriminate.
  - vm_compute. reflexivity.
Defined.

(** ** Transfers between departments *)

Lemma readonly_find_department_in l name : readonly (Company._find_department_in l name).
Proof.
  induction l as [|d l IH]; simpl; [apply readonly_ret |].
  apply readonly_bind; [apply readonly_read_department | intros D].
  destruct (Py.eq_str _ _); [apply readonly_ret | exact IH].
Qed.

Lemma readonly_find_department_by_name c name :
  readonly (Company._find_department_by_name c name).
Proof.
  unfold Company._find_department_by_name.
  apply readonly_bind; [apply readonly_read_company | intros C].
  apply readonly_find_department_in.
Qed.

(** The exceptions that [m] can raise are among [kinds]. *)
Definition raises_only {A} (m : M A) (kinds : list exn) : Prop :=
  forall s s' e, m s = (s', Raise e) -> In e kinds.

Lemma raises_only_ret {A} (a : A) kinds : raises_only (ret a) kinds.
Proof. intros s s' e [=]. Qed.

Lemma raises_only_raise {A} e kinds : In e kinds -> raises_only (@raise A e) kinds.
Proof. intros H s s' e' [= _ <-]. exact H. Qed.

Lemma raises_only_bind {A B} (m : M A) (k : A -> M B) kinds :
  raises_only m kinds -> (forall a, raises_only (k a) kinds) ->
  raises_only (bind m k) kinds.
Proof.
  intros Hm Hk s s' e. unfold bind.
  destruct (m s) as [s1 [a|e1]] eqn:E.
  - apply Hk.
  - intros [= _ <-]. apply (Hm s s1 e1 E).
Qed.

Lemma raises_only_of_option {A} (o : option A) kinds :
  In NoSuchObject kinds -> raises_only (of_option o) kinds.
Proof.
  intros H. destruct o; [apply raises_only_ret | apply raises_only_raise, H].
Qed.

Lemma raises_only_read_employee r kinds :
  In NoSuchObject kinds -> raises_only (read_employee r) kinds.
Proof. intros H s. unfold read_employee. apply raises_only_of_option, H. Qed.

Lemma raises_only_read_department r kinds :
  In NoSuchObject kinds -> raises_only (read_department r) kinds.
Proof. intros H s. unfold read_department. apply raises_only_of_option, H. Qed.

Lemma raises_only_list_contains l x kinds :
  In NoSuchObject kinds -> raises_only (list_contains l x) kinds.
Proof.
  intros H. induction l as [|y l IH]; simpl; [apply raises_only_ret |].
  destruct (Nat.eqb y x); [apply raises_only_ret |].
  apply raises_only_bind.
  - unfold employees_equal. apply raises_only_bind;
      [apply raises_only_read_employee, H | intros a].
    apply raises_only_bind; [apply raises_only_read_employee, H | intros b].
    apply raises_only_ret.
  - intros []; [apply raises_only_ret | exact IH].
Qed.

Lemma raises_only_list_remove l x kinds :
  In NoSuchObject kinds -> In ValueError kinds -> raises_only (list_remove l x) kinds.
Proof.
  intros H Hv. induction l as [|y l IH]; simpl; [apply raises_only_raise, Hv |].
  destruct (Nat.eqb y x); [apply raises_only_ret |].
  apply raises_only_bind.
  - unfold employees_equal. apply raises_only_bind;
      [apply raises_only_read_employee, H | intros a].
    apply raises_only_bind; [apply raises_only_read_employee, H | intros b].
    apply raises_only_ret.
  - intros []; [apply raises_only_ret |].
    apply raises_only_bind; [exact IH | intros; apply raises_only_ret].
Qed.

Lemma raises_only_first_with_id l v kinds :
  In NoSuchObject kinds -> raises_only (first_with_id l v) kinds.
Proof.
  intros H. induction l as [|y l IH]; simpl; [apply raises_only_ret |].
  apply raises_only_bind; [apply raises_only_read_employee, H | intros e].
  destruct (Py.eq_int _ _); [apply raises_only_ret | exact IH].
Qed.

Lemma add_employee_raises self emp :
  raises_only (Department.add_employee self emp) [ValueError; NoSuchObject].
Proof.
  unfold Department.add_employee.
  apply raises_only_bind; [apply raises_only_read_department; simpl; auto | intros d].
  apply raises_only_bind; [apply raises_only_list_contains; simpl; auto | intros []].
  - apply raises_only_raise. simpl. auto.
  - intros s s' e [=].
Qed.

Lemma remove_employee_raises self v :
  raises_only (Department.remove_employee self v) [ValueError; NoSuchObject].
Proof.
  unfold Department.remove_employee.
  apply raises_only_bind.
  { unfold Department.find_employee_by_id.
    apply raises_only_bind; [apply raises_only_read_department; simpl; auto | intros d].
    apply raises_only_first_with_id. simpl. auto. }
  intros [r|]; [| apply raises_only_raise; simpl; auto].
  apply raises_only_bind; [apply raises_only_read_department; simpl; auto | intros d].
  apply raises_only_bind; [apply raises_only_list_remove; simpl; auto | intros rest].
  intros s s' e [=].
Qed.

(** X10.  A transfer that fails because the source department, the target
    department or the employee is not found ([DepartmentNotFoundError],
    [EmployeeNotFoundError]) has changed nothing. *)
Theorem transfer_not_found_changes_nothing
    (self : cref) (employee_id from_dept to_dept : pyval) (s s' : store) (e : exn) :
  Company.transfer_employee self employee_id from_dept to_dept s = (s', Raise e) ->
  e = DepartmentNotFoundError \/ e = EmployeeNotFoundError ->
  s' = s.
Proof.
  unfold Company.transfer_employee. intros Hrun He.
  rewrite (bind_readonly_run _ _ s (readonly_find_department_by_name self from_dept))
    in Hrun.
  destruct (snd (Company._find_department_by_name self from_dept s)) as [src|];
    [| congruence].
  rewrite (bind_readonly_run _ _ s (readonly_find_department_by_name self to_dept))
    in Hrun.
  destruct (snd (Company._find_department_by_name self to_dept s)) as [tgt|];
    [| congruence].
  destruct src as [src|]; [| injection Hrun as <- _; reflexivity].
  destruct tgt as [tgt|]; [| injection Hrun as <- _; reflexivity].
  rewrite (bind_readonly_run _ _ s (readonly_dept_find src employee_id)) in Hrun.
  destruct (snd (Department.find_employee_by_id src employee_id s)) as [[emp|]|];
    [| injection Hrun as <- _; reflexivity | congruence].
  exfalso. unfold bind at 1 in Hrun.
  destruct (Department.remove_employee src employee_id s) as [s1 [[]|e1]] eqn:E1.
  - unfold bind at 1 in Hrun.
    destruct (Department.add_employee tgt emp s1) as [s2 [[]|e2]] eqn:E2;
      [discriminate |].
    injection Hrun as _ <-. apply add_employee_raises in E2.
    simpl in E2. destruct He; subst; intuition discriminate.
  - injection Hrun as _ <-. apply remove_employee_raises in E1.
    simpl in E1. destruct He; subst; intuition discriminate.
Qed.

Lemma transfer_not_found_changes_nothing_witness :
  fst (Company.transfer_employee 0%nat (VInt 4) (VStr "Dev") (VStr "Sales") acme) = acme.
Proof.
  apply (transfer_not_found_changes_nothing 0%nat (VInt 4) (VStr "Dev") (VStr "Sales")
           acme _ EmployeeNotFoundError).
  - vm_compute. reflexivity.
  - right. reflexivity.
Defined.

(** X11.  A transfer whose departments are found, whose employee is the
    first member of the source with the given id, and whose target holds
    (once the employee is out of the source) no member with the same id,
    takes the employee out of the source, keeps the other members in order,
    puts the employee at the end of the target and returns [True].  Within
    one department this moves the employee to the end. *)
Theorem transfer_moves_the_employee
    (self : cref) (employee_id from_dept to_dept : pyval)
    (src tgt : dref) (dsrc dtgt : department)
    (l1 : list eref) (r : eref) (l2 : list eref)
    (es1 : list employee) (e : employee) (es2 : list employee)
    (rest : list eref) (members : list employee) (s : store) :
  Company._find_department_by_name self from_dept s = (s, Ret (Some src)) ->
  Company._find_department_by_name self to_dept s = (s, Ret (Some tgt)) ->
  departments s !! src = Some dsrc ->
  departments s !! tgt = Some dtgt ->
  dept_employees dsrc = l1 ++ r :: l2 ->
  employees_at s (l1 ++ r :: l2) (es1 ++ e :: es2) ->
  length l1 = length es1 ->
  Forall (fun m => Py.eq_int (emp_id m) employee_id = false) es1 ->
  Py.eq_int (emp_id e) employee_id = true ->
  rest = (if Nat.eqb tgt src then l1 ++ l2 else dept_employees dtgt) ->
  employees_at s rest members ->
  Forall (fun m => emp_id m <> emp_id e) members ->
  Company.transfer_employee self employee_id from_dept to_dept s
  = (mkStore (employees s)
       (<[tgt := mkDepartment (dept_name dtgt) (rest ++ [r])]>
          (<[src := mkDepartment (dept_name dsrc) (l1 ++ l2)]> (departments s)))
       (projects s) (companies s) (files s),
     Ret true).
Proof.
  intros Hsrc Htgt Hds Hdt Hl Hes Hlen Hb He Hrest Hmem Hne.
  assert (Hfind : Department.find_employee_by_id src employee_id s = (s, Ret (Some r))).
  { unfold Department.find_employee_by_id, bind, read_department. rewrite Hds. simpl.
    rewrite Hl. apply (first_with_id_some s l1 r l2 es1 e es2); assumption. }
  assert (Hes' : employees_at s (dept_employees dsrc) (es1 ++ e :: es2))
    by (rewrite Hl; exact Hes).
  pose proof (proj2 (remove_employee_run src dsrc _ employee_id s Hds Hes')
                l1 r l2 es1 e es2 Hl eq_refl Hlen Hb He) as Hrem.
  unfold Company.transfer_employee.
  rewrite (bind_run _ _ _ _ _ Hsrc), (bind_run _ _ _ _ _ Htgt),
    (bind_run _ _ _ _ _ Hfind), (bind_run _ _ _ _ _ Hrem).
  set (s1 := mkStore _ _ _ _ _).
  assert (Hr : employees s1 !! r = Some e).
  { apply employees_at_split in Hes as (_ & Hr & _); [exact Hr | exact Hlen]. }
  assert (Hsl : (src < length (departments s))%nat)
    by (eapply lookup_lt_Some; exact Hds).
  assert (Hdt1 : departments s1 !! tgt = Some (mkDepartment (dept_name dtgt) rest)).
  { subst s1. cbn [departments]. destruct (Nat.eqb_spec tgt src) as [-> | Hts].
    - rewrite list_lookup_insert_eq by exact Hsl.
      rewrite Hds in Hdt. injection Hdt as <-. rewrite Hrest. reflexivity.
    - rewrite list_lookup_insert_ne by (intros H; apply Hts; symmetry; exact H).
      transitivity (Some dtgt); [exact Hdt |].
      rewrite Hrest. destruct dtgt; reflexivity. }
  pose proof (add_employee_run tgt _ members r e s1 Hdt1 Hmem Hr) as Hadd.
  replace (existsb _ members) with false in Hadd.
  - rewrite (bind_run _ _ _ _ _ Hadd). reflexivity.
  - symmetry. apply not_true_is_false. intros Hex.
    apply existsb_exists in Hex as (m & Hm & Hid).
    rewrite Forall_forall in Hne.
    apply (Hne m); [apply list_elem_of_In, Hm | apply Z.eqb_eq, Hid].
Qed.

Lemma transfer_moves_the_employee_witness :
  Company.transfer_employee 0%nat (VInt 9) (VStr "Dev") (VStr "Sales") acme
  = (mkStore (employees acme)
       (<[1%nat := mkDepartment "Sales" [2; 1]%nat]>
          (<[0%nat := mkDepartment "Dev" [0%nat]]> (departments acme)))
       (projects acme) (companies acme) (files acme),
     Ret true).
Proof.
  apply (transfer_moves_the_employee 0%nat (VInt 9) (VStr "Dev") (VStr "Sales")
           0%nat 1%nat dev (mkDepartment "Sales" [2%nat])
           [0%nat] 1%nat [] [ann] bob [] [2%nat] [sample_salesperson] acme);
    try reflexivity.
  - repeat constructor.
  - repeat constructor.
  - repeat constructor.
  - repeat constructor. discriminate.
Defined.

(** ** Projects of a company *)

Lemma find_project_in_run s l ps v :
  projects_at s l ps ->
  exists o,
    Company._find_project_in l v s = (s, Ret o) /\
    (o = None <-> Forall (fun p => Py.eq_int (proj_id p) v = false) ps) /\
    (forall r, o = Some r ->
               In r l /\ exists p, projects s !! r = Some p /\
                                   Py.eq_int (proj_id p) v = true).
Proof.
  induction 1 as [|r p l ps Hr _ IH]; simpl.
  - exists None. split; [reflexivity |]. split; [split; auto | discriminate].
  - unfold bind, read_project. rewrite Hr. simpl.
    destruct (Py.eq_int (proj_id p) v) eqn:E.
    + exists (Some r). split; [reflexivity |]. split.
      * split; [discriminate |]. intros H. inversion H; subst. congruence.
      * intros r' [= <-]. split; [left; reflexivity | exists p; auto].
    + destruct IH as (o & Ho & Hnone & Hsome). exists o. split; [exact Ho |]. split.
      * rewrite Hnone. split; [intros H; constructor; assumption |].
        intros H. inversion H; subst. assumption.
      * intros r' Hr'. destruct (Hsome r' Hr') as [Hin Hp].
        split; [right; exact Hin | exact Hp].
Qed.

Lemma add_project_run self c ps prj p s :
  companies s !! self = Some c ->
  projects_at s (comp_projects c) ps ->
  projects s !! prj = Some p ->
  Company.add_project self prj s
  = if Company.same_object_in prj (comp_projects c) then (s, Raise ValueError)
    else if existsb (fun q => proj_id q =? proj_id p) ps
         then (s, Raise DuplicateIdError)
         else (mkStore (employees s) (departments s) (projects s)
                 (<[self := mkCompany (comp_name c) (comp_departments c)
                              (comp_projects c ++ [prj])]> (companies s))
                 (files s),
               Ret tt).
Proof.
  intros Hc Hps Hp. unfold Company.add_project, bind at 1, read_company.
  rewrite Hc. simpl. destruct (Company.same_object_in _ _); [reflexivity |].
  unfold bind at 1, read_project. rewrite Hp. simpl.
  unfold bind at 1, Company._find_project_by_id, bind at 1, read_company.
  rewrite Hc. simpl.
  destruct (find_project_in_run s _ ps (VNum (PInt (proj_id p))) Hps)
    as (o & Ho & Hnone & Hsome).
  rewrite Ho. destruct o as [r|].
  - replace (existsb _ ps) with true; [reflexivity |].
    symmetry. destruct (existsb _ ps) eqn:E; [reflexivity |].
    assert (Hall : Forall (fun q => Py.eq_int (proj_id q) (VNum (PInt (proj_id p)))
                                    = false) ps).
    { apply Forall_forall. intros q Hq. rewrite eq_int_int.
      destruct (proj_id q =? proj_id p) eqn:Eq; [| reflexivity].
      rewrite <- E. symmetry. apply existsb_exists. exists q.
      split; [apply list_elem_of_In, Hq | exact Eq]. }
    apply Hnone in Hall. discriminate.
  - replace (existsb _ ps) with false; [reflexivity |].
    symmetry. apply not_true_is_false. intros E.
    apply existsb_exists in E as (q & Hq & Eq).
    pose proof (proj1 Hnone eq_refl) as Hall. rewrite Forall_forall in Hall.
    specialize (Hall q (proj2 (list_elem_of_In _ _) Hq)).
    rewrite eq_int_int in Hall. congruence.
Qed.

Lemma same_object_in_In x l : Company.same_object_in x l = true <-> In x l.
Proof.
  unfold Company.same_object_in. rewrite existsb_exists. split.
  - intros (y & Hy & E). apply Nat.eqb_eq in E. subst. exact Hy.
  - intros H. exists x. split; [exact H | apply Nat.eqb_refl].
Qed.

Lemma projects_at_In s l ps r :
  projects_at s l ps -> In r l -> exists p, projects s !! r = Some p /\ In p ps.
Proof.
  induction 1 as [|r' p l ps Hr _ IH]; intros Hin; [destruct Hin |].
  destruct Hin as [-> | Hin].
  - exists p. split; [exact Hr | left; reflexivity].
  - destruct (IH Hin) as (q & Hq & Hqin). exists q. split; [exact Hq | right; exact Hqin].
Qed.

(** X12.  [add_project] keeps the project ids of a company pairwise
    distinct.  A project that the company already holds is refused with
    [ValueError], another project with an id that is in use is refused with
    [DuplicateIdError], both without changing anything; a project with a
    new id is put at the end of the company's list. *)
Theorem add_project_keeps_ids_distinct
    (self : cref) (c : company) (ps : list project) (prj : pref) (p : project)
    (s : store) :
  companies s !! self = Some c ->
  projects_at s (comp_projects c) ps ->
  projects s !! prj = Some p ->
  NoDup (map proj_id ps) ->
  (In prj (comp_projects c) ->
   Company.add_project self prj s = (s, Raise ValueError)) /\
  (~ In prj (comp_projects c) -> In (proj_id p) (map proj_id ps) ->
   Company.add_project self prj s = (s, Raise DuplicateIdError)) /\
  (~ In (proj_id p) (map proj_id ps) ->
   Company.add_project self prj s
   = (mkStore (employees s) (departments s) (projects s)
        (<[self := mkCompany (comp_name c) (comp_departments c)
                     (comp_projects c ++ [prj])]> (companies s))
        (files s),
      Ret tt) /\
   NoDup (map proj_id (ps ++ [p]))).
Proof.
  intros Hc Hps Hp Hnd. rewrite (add_project_run self c ps prj p s Hc Hps Hp).
  assert (Hex : existsb (fun q => proj_id q =? proj_id p) ps = true
                <-> In (proj_id p) (map proj_id ps)).
  { rewrite existsb_exists, in_map_iff. split.
    - intros (q & Hq & E). apply Z.eqb_eq in E. exists q. auto.
    - intros (q & E & Hq). exists q. split; [exact Hq | apply Z.eqb_eq, E]. }
  split; [| split].
  - intros Hin. apply same_object_in_In in Hin. rewrite Hin. reflexivity.
  - intros Hnin Hid.
    destruct (Company.same_object_in _ _) eqn:E;
      [apply same_object_in_In in E; contradiction |].
    apply Hex in Hid. rewrite Hid. reflexivity.
  - intros Hid.
    destruct (Company.same_object_in _ _) eqn:E.
    { exfalso. apply same_object_in_In in E.
      destruct (projects_at_In s _ ps prj Hps E) as (q & Hq & Hqin).
      rewrite Hp in Hq. injection Hq as <-. apply Hid, in_map, Hqin. }
    destruct (existsb _ ps) eqn:E'; [exfalso; apply Hid, Hex; reflexivity |].
    split; [reflexivity |].
    rewrite map_app. apply NoDup_app. split; [exact Hnd |]. split.
    + intros x Hx Hx'. apply list_elem_of_singleton in Hx'. subst x.
      apply Hid. apply list_elem_of_In. exact Hx.
    + apply NoDup_singleton.
Qed.

Lemma add_project_keeps_ids_distinct_witness :
  Company.add_project 0%nat 1%nat acme = (acme, Raise ValueError).
Proof.
  refine (proj1 (add_project_keeps_ids_distinct 0%nat acme_company [site_project; app_project; audit_project]
                   1%nat app_project acme eq_refl _ eq_refl _) _).
  - repeat constructor.
  - apply (bool_decide_unpack _). vm_compute. exact I.
  - simpl. tauto.
Defined.

(** ** Availability and overload *)

Lemma first_with_id_holds s l es v :
  employees_at s l es ->
  exists o, first_with_id l v s = (s, Ret o)
            /\ holds_id v es = match o with Some _ => true | None => false end.
Proof.
  induction 1 as [|r e l es Hr _ IH]; simpl.
  - exists None. split; reflexivity.
  - unfold bind, read_employee. rewrite Hr. simpl.
    destruct (Py.eq_int (emp_id e) v); [exists (Some r); split; reflexivity |].
    exact IH.
Qed.

Lemma count_member_of_run s l ps teams v :
  projects_at s l ps -> teams_at s ps teams ->
  Company.count_member_of l v s = (s, Ret (teams_holding v teams)).
Proof.
  intros Hl. revert teams.
  induction Hl as [|r p l ps Hr _ IH]; intros teams Ht;
    inversion Ht as [|? team ? teams' Hteam Ht']; subst; [reflexivity |].
  simpl. unfold bind at 1, Project.find_team_member, bind at 1, read_project.
  rewrite Hr. simpl.
  destruct (first_with_id_holds s _ team v Hteam) as (o & Ho & Hh).
  rewrite Ho. unfold bind. rewrite (IH teams' Ht'). unfold ret. do 2 f_equal.
  unfold teams_holding. simpl. rewrite Hh.
  destruct o; [| reflexivity].
  cbn [length]. lia.
Qed.

Lemma check_employee_availability_run self c ps teams v s :
  companies s !! self = Some c ->
  projects_at s (comp_projects c) ps -> teams_at s ps teams ->
  Company.check_employee_availability self v s
  = (s, Ret (teams_holding v teams <? 2)).
Proof.
  intros Hc Hps Ht.
  unfold Company.check_employee_availability, bind at 1, read_company.
  rewrite Hc. simpl. unfold bind.
  rewrite (count_member_of_run s _ ps teams v Hps Ht). reflexivity.
Qed.

(** X13.  [check_employee_availability] answers whether fewer than two of
    the company's projects have a team member with the given id; it raises
    nothing and changes nothing, also for an id that no employee has. *)
Theorem availability_counts_teams
    (self : cref) (c : company) (ps : list project) (teams : list (list employee))
    (employee_id : pyval) (s : store) :
  companies s !! self = Some c ->
  projects_at s (comp_projects c) ps ->
  teams_at s ps teams ->
  Company.check_employee_availability self employee_id s
  = (s, Ret (teams_holding employee_id teams <? 2)).
Proof. apply check_employee_availability_run. Qed.

Lemma availability_counts_teams_witness :
  Company.check_employee_availability 0%nat (VInt 7) acme = (acme, Ret false).
Proof.
  refine (availability_counts_teams 0%nat acme_company
            [site_project; app_project; audit_project] [[ann]; [ann; bob]; []]
            (VInt 7) acme eq_refl _ _); repeat constructor.
Defined.
Lemma first_with_id_holder s l es v :
  employees_at s l es -> first_with_id l v s = (s, Ret (first_holder v l es)).
Proof.
  induction 1 as [|r e l es Hr _ IH]; simpl; [reflexivity |].
  unfold bind, read_employee. rewrite Hr. simpl.
  destruct (Py.eq_int (emp_id e) v); [reflexivity | exact IH].
Qed.

Lemma first_holder_app v l1 l2 es1 es2 :
  length l1 = length es1 ->
  first_holder v (l1 ++ l2) (es1 ++ es2)
  = match first_holder v l1 es1 with
    | Some r => Some r
    | None => first_holder v l2 es2
    end.
Proof.
  revert es1. induction l1 as [|r l1 IH]; intros [|e es1] Hlen; try discriminate.
  - reflexivity.
  - simpl. destruct (Py.eq_int (emp_id e) v); [reflexivity |].
    apply IH. simpl in Hlen. lia.
Qed.

Lemma find_employee_in_run s l ds staff v :
  departments_at s l ds -> staff_at s ds staff ->
  Company.find_employee_in l v s
  = (s, Ret (first_holder v (staff_of ds) (concat staff))).
Proof.
  intros Hl. revert staff.
  induction Hl as [|r d l ds Hr _ IH]; intros staff Hs;
    inversion Hs as [|? es ? staff' Hes Hs']; subst; [reflexivity |].
  simpl. unfold bind at 1, Department.find_employee_by_id, bind at 1, read_department.
  rewrite Hr. simpl. rewrite (first_with_id_holder s _ es v Hes).
  unfold staff_of. simpl.
  rewrite first_holder_app by (apply employees_at_length with s, Hes).
  destruct (first_holder v (dept_employees d) es); [reflexivity |].
  apply IH, Hs'.
Qed.

Lemma find_employee_by_id_run self c ds staff v s :
  companies s !! self = Some c ->
  departments_at s (comp_departments c) ds -> staff_at s ds staff ->
  Company.find_employee_by_id self v s
  = (s, Ret (first_holder v (staff_of ds) (concat staff))).
Proof.
  intros Hc Hds Hs. unfold Company.find_employee_by_id, bind, read_company.
  rewrite Hc. simpl. apply find_employee_in_run; assumption.
Qed.

Lemma tally_app a b counts : tally (a ++ b) counts = tally b (tally a counts).
Proof. revert counts. induction a as [|z a IH]; intros counts; simpl; [reflexivity | apply IH]. Qed.

Lemma count_team_run s team es counts :
  employees_at s team es ->
  Company.count_team team counts s = (s, Ret (tally (map emp_id es) counts)).
Proof.
  intros H. revert counts. induction H as [|r e l es Hr _ IH]; intros counts; simpl;
    [reflexivity |].
  unfold bind, read_employee. rewrite Hr. simpl. apply IH.
Qed.

Lemma count_projects_run s l ps teams counts :
  projects_at s l ps -> teams_at s ps teams ->
  Company.count_projects l counts s
  = (s, Ret (tally (map emp_id (concat teams)) counts)).
Proof.
  intros Hl. revert teams counts.
  induction Hl as [|r p l ps Hr _ IH]; intros teams counts Ht;
    inversion Ht as [|? team ? teams' Hteam Ht']; subst; [reflexivity |].
  simpl. unfold bind at 1, Project.get_team, bind at 1, read_project.
  rewrite Hr. simpl. unfold bind at 1.
  rewrite (count_team_run s _ team counts Hteam).
  rewrite (IH teams' _ Ht'). rewrite map_app, tally_app. reflexivity.
Qed.

Lemma first_occurrences_In z ids : In z (first_occurrences ids) <-> In z ids.
Proof.
  induction ids as [|x ids IH]; simpl; [tauto |].
  rewrite filter_In, IH, negb_true_iff, Z.eqb_neq.
  destruct (Z.eq_dec x z); [subst; tauto |].
  split; [tauto | intros [? | ?]; [tauto | right; split; [assumption | congruence]]].
Qed.

Lemma first_occurrences_snoc ids z :
  first_occurrences (ids ++ [z])
  = if in_dec Z.eq_dec z ids then first_occurrences ids
    else first_occurrences ids ++ [z].
Proof.
  induction ids as [|x ids IH]; simpl; [reflexivity |].
  rewrite IH. destruct (in_dec Z.eq_dec z ids) as [Hin | Hnin].
  - destruct (Z.eq_dec x z); reflexivity.
  - destruct (Z.eq_dec x z) as [-> | Hne].
    + rewrite List.filter_app. simpl. rewrite Z.eqb_refl. simpl.
      rewrite app_nil_r. reflexivity.
    + rewrite List.filter_app. simpl.
      destruct (Z.eqb_spec z x); [congruence | reflexivity].
Qed.

Lemma count_get_map z (f : Z -> Z) l :
  Company.count_get z (map (fun k => (k, f k)) l)
  = if in_dec Z.eq_dec z l then f z else 0.
Proof.
  induction l as [|x l IH]; simpl; [reflexivity |].
  destruct (Z.eqb_spec z x) as [-> | Hne].
  - destruct (Z.eq_dec x x); [reflexivity | congruence].
  - rewrite IH. destruct (Z.eq_dec x z); [congruence |].
    destruct (in_dec Z.eq_dec z l); reflexivity.
Qed.

Lemma count_set_map_new z n (f : Z -> Z) l :
  ~ In z l ->
  Company.count_set z n (map (fun k => (k, f k)) l)
  = map (fun k => (k, f k)) l ++ [(z, n)].
Proof.
  induction l as [|x l IH]; simpl; intros Hnin; [reflexivity |].
  destruct (Z.eqb_spec z x) as [-> | Hne]; [tauto |].
  rewrite IH by tauto. reflexivity.
Qed.

Lemma first_occurrences_NoDup ids : List.NoDup (first_occurrences ids).
Proof.
  induction ids as [|x ids IH]; simpl; constructor.
  - rewrite filter_In, Z.eqb_refl. simpl. intros [_ ?]. discriminate.
  - apply List.NoDup_filter, IH.
Qed.

Lemma count_set_map_update z n (f g : Z -> Z) l :
  List.NoDup l -> In z l -> g z = n -> (forall k, k <> z -> g k = f k) ->
  Company.count_set z n (map (fun k => (k, f k)) l) = map (fun k => (k, g k)) l.
Proof.
  intros Hnd. induction Hnd as [|x l Hx _ IH]; simpl; intros Hin Hz Hother; [tauto |].
  destruct (Z.eqb_spec z x) as [-> | Hne].
  - rewrite Hz. f_equal. apply map_ext_in. intros k Hk.
    rewrite Hother; [reflexivity | intros ->; contradiction].
  - rewrite Hother by congruence. f_equal. apply IH; [| assumption | assumption].
    destruct Hin; [congruence | assumption].
Qed.

Lemma occurrences_snoc k ids z :
  occurrences k (ids ++ [z]) = occurrences k ids + (if k =? z then 1 else 0).
Proof.
  unfold occurrences. rewrite count_occ_app. simpl.
  destruct (Z.eq_dec z k) as [-> | Hne].
  - rewrite Z.eqb_refl. lia.
  - destruct (Z.eqb_spec k z); [congruence | lia].
Qed.

Lemma occurrences_not_In z ids : ~ In z ids -> occurrences z ids = 0.
Proof.
  intros H. unfold occurrences.
  rewrite (proj1 (count_occ_not_In Z.eq_dec ids z) H). reflexivity.
Qed.

Lemma occurrences_In z ids : In z ids <-> 0 < occurrences z ids.
Proof.
  unfold occurrences. rewrite (count_occ_In Z.eq_dec). lia.
Qed.

(** Counting from the empty dict: one entry for each id, in the order of
    first occurrence, with the number of its occurrences. *)
Lemma tally_counts ids :
  tally ids [] = map (fun k => (k, occurrences k ids)) (first_occurrences ids).
Proof.
  induction ids as [|z ids IH] using rev_ind; [reflexivity |].
  rewrite tally_app, IH. simpl. rewrite count_get_map, first_occurrences_snoc.
  destruct (in_dec Z.eq_dec z ids) as [Hin | Hnin].
  - destruct (in_dec Z.eq_dec z (first_occurrences ids)) as [Hin' | Hnin'];
      [| exfalso; apply Hnin', first_occurrences_In, Hin].
    apply count_set_map_update;
      [apply first_occurrences_NoDup | exact Hin' | |].
    + rewrite occurrences_snoc, Z.eqb_refl. reflexivity.
    + intros k Hk. rewrite occurrences_snoc.
      destruct (Z.eqb_spec k z); [congruence | lia].
  - destruct (in_dec Z.eq_dec z (first_occurrences ids)) as [Hin' | Hnin'];
      [exfalso; apply Hnin, first_occurrences_In, Hin' |].
    rewrite count_set_map_new by exact Hnin'.
    rewrite map_app. simpl. f_equal.
    + apply map_ext_in. intros k Hk. rewrite occurrences_snoc.
      destruct (Z.eqb_spec k z) as [-> | Hne]; [contradiction |].
      f_equal. lia.
    + rewrite occurrences_snoc, Z.eqb_refl, occurrences_not_In by exact Hnin.
      reflexivity.
Qed.

Lemma collect_overloaded_run self s (holder : Z -> option eref) items :
  (forall z, Company.find_employee_by_id self (VNum (PInt z)) s = (s, Ret (holder z))) ->
  Company.collect_overloaded self items s
  = (s, Ret (omap (fun item => if 1 <? snd item then holder (fst item) else None)
               items)).
Proof.
  intros Hfind. induction items as [|[z n] items IH]; simpl; [reflexivity |].
  destruct (1 <? n); [| exact IH].
  unfold bind. rewrite Hfind, IH. destruct (holder z); reflexivity.
Qed.

Lemma omap_counted (holder : Z -> option eref) (f : Z -> Z) l :
  omap (fun item : Z * Z => if 1 <? snd item then holder (fst item) else None)
    (map (fun k => (k, f k)) l)
  = omap holder (List.filter (fun z => 1 <? f z) l).
Proof.
  induction l as [|z l IH]; simpl; [reflexivity |].
  destruct (1 <? f z); simpl; [destruct (holder z); [f_equal |] |]; exact IH.
Qed.

Lemma find_overloaded_run self c ds staff ps teams s :
  companies s !! self = Some c ->
  departments_at s (comp_departments c) ds -> staff_at s ds staff ->
  projects_at s (comp_projects c) ps -> teams_at s ps teams ->
  Company.find_overloaded_employees self s
  = (s, Ret (omap (fun z => first_holder (VNum (PInt z)) (staff_of ds) (concat staff))
               (overloaded_ids (map emp_id (concat teams))))).
Proof.
  intros Hc Hds Hs Hps Ht.
  unfold Company.find_overloaded_employees, bind at 1, read_company.
  rewrite Hc. simpl. unfold bind.
  rewrite (count_projects_run s _ ps teams [] Hps Ht).
  rewrite (collect_overloaded_run self s
             (fun z => first_holder (VNum (PInt z)) (staff_of ds) (concat staff)))
    by (intros z; apply (find_employee_by_id_run self c ds staff); assumption).
  rewrite tally_counts. do 2 f_equal.
  exact (omap_counted
           (fun z => first_holder (VNum (PInt z)) (staff_of ds) (concat staff))
           (fun k => occurrences k (map emp_id (concat teams))) _).
Qed.

(** X14.  [find_overloaded_employees] goes through the ids of all team
    members in the order in which they first occur in the teams, keeps
    those that occur more than once, and returns for each the first
    employee with that id that a department of the company holds; an id
    that no department holds contributes nothing. *)
Theorem overloaded_are_found_in_departments
    (self : cref) (c : company) (ds : list department) (staff : list (list employee))
    (ps : list project) (teams : list (list employee)) (s : store) :
  companies s !! self = Some c ->
  departments_at s (comp_departments c) ds -> staff_at s ds staff ->
  projects_at s (comp_projects c) ps -> teams_at s ps teams ->
  Company.find_overloaded_employees self s
  = (s, Ret (omap (fun z => first_holder (VInt z) (staff_of ds) (concat staff))
               (overloaded_ids (map emp_id (concat teams))))).
Proof. apply find_overloaded_run. Qed.

Lemma overloaded_are_found_in_departments_witness :
  Company.find_overloaded_employees 0%nat acme = (acme, Ret [0%nat]).
Proof.
  refine (overloaded_are_found_in_departments 0%nat acme_company
            [dev; sales] [[ann; bob]; [sample_salesperson]]
            [site_project; app_project; audit_project] [[ann]; [ann; bob]; []]
            acme eq_refl _ _ _ _); repeat constructor.
Defined.

Lemma holds_id_In z team :
  holds_id (VNum (PInt z)) team = true <-> In z (map emp_id team).
Proof.
  unfold holds_id. rewrite existsb_exists, in_map_iff. split.
  - intros (e & He & E). rewrite eq_int_int in E. apply Z.eqb_eq in E.
    exists e. auto.
  - intros (e & E & He). exists e. split; [exact He |].
    rewrite eq_int_int. apply Z.eqb_eq, E.
Qed.

(** In teams without two members of the same id, an id occurs as often as
    there are teams that hold it. *)
Lemma teams_holding_occurrences z teams :
  Forall (fun team => NoDup (map emp_id team)) teams ->
  teams_holding (VNum (PInt z)) teams = occurrences z (map emp_id (concat teams)).
Proof.
  unfold teams_holding, occurrences.
  induction 1 as [|team teams Hnd _ IH]; [reflexivity |].
  cbn [concat List.filter]. rewrite map_app, count_occ_app, Nat2Z.inj_add, <- IH.
  apply NoDup_ListNoDup in Hnd.
  pose proof (proj1 (NoDup_count_occ Z.eq_dec _) Hnd z) as Hle.
  pose proof (count_occ_In Z.eq_dec (map emp_id team) z) as Hin.
  pose proof (holds_id_In z team) as Hh.
  destruct (holds_id (VNum (PInt z)) team).
  - cbn [length]. assert (count_occ Z.eq_dec (map emp_id team) z > 0)%nat by tauto. lia.
  - assert (~ (count_occ Z.eq_dec (map emp_id team) z > 0)%nat).
    { intros G. apply Hin, Hh in G. discriminate. }
    lia.
Qed.

Lemma overloaded_ids_In z ids : In z (overloaded_ids ids) <-> 1 < occurrences z ids.
Proof.
  unfold overloaded_ids. rewrite filter_In, first_occurrences_In, Z.ltb_lt.
  pose proof (occurrences_In z ids). split; [tauto |]. intros H1. split; [| exact H1].
  apply H. lia.
Qed.

(** X15.  In a company whose teams hold no two members of the same id, the
    employees that [find_overloaded_employees] returns are those that
    [find_employee_by_id] finds in a department under an id for which
    [check_employee_availability] answers [False]. *)
Theorem overloaded_iff_not_available
    (self : cref) (c : company) (ds : list department) (staff : list (list employee))
    (ps : list project) (teams : list (list employee)) (s : store) :
  companies s !! self = Some c ->
  departments_at s (comp_departments c) ds -> staff_at s ds staff ->
  projects_at s (comp_projects c) ps -> teams_at s ps teams ->
  Forall (fun team => NoDup (map emp_id team)) teams ->
  exists found,
    Company.find_overloaded_employees self s = (s, Ret found) /\
    forall r, In r found <->
      exists z, Company.check_employee_availability self (VInt z) s = (s, Ret false)
                /\ Company.find_employee_by_id self (VInt z) s = (s, Ret (Some r)).
Proof.
  intros Hc Hds Hs Hps Ht Hnd. eexists. split.
  { apply (find_overloaded_run self c ds staff ps teams); assumption. }
  intros r. rewrite <- list_elem_of_In, list_elem_of_omap.
  split; intros (z & Hz & Hr); exists z.
  - apply list_elem_of_In, overloaded_ids_In in Hz.
    rewrite <- (teams_holding_occurrences z teams Hnd) in Hz.
    unfold VInt.
    rewrite (check_employee_availability_run self c ps teams (VNum (PInt z)) s Hc Hps Ht).
    rewrite (find_employee_by_id_run self c ds staff _ s Hc Hds Hs), Hr.
    split; [| reflexivity]. do 2 f_equal. apply Z.ltb_ge. lia.
  - unfold VInt in *.
    rewrite (check_employee_availability_run self c ps teams (VNum (PInt z)) s Hc Hps Ht) in Hz.
    rewrite (find_employee_by_id_run self c ds staff _ s Hc Hds Hs) in Hr.
    split.
    + apply list_elem_of_In, overloaded_ids_In.
      rewrite <- (teams_holding_occurrences z teams Hnd).
      injection Hz as Hz. apply Z.ltb_ge in Hz. lia.
    + injection Hr as Hr. exact Hr.
Qed.

Lemma overloaded_iff_not_available_witness :
  exists found,
    Company.find_overloaded_employees 0%nat acme = (acme, Ret found) /\
    forall r, In r found <->
      exists z, Company.check_employee_availability 0%nat (VInt z) acme
                = (acme, Ret false)
                /\ Company.find_employee_by_id 0%nat (VInt z) acme
                   = (acme, Ret (Some r)).
Proof.
  refine (overloaded_iff_not_available 0%nat acme_company
            [dev; sales] [[ann; bob]; [sample_salesperson]]
            [site_project; app_project; audit_project] [[ann]; [ann; bob]; []]
            acme eq_refl _ _ _ _ _); repeat constructor.
  all: apply (bool_decide_unpack _); vm_compute; exact I.
Defined.

(** ** Removing departments and projects *)

Lemma find_department_in_none s l ds name :
  departments_at s l ds ->
  Forall (fun d => Py.eq_str name (dept_name d) = false) ds ->
  Company._find_department_in l name s = (s, Ret None).
Proof.
  induction 1 as [|r d l ds Hr _ IH]; intros Hall; simpl; [reflexivity |].
  inversion Hall as [|? ? Hd Hall']; subst.
  unfold bind, read_department. rewrite Hr. simpl. rewrite Hd. apply IH, Hall'.
Qed.

Lemma find_department_in_some s l1 r l2 ds1 d ds2 name :
  length l1 = length ds1 ->
  departments_at s (l1 ++ r :: l2) (ds1 ++ d :: ds2) ->
  Forall (fun d' => Py.eq_str name (dept_name d') = false) ds1 ->
  Py.eq_str name (dept_name d) = true ->
  Company._find_department_in (l1 ++ r :: l2) name s = (s, Ret (Some r)).
Proof.
  revert ds1. induction l1 as [|x l1 IH]; intros [|d1 ds1] Hlen H Hb Hd;
    try discriminate; simpl.
  - inversion H as [|? ? ? ? Hr _]; subst.
    unfold bind, read_department. rewrite Hr. simpl. rewrite Hd. reflexivity.
  - inversion H as [|? ? ? ? Hx H']; subst.
    inversion Hb as [|? ? Hbx Hb']; subst.
    unfold bind at 1, read_department. rewrite Hx. simpl. rewrite Hbx.
    apply (IH ds1); [simpl in Hlen; lia | assumption | assumption | assumption].
Qed.

Lemma find_project_in_none s l ps v :
  projects_at s l ps ->
  Forall (fun p => Py.eq_int (proj_id p) v = false) ps ->
  Company._find_project_in l v s = (s, Ret None).
Proof.
  induction 1 as [|r p l ps Hr _ IH]; intros Hall; simpl; [reflexivity |].
  inversion Hall as [|? ? Hp Hall']; subst.
  unfold bind, read_project. rewrite Hr. simpl. rewrite Hp. apply IH, Hall'.
Qed.

Lemma find_project_in_some s l1 r l2 ps1 p ps2 v :
  length l1 = length ps1 ->
  projects_at s (l1 ++ r :: l2) (ps1 ++ p :: ps2) ->
  Forall (fun p' => Py.eq_int (proj_id p') v = false) ps1 ->
  Py.eq_int (proj_id p) v = true ->
  Company._find_project_in (l1 ++ r :: l2) v s = (s, Ret (Some r)).
Proof.
  revert ps1. induction l1 as [|x l1 IH]; intros [|p1 ps1] Hlen H Hb Hp;
    try discriminate; simpl.
  - inversion H as [|? ? ? ? Hr _]; subst.
    unfold bind, read_project. rewrite Hr. simpl. rewrite Hp. reflexivity.
  - inversion H as [|? ? ? ? Hx H']; subst.
    inversion Hb as [|? ? Hbx Hb']; subst.
    unfold bind at 1, read_project. rewrite Hx. simpl. rewrite Hbx.
    apply (IH ps1); [simpl in Hlen; lia | assumption | assumption | assumption].
Qed.

Lemma remove_first_split r l1 l2 :
  ~ In r l1 -> Company.remove_first r (l1 ++ r :: l2) = l1 ++ l2.
Proof.
  induction l1 as [|x l1 IH]; simpl; intros Hnin.
  - rewrite Nat.eqb_refl. reflexivity.
  - destruct (Nat.eqb_spec x r); [tauto |]. rewrite IH by tauto. reflexivity.
Qed.

(** An object that is found behind objects that do not match is not one of
    them. *)
Lemma not_among_the_skipped {A} (heap : list A) (skipped : A -> bool)
    l1 r l2 (xs1 : list A) x xs2 :
  length l1 = length xs1 ->
  Forall2 (fun r x => heap !! r = Some x) (l1 ++ r :: l2) (xs1 ++ x :: xs2) ->
  Forall (fun x' => skipped x' = true) xs1 -> skipped x = false ->
  ~ In r l1.
Proof.
  intros Hlen H Hskip Hx Hin.
  apply Forall2_app_inv in H as [H1 H2]; [| exact Hlen].
  inversion H2 as [|? ? ? ? Hr _]; subst.
  apply list_elem_of_In, list_elem_of_lookup_1 in Hin as [i Hi].
  destruct (Forall2_lookup_l _ _ _ _ _ H1 Hi) as (x' & Hx' & Hr').
  rewrite Hr in Hr'. injection Hr' as <-.
  rewrite Forall_forall in Hskip.
  rewrite (Hskip x (list_elem_of_lookup_2 _ _ _ Hx')) in Hx. discriminate.
Qed.

Lemma remove_department_run self c ds department_name s :
  companies s !! self = Some c ->
  departments_at s (comp_departments c) ds ->
  (Forall (fun d => Py.eq_str department_name (dept_name d) = false) ds ->
   Company.remove_department self department_name s
   = (s, Raise DepartmentNotFoundError)) /\
  (forall l1 r l2 ds1 d ds2,
      comp_departments c = l1 ++ r :: l2 -> ds = ds1 ++ d :: ds2 ->
      length l1 = length ds1 ->
      Forall (fun d' => Py.eq_str department_name (dept_name d') = false) ds1 ->
      Py.eq_str department_name (dept_name d) = true ->
      Company.remove_department self department_name s
      = match dept_employees d with
        | [] => (mkStore (employees s) (departments s) (projects s)
                   (<[self := mkCompany (comp_name c) (l1 ++ l2) (comp_projects c)]>
                      (companies s))
                   (files s),
                 Ret tt)
        | _ :: _ => (s, Raise ValueError)
        end).
Proof.
  intros Hc Hds. split.
  - intros Hnone.
    unfold Company.remove_department, bind at 1, Company._find_department_by_name,
      bind at 1, read_company.
    rewrite Hc. simpl.
    rewrite (find_department_in_none s _ ds department_name Hds Hnone). reflexivity.
  - intros l1 r l2 ds1 d ds2 Hl -> Hlen Hb Hd.
    rewrite Hl in Hds.
    unfold Company.remove_department, bind at 1, Company._find_department_by_name,
      bind at 1, read_company.
    rewrite Hc. simpl. rewrite Hl.
    rewrite (find_department_in_some s l1 r l2 ds1 d ds2 department_name Hlen Hds Hb Hd).
    assert (Hr : departments s !! r = Some d).
    { apply Forall2_app_inv in Hds as [_ H2]; [| exact Hlen].
      inversion H2; subst. assumption. }
    unfold bind at 1, Department.__len__, bind at 1, read_department.
    rewrite Hr. simpl.
    destruct (dept_employees d) as [|m ms]; [| reflexivity].
    simpl. unfold bind, read_company. rewrite Hc. simpl.
    unfold write_company. rewrite Hl, remove_first_split; [reflexivity |].
    apply (not_among_the_skipped (departments s)
             (fun d' => negb (Py.eq_str department_name (dept_name d')))
             l1 r l2 ds1 d ds2 Hlen Hds).
    + eapply Forall_impl; [exact Hb |]. intros d' ->. reflexivity.
    + rewrite Hd. reflexivity.
Qed.

(** X16.  [remove_department] looks at the first department with the
    given name only: without one it raises [DepartmentNotFoundError]; when
    that department has members it raises [ValueError]; both leave
    everything as it was.  An empty one is taken out of the company's list,
    the other departments keep their order. *)
Theorem remove_department_guards
    (self : cref) (c : company) (ds : list department)
    (department_name : pyval) (s : store) :
  companies s !! self = Some c ->
  departments_at s (comp_departments c) ds ->
  (Forall (fun d => Py.eq_str department_name (dept_name d) = false) ds ->
   Company.remove_department self department_name s
   = (s, Raise DepartmentNotFoundError)) /\
  (forall l1 r l2 ds1 d ds2,
      comp_departments c = l1 ++ r :: l2 -> ds = ds1 ++ d :: ds2 ->
      length l1 = length ds1 ->
      Forall (fun d' => Py.eq_str department_name (dept_name d') = false) ds1 ->
      Py.eq_str department_name (dept_name d) = true ->
      Company.remove_department self department_name s
      = match dept_employees d with
        | [] => (mkStore (employees s) (departments s) (projects s)
                   (<[self := mkCompany (comp_name c) (l1 ++ l2) (comp_projects c)]>
                      (companies s))
                   (files s),
                 Ret tt)
        | _ :: _ => (s, Raise ValueError)
        end).
Proof. apply remove_department_run. Qed.

Lemma remove_department_guards_witness :
  Company.remove_department 0%nat (VStr "Sales") acme = (acme, Raise ValueError).
Proof.
  refine (proj2 (remove_department_guards 0%nat acme_company [dev; sales]
                   (VStr "Sales") acme eq_refl _)
            [0%nat] 1%nat [] [dev] sales [] eq_refl eq_refl eq_refl _ eq_refl);
    repeat constructor.
Defined.

Lemma remove_project_run self c ps project_id s :
  companies s !! self = Some c ->
  projects_at s (comp_projects c) ps ->
  (Forall (fun p => Py.eq_int (proj_id p) project_id = false) ps ->
   Company.remove_project self project_id s = (s, Raise ProjectNotFoundError)) /\
  (forall l1 r l2 ps1 p ps2,
      comp_projects c = l1 ++ r :: l2 -> ps = ps1 ++ p :: ps2 ->
      length l1 = length ps1 ->
      Forall (fun p' => Py.eq_int (proj_id p') project_id = false) ps1 ->
      Py.eq_int (proj_id p) project_id = true ->
      Company.remove_project self project_id s
      = match proj_team p with
        | [] => (mkStore (employees s) (departments s) (projects s)
                   (<[self := mkCompany (comp_name c) (comp_departments c) (l1 ++ l2)]>
                      (companies s))
                   (files s),
                 Ret tt)
        | _ :: _ => (s, Raise ValueError)
        end).
Proof.
  intros Hc Hps. split.
  - intros Hnone.
    unfold Company.remove_project, bind at 1, Company._find_project_by_id,
      bind at 1, read_company.
    rewrite Hc. simpl.
    rewrite (find_project_in_none s _ ps project_id Hps Hnone). reflexivity.
  - intros l1 r l2 ps1 p ps2 Hl -> Hlen Hb Hp.
    rewrite Hl in Hps.
    unfold Company.remove_project, bind at 1, Company._find_project_by_id,
      bind at 1, read_company.
    rewrite Hc. simpl. rewrite Hl.
    rewrite (find_project_in_some s l1 r l2 ps1 p ps2 project_id Hlen Hps Hb Hp).
    assert (Hr : projects s !! r = Some p).
    { apply Forall2_app_inv in Hps as [_ H2]; [| exact Hlen].
      inversion H2; subst. assumption. }
    unfold bind at 1, Project.get_team_size, bind at 1, read_project.
    rewrite Hr. simpl.
    destruct (proj_team p) as [|m ms]; [| reflexivity].
    simpl. unfold bind, read_company. rewrite Hc. simpl.
    unfold write_company. rewrite Hl, remove_first_split; [reflexivity |].
    apply (not_among_the_skipped (projects s)
             (fun p' => negb (Py.eq_int (proj_id p') project_id))
             l1 r l2 ps1 p ps2 Hlen Hps).
    + eapply Forall_impl; [exact Hb |]. intros p' ->. reflexivity.
    + rewrite Hp. reflexivity.
Qed.

(** X17.  [remove_project] raises [ProjectNotFoundError] when no project of
    the company has the given id and [ValueError] when the first project
    with that id has a team, both without changing anything; a project
    without a team is taken out of the company's list, the other projects
    keep their order, and the project object and its fields stay as they
    are. *)
Theorem remove_project_guards
    (self : cref) (c : company) (ps : list project) (project_id : pyval) (s : store) :
  companies s !! self = Some c ->
  projects_at s (comp_projects c) ps ->
  (Forall (fun p => Py.eq_int (proj_id p) project_id = false) ps ->
   Company.remove_project self project_id s = (s, Raise ProjectNotFoundError)) /\
  (forall l1 r l2 ps1 p ps2,
      comp_projects c = l1 ++ r :: l2 -> ps = ps1 ++ p :: ps2 ->
      length l1 = length ps1 ->
      Forall (fun p' => Py.eq_int (proj_id p') project_id = false) ps1 ->
      Py.eq_int (proj_id p) project_id = true ->
      Company.remove_project self project_id s
      = match proj_team p with
        | [] => (mkStore (employees s) (departments s) (projects s)
                   (<[self := mkCompany (comp_name c) (comp_departments c) (l1 ++ l2)]>
                      (companies s))
                   (files s),
                 Ret tt)
        | _ :: _ => (s, Raise ValueError)
        end).
Proof. apply remove_project_run. Qed.

Lemma remove_project_guards_witness :
  Company.remove_project 0%nat (VInt 3) acme
  = (mkStore (employees acme) (departments acme) (projects acme)
       [mkCompany "Acme" [0; 1]%nat [0; 1]%nat] (files acme),
     Ret tt).
Proof.
  refine (proj2 (remove_project_guards 0%nat acme_company
                   [site_project; app_project; audit_project] (VInt 3) acme eq_refl _)
            [0; 1]%nat 2%nat [] [site_project; app_project] audit_project []
            eq_refl eq_refl eq_refl _ eq_refl);
    repeat constructor.
Defined.

(** ** Assigning employees to projects *)

Lemma first_holder_found s l es v r :
  employees_at s l es -> first_holder v l es = Some r ->
  exists e, employees s !! r = Some e /\ Py.eq_int (emp_id e) v = true.
Proof.
  induction 1 as [|x e l es Hx _ IH]; simpl; [discriminate |].
  destruct (Py.eq_int (emp_id e) v) eqn:E; [| exact IH].
  intros [= <-]. exists e. split; assumption.
Qed.

Lemma staff_at_concat s ds staff :
  staff_at s ds staff -> employees_at s (staff_of ds) (concat staff).
Proof.
  induction 1 as [|d es ds staff Hes _ IH]; [constructor |].
  unfold staff_of. simpl. apply employees_at_app; assumption.
Qed.

Lemma eq_int_as_eqb a b v : Py.eq_int a v = true -> Py.eq_int b v = (b =? a).
Proof.
  intros Ha. destruct (Z.eqb_spec b a) as [-> | Hne]; [exact Ha |].
  apply not_true_is_false. intros Hb. apply Hne. exact (eq_int_inj b a v Hb Ha).
Qed.

Lemma add_team_member_run self p team emp e s :
  projects s !! self = Some p ->
  employees_at s (proj_team p) team ->
  employees s !! emp = Some e ->
  Project.add_team_member self emp s
  = if existsb (fun member => emp_id member =? emp_id e) team
    then (s, Raise ValueError)
    else (mkStore (employees s) (departments s)
            (<[self := Project.with_team (proj_team p ++ [emp]) p]> (projects s))
            (companies s) (files s),
          Ret tt).
Proof.
  intros Hp Hteam He. unfold Project.add_team_member, bind at 1, read_project.
  rewrite Hp. simpl. unfold bind.
  rewrite (list_contains_run s _ team emp e Hteam He).
  destruct (existsb _ team); reflexivity.
Qed.

Lemma assign_employee_to_project_run self c ds staff ps employee_id project_id s :
  companies s !! self = Some c ->
  departments_at s (comp_departments c) ds -> staff_at s ds staff ->
  projects_at s (comp_projects c) ps ->
  (first_holder employee_id (staff_of ds) (concat staff) = None ->
   Company.assign_employee_to_project self employee_id project_id s
   = (s, Raise EmployeeNotFoundError)) /\
  (forall r,
      first_holder employee_id (staff_of ds) (concat staff) = Some r ->
      (Forall (fun p => Py.eq_int (proj_id p) project_id = false) ps ->
       Company.assign_employee_to_project self employee_id project_id s
       = (s, Raise ProjectNotFoundError)) /\
      (forall l1 prj l2 ps1 p ps2 team,
          comp_projects c = l1 ++ prj :: l2 -> ps = ps1 ++ p :: ps2 ->
          length l1 = length ps1 ->
          Forall (fun p' => Py.eq_int (proj_id p') project_id = false) ps1 ->
          Py.eq_int (proj_id p) project_id = true ->
          employees_at s (proj_team p) team ->
          Company.assign_employee_to_project self employee_id project_id s
          = if holds_id employee_id team then (s, Raise ValueError)
            else (mkStore (employees s) (departments s)
                    (<[prj := Project.with_team (proj_team p ++ [r]) p]> (projects s))
                    (companies s) (files s),
                  Ret true))).
Proof.
  intros Hc Hds Hs Hps.
  pose proof (find_employee_by_id_run self c ds staff employee_id s Hc Hds Hs) as Hfind.
  split.
  - intros Hnone. unfold Company.assign_employee_to_project, bind.
    rewrite Hfind, Hnone. reflexivity.
  - intros r Hr. rewrite Hr in Hfind. split.
    + intros Hnone. unfold Company.assign_employee_to_project.
      rewrite (bind_run _ _ _ _ _ Hfind).
      unfold bind at 1, Company._find_project_by_id, bind at 1, read_company.
      rewrite Hc. simpl.
      rewrite (find_project_in_none s _ ps project_id Hps Hnone). reflexivity.
    + intros l1 prj l2 ps1 p ps2 team Hl -> Hlen Hb Hp Hteam.
      rewrite Hl in Hps.
      destruct (first_holder_found s _ _ employee_id r (staff_at_concat s ds staff Hs) Hr)
        as (e & He & Hid).
      assert (Hprj : projects s !! prj = Some p).
      { apply Forall2_app_inv in Hps as [_ H2]; [| exact Hlen].
        inversion H2; subst. assumption. }
      unfold Company.assign_employee_to_project.
      rewrite (bind_run _ _ _ _ _ Hfind).
      unfold bind at 1, Company._find_project_by_id, bind at 1, read_company.
      rewrite Hc. simpl. rewrite Hl.
      rewrite (find_project_in_some s l1 prj l2 ps1 p ps2 project_id Hlen Hps Hb Hp).
      unfold bind. rewrite (add_team_member_run prj p team r e s Hprj Hteam He).
      replace (existsb (fun member => emp_id member =? emp_id e) team)
        with (holds_id employee_id team).
      * destruct (holds_id employee_id team); reflexivity.
      * unfold holds_id. clear Hteam. induction team as [|m team IH]; [reflexivity |].
        simpl. rewrite IH, (eq_int_as_eqb (emp_id e) (emp_id m) employee_id Hid).
        reflexivity.
Qed.

(** X18.  [assign_employee_to_project] looks for the employee first, in the
    departments of the company, and for the project second: it raises
    [EmployeeNotFoundError] when no department holds the id, whatever the
    project id is, and [ProjectNotFoundError] when no project has the
    project id.  When the team of the project already has a member with the
    employee's id it raises [ValueError].  Each failure leaves everything as
    it was.  Otherwise the employee that the departments gave is put at the
    end of the team, and the call returns [True]. *)
Theorem assign_looks_up_employee_then_project
    (self : cref) (c : company) (ds : list department) (staff : list (list employee))
    (ps : list project) (employee_id project_id : pyval) (s : store) :
  companies s !! self = Some c ->
  departments_at s (comp_departments c) ds -> staff_at s ds staff ->
  projects_at s (comp_projects c) ps ->
  (first_holder employee_id (staff_of ds) (concat staff) = None ->
   Company.assign_employee_to_project self employee_id project_id s
   = (s, Raise EmployeeNotFoundError)) /\
  (forall r,
      first_holder employee_id (staff_of ds) (concat staff) = Some r ->
      (Forall (fun p => Py.eq_int (proj_id p) project_id = false) ps ->
       Company.assign_employee_to_project self employee_id project_id s
       = (s, Raise ProjectNotFoundError)) /\
      (forall l1 prj l2 ps1 p ps2 team,
          comp_projects c = l1 ++ prj :: l2 -> ps = ps1 ++ p :: ps2 ->
          length l1 = length ps1 ->
          Forall (fun p' => Py.eq_int (proj_id p') project_id = false) ps1 ->
          Py.eq_int (proj_id p) project_id = true ->
          employees_at s (proj_team p) team ->
          Company.assign_employee_to_project self employee_id project_id s
          = if holds_id employee_id team then (s, Raise ValueError)
            else (mkStore (employees s) (departments s)
                    (<[prj := Project.with_team (proj_team p ++ [r]) p]> (projects s))
                    (companies s) (files s),
                  Ret true))).
Proof. apply assign_employee_to_project_run. Qed.

Lemma assign_looks_up_employee_then_project_witness :
  Company.assign_employee_to_project 0%nat (VInt 9) (VInt 1) acme
  = (mkStore (employees acme) (departments acme)
       (<[0%nat := Project.with_team [0; 1]%nat site_project]> (projects acme))
       (companies acme) (files acme),
     Ret true).
Proof.
  refine (proj2 (proj2 (assign_looks_up_employee_then_project 0%nat acme_company
                          [dev; sales] [[ann; bob]; [sample_salesperson]]
                          [site_project; app_project; audit_project]
                          (VInt 9) (VInt 1) acme eq_refl _ _ _)
                   1%nat eq_refl)
            [] 0%nat [1; 2]%nat [] site_project [app_project; audit_project] [ann]
            eq_refl eq_refl eq_refl _ eq_refl _);
    repeat constructor.
Defined.

(** ** The rows of the CSV reports *)

Lemma file_set_set name f g fs :
  file_set name g (file_set name f fs) = file_set name g fs.
Proof.
  induction fs as [|[n f'] fs IH]; simpl.
  - rewrite String.eqb_refl. reflexivity.
  - destruct (String.eqb name n) eqn:E; simpl; rewrite E; [reflexivity |].
    rewrite IH. reflexivity.
Qed.

Lemma all_employees_of_run s l ds :
  departments_at s l ds -> Company.all_employees_of l s = (s, Ret (staff_of ds)).
Proof.
  induction 1 as [|r d l ds Hr _ IH]; simpl; [reflexivity |].
  unfold bind at 1, Department.get_employees, bind at 1, read_department.
  rewrite Hr. simpl. unfold bind. rewrite IH. reflexivity.
Qed.

Lemma csv_writerow_run filename rows row s :
  file_get filename (files s) = Some (CsvFile rows) ->
  csv_writerow filename row s = (with_file filename (CsvFile (rows ++ [row])) s, Ret tt).
Proof. intros H. unfold csv_writerow. rewrite H. reflexivity. Qed.

Lemma with_file_twice filename f g s :
  with_file filename g (with_file filename f s) = with_file filename g s.
Proof. unfold with_file. simpl. rewrite file_set_set. reflexivity. Qed.

Lemma file_get_with_file filename f s :
  file_get filename (files (with_file filename f s)) = Some f.
Proof. apply file_get_set. Qed.

Lemma with_file_same filename f s :
  file_get filename (files s) = Some f -> with_file filename f s = s.
Proof.
  destruct s as [a b c d fs]. unfold with_file. simpl. intros Hfile. f_equal.
  induction fs as [|[n f'] fs IH]; simpl in *; [discriminate |].
  destruct (String.eqb filename n) eqn:E.
  - apply String.eqb_eq in E. subst. injection Hfile as ->. reflexivity.
  - rewrite IH by exact Hfile. reflexivity.
Qed.

Lemma employee_rows_run filename l es salaries :
  Forall2 (fun e salary => calculate_salary e = Ret salary) es salaries ->
  forall s rows0,
    employees_at s l es ->
    file_get filename (files s) = Some (CsvFile rows0) ->
    for_each l (fun emp =>
      e <- read_employee emp ;;
      salary <- lift (calculate_salary e) ;;
      csv_writerow filename (employee_row e salary)) s
    = (with_file filename (CsvFile (rows0 ++ zip_with employee_row es salaries)) s,
       Ret tt).
Proof.
  intros Hsalaries. revert l.
  induction Hsalaries as [|e salary es salaries Hsal _ IH]; intros l s rows0 Hl Hfile;
    inversion Hl as [|r ? l' ? Hr Hl']; subst.
  - simpl. rewrite app_nil_r.
    rewrite (with_file_same filename _ s Hfile). reflexivity.
  - cbn [for_each]. unfold bind at 1, bind at 1, read_employee. rewrite Hr. simpl.
    unfold bind at 1, lift. rewrite Hsal.
    rewrite (csv_writerow_run filename rows0 _ s Hfile).
    pose proof (IH l' (with_file filename (CsvFile (rows0 ++ [employee_row e salary])) s)
                  (rows0 ++ [employee_row e salary])) as Hrun.
    refine (eq_trans (Hrun _ _) _).
    + apply (employees_at_same s); [reflexivity | exact Hl'].
    + apply file_get_with_file.
    + rewrite with_file_twice, <- app_assoc. reflexivity.
Qed.

Lemma export_employees_csv_run self c ds staff salaries filename s :
  companies s !! self = Some c ->
  departments_at s (comp_departments c) ds -> staff_at s ds staff ->
  Forall2 (fun e salary => calculate_salary e = Ret salary) (concat staff) salaries ->
  Company.export_employees_csv self filename s
  = (with_file filename
       (CsvFile (Company.EMPLOYEES_HEADER
                 :: zip_with employee_row (concat staff) salaries)) s,
     Ret tt).
Proof.
  intros Hc Hds Hs Hsalaries.
  assert (Hall : Company.get_all_employees self s = (s, Ret (staff_of ds))).
  { unfold Company.get_all_employees, bind, read_company. rewrite Hc. simpl.
    apply all_employees_of_run, Hds. }
  unfold Company.export_employees_csv.
  rewrite (bind_run _ _ _ _ _ Hall).
  rewrite (bind_run _ _ s _ tt eq_refl).
  change (fst (csv_open filename s)) with (with_file filename (CsvFile []) s).
  rewrite (bind_run _ _ _ _ _
             (csv_writerow_run filename [] Company.EMPLOYEES_HEADER _
                (file_get_with_file filename _ s))).
  rewrite with_file_twice.
  pose proof (employee_rows_run filename (staff_of ds) (concat staff) salaries Hsalaries
                (with_file filename (CsvFile ([] ++ [Company.EMPLOYEES_HEADER])) s)
                [Company.EMPLOYEES_HEADER]) as Hrun.
  unfold employee_row in Hrun |- *. rewrite Hrun.
  - rewrite with_file_twice. reflexivity.
  - apply (employees_at_same s); [reflexivity | apply staff_at_concat, Hs].
  - apply file_get_with_file.
Qed.

(** X19.  When the salary of every employee of the company can be computed,
    the employees report holds, after its header, one row for each
    employee, department after department and in the order of the
    departments' lists, with the employee's id, name, department
    attribute, class name, base salary and computed salary; it replaces
    what the file held before and changes nothing else. *)
Theorem employees_report_has_a_row_per_employee
    (self : cref) (c : company) (ds : list department) (staff : list (list employee))
    (salaries : list pynum) (filename : string) (s : store) :
  companies s !! self = Some c ->
  departments_at s (comp_departments c) ds -> staff_at s ds staff ->
  Forall2 (fun e salary => calculate_salary e = Ret salary) (concat staff) salaries ->
  Company.export_employees_csv self filename s
  = (with_file filename
       (CsvFile (Company.EMPLOYEES_HEADER
                 :: zip_with employee_row (concat staff) salaries)) s,
     Ret tt).
Proof. apply export_employees_csv_run. Qed.

Lemma employees_report_has_a_row_per_employee_witness :
  Company.export_employees_csv 0%nat "employees.csv" acme
  = (with_file "employees.csv"
       (CsvFile (Company.EMPLOYEES_HEADER
                 :: zip_with employee_row [ann; bob; sample_salesperson]
                      [PInt 90000; Num.ratio 100000 1; Num.ratio 55000 1])) acme,
     Ret tt).
Proof.
  refine (employees_report_has_a_row_per_employee 0%nat acme_company
            [dev; sales] [[ann; bob]; [sample_salesperson]]
            [PInt 90000; Num.ratio 100000 1; Num.ratio 55000 1]
            "employees.csv" acme eq_refl _ _ _); repeat constructor.
Defined.

Lemma sum_salaries_run s l es acc :
  employees_at s l es -> sum_salaries l acc s = (s, total_salary es acc).
Proof.
  intros H. revert acc. induction H as [|r e l es Hr _ IH]; intros acc; simpl;
    [reflexivity |].
  unfold bind at 1, read_employee. rewrite Hr. simpl. unfold bind at 1, lift.
  destruct (calculate_salary e) as [salary|err]; [| reflexivity].
  unfold bind at 1. destruct (Num.add acc salary) as [acc'|err]; [apply IH | reflexivity].
Qed.

Lemma project_rows_run filename l ps teams budgets :
  Forall2 (fun team budget => total_salary team Num.zero = Ret budget) teams budgets ->
  forall s rows0,
    projects_at s l ps -> teams_at s ps teams ->
    file_get filename (files s) = Some (CsvFile rows0) ->
    for_each l (fun proj =>
      p <- read_project proj ;;
      size <- Project.get_team_size proj ;;
      budget <- Project.calculate_total_salary proj ;;
      csv_writerow filename
        [VNum (PInt (proj_id p)); VStr (proj_name p); VStr (proj_status p);
         VStr (Datetime.strftime (proj_deadline p)); VNum (PInt (Z.of_nat size));
         VNum budget]) s
    = (with_file filename (CsvFile (rows0 ++ zip_with project_row ps budgets)) s,
       Ret tt).
Proof.
  intros Hbudgets. revert l ps.
  induction Hbudgets as [|team budget teams budgets Hb _ IH];
    intros l ps s rows0 Hl Ht Hfile;
    inversion Ht as [|p ? ps' ? Hp Ht']; subst;
    inversion Hl as [|r ? l' ? Hr Hl']; subst.
  - simpl. rewrite app_nil_r.
    rewrite (with_file_same filename _ s Hfile). reflexivity.
  - set (s1 := with_file filename (CsvFile (rows0 ++ [project_row p budget])) s).
    pose proof (IH l' ps' s1 (rows0 ++ [project_row p budget])) as Hrun.
    cbn [for_each]. unfold bind at 1, bind at 1, read_project. rewrite Hr. simpl.
    unfold bind at 1, Project.get_team_size, bind at 1, read_project. rewrite Hr. simpl.
    unfold bind at 1, Project.calculate_total_salary, bind at 1, read_project.
    rewrite Hr. simpl. rewrite (sum_salaries_run s _ team Num.zero Hp), Hb.
    unfold bind at 1.
    rewrite (csv_writerow_run filename rows0 _ s Hfile).
    refine (eq_trans (Hrun _ _ _) _).
    + exact Hl'.
    + eapply Forall2_impl; [exact Ht' |]. intros q tm Hq.
      apply (employees_at_same s); [reflexivity | exact Hq].
    + apply file_get_with_file.
    + subst s1. rewrite with_file_twice, <- app_assoc. reflexivity.
Qed.

Lemma export_projects_csv_run self c ps teams budgets filename s :
  companies s !! self = Some c ->
  projects_at s (comp_projects c) ps -> teams_at s ps teams ->
  Forall2 (fun team budget => total_salary team Num.zero = Ret budget) teams budgets ->
  Company.export_projects_csv self filename s
  = (with_file filename
       (CsvFile (Company.PROJECTS_HEADER :: zip_with project_row ps budgets)) s,
     Ret tt).
Proof.
  intros Hc Hps Ht Hbudgets.
  unfold Company.export_projects_csv.
  rewrite (bind_run _ _ s _ tt eq_refl).
  change (fst (csv_open filename s)) with (with_file filename (CsvFile []) s).
  rewrite (bind_run _ _ _ _ _
             (csv_writerow_run filename [] Company.PROJECTS_HEADER _
                (file_get_with_file filename _ s))).
  rewrite with_file_twice.
  set (s1 := with_file filename (CsvFile ([] ++ [Company.PROJECTS_HEADER])) s).
  assert (Hc1 : read_company self s1 = (s1, Ret c)).
  { unfold read_company. change (companies s1) with (companies s). rewrite Hc.
    reflexivity. }
  rewrite (bind_run _ _ _ _ _ Hc1).
  pose proof (project_rows_run filename (comp_projects c) ps teams budgets Hbudgets s1
                [Company.PROJECTS_HEADER]) as Hrun.
  refine (eq_trans (Hrun _ _ _) _).
  - exact Hps.
  - eapply Forall2_impl; [exact Ht |]. intros q tm Hq.
    apply (employees_at_same s); [reflexivity | exact Hq].
  - apply file_get_with_file.
  - subst s1. rewrite with_file_twice. reflexivity.
Qed.

(** X20.  When the sum of the salaries of every team can be computed, the
    projects report holds, after its header, one row for each project of
    the company in the order of the company's list, with the project's id,
    name, status, deadline as [strftime] prints it, the size of its team
    and the sum of the salaries of the team; it replaces what the file
    held before and changes nothing else. *)
Theorem projects_report_has_a_row_per_project
    (self : cref) (c : company) (ps : list project) (teams : list (list employee))
    (budgets : list pynum) (filename : string) (s : store) :
  companies s !! self = Some c ->
  projects_at s (comp_projects c) ps -> teams_at s ps teams ->
  Forall2 (fun team budget => total_salary team Num.zero = Ret budget) teams budgets ->
  Company.export_projects_csv self filename s
  = (with_file filename
       (CsvFile (Company.PROJECTS_HEADER :: zip_with project_row ps budgets)) s,
     Ret tt).
Proof. apply export_projects_csv_run. Qed.

Lemma projects_report_has_a_row_per_project_witness :
  Company.export_projects_csv 0%nat "projects.csv" acme
  = (with_file "projects.csv"
       (CsvFile (Company.PROJECTS_HEADER
                 :: zip_with project_row [site_project; app_project; audit_project]
                      [PInt 90000; Num.ratio 190000 1; PInt 0])) acme,
     Ret tt).
Proof.
  refine (projects_report_has_a_row_per_project 0%nat acme_company
            [site_project; app_project; audit_project] [[ann]; [ann; bob]; []]
            [PInt 90000; Num.ratio 190000 1; PInt 0]
            "projects.csv" acme eq_refl _ _ _); repeat constructor.
Defined.

(** ** Saving and loading a department *)

Lemma lookup_seq_block {A} (pre blk post : list A) :
  Forall2 (fun r x => (pre ++ blk ++ post) !! r = Some x)
    (seq (length pre) (length blk)) blk.
Proof.
  revert pre. induction blk as [|x blk IH]; intros pre; [constructor |].
  simpl. constructor.
  - apply list_lookup_middle. reflexivity.
  - specialize (IH (pre ++ [x])). rewrite length_app, Nat.add_1_r in IH.
    rewrite <- app_assoc in IH. exact IH.
Qed.

Lemma employees_at_more s s' l es more :
  employees s' = employees s ++ more -> employees_at s l es -> employees_at s' l es.
Proof.
  intros H Hl. unfold employees_at. rewrite H.
  eapply Forall2_impl; [exact Hl |]. intros r e Hr. apply lookup_app_l_Some, Hr.
Qed.

Lemma map_m_department_employee_to_dict s l es :
  employees_at s l es ->
  map_m Department._employee_to_dict l s = (s, Ret (map to_dict es)).
Proof.
  induction 1 as [|r e l es Hr _ IH]; simpl; [reflexivity |].
  unfold bind at 1, Department._employee_to_dict at 1, bind at 1, read_employee.
  rewrite Hr. simpl. unfold bind at 1. rewrite IH. reflexivity.
Qed.

(** The records of the employees [es] are loaded into a department that
    holds [done] so far. *)
Lemma load_records_run (dept : nat) name es :
  Forall (fun e => valid_employee e = true) es ->
  forall done ldone s,
    departments s !! dept = Some (mkDepartment name ldone) ->
    employees_at s ldone done ->
    NoDup (map emp_id (done ++ es)) ->
    for_each (map to_dict es)
      (fun emp_data =>
         employee <- Department._employee_from_dict emp_data ;;
         Department.add_employee dept employee) s
    = (mkStore (employees s ++ es)
         (<[dept := mkDepartment name (ldone ++ seq (length (employees s)) (length es))]>
            (departments s))
         (projects s) (companies s) (files s),
       Ret tt).
Proof.
  induction 1 as [|e es He _ IH]; intros done ldone s Hd Hdone Hnd.
  - cbn [map for_each length seq]. rewrite !app_nil_r, (list_insert_id _ _ _ Hd).
    destruct s; reflexivity.
  - cbn [map for_each]. unfold bind at 1, bind at 1.
    rewrite (employee_from_dict_run e s He). cbn [new_employee].
    set (s1 := mkStore (employees s ++ [e]) _ _ _ _).
    assert (Hnew : employees s1 !! length (employees s) = Some e)
      by (apply list_lookup_middle; reflexivity).
    assert (Hdone1 : employees_at s1 ldone done)
      by (apply (employees_at_more s s1 _ _ [e]); [reflexivity | exact Hdone]).
    rewrite (add_employee_run dept _ done _ e s1 Hd Hdone1 Hnew).
    replace (existsb _ done) with false.
    2:{ symmetry. apply not_true_is_false. intros Hex.
        apply existsb_exists in Hex as (m & Hm & Hid). apply Z.eqb_eq in Hid.
        rewrite map_app in Hnd. apply NoDup_app in Hnd as (_ & Hnd & _).
        apply (Hnd (emp_id e)).
        - rewrite <- Hid. apply list_elem_of_In, in_map, Hm.
        - simpl. left. }
    set (s2 := mkStore _ _ _ _ _).
    rewrite (IH (done ++ [e]) (ldone ++ [length (employees s)]) s2).
    + subst s2 s1. cbn [employees departments projects companies files dept_name].
      rewrite list_insert_insert_eq, <- !app_assoc, length_app, Nat.add_1_r.
      reflexivity.
    + subst s2. cbn [departments]. apply list_lookup_insert_eq.
      eapply lookup_lt_Some. exact Hd.
    + apply employees_at_app; [exact Hdone1 | constructor; [exact Hnew | constructor]].
    + rewrite <- app_assoc. exact Hnd.
Qed.

Lemma load_from_file_dict_run name es s :
  Py.blank name = false ->
  Forall (fun e => valid_employee e = true) es ->
  NoDup (map emp_id es) ->
  Department.load_from_file_dict
    (VDict [("name", VStr name); ("employees", VList (map to_dict es))]) s
  = (mkStore (employees s ++ es)
       (departments s
        ++ [mkDepartment name (seq (length (employees s)) (length es))])
       (projects s) (companies s) (files s),
     Ret (length (departments s))).
Proof.
  intros Hname Hvalid Hnd.
  unfold Department.load_from_file_dict, bind at 1, lift. cbn [Py.getitem Py.assoc String.eqb Ascii.eqb Bool.eqb].
  unfold bind at 1, Department.__init__, bind at 1, lift.
  cbn [Department._validate_name]. rewrite Hname. cbn [new_department].
  set (s1 := mkStore _ _ _ _ _).
  unfold bind at 1. cbn [Py.get Py.assoc String.eqb Ascii.eqb Bool.eqb obind Py.iter].
  assert (Hloop := load_records_run (length (departments s)) name es Hvalid [] [] s1
                    (list_lookup_middle _ _ _ _ eq_refl) (Forall2_nil_2 _ _ _) Hnd).
  rewrite (bind_run _ _ _ _ _ Hloop).
  subst s1. cbn [employees departments projects companies files].
  rewrite insert_app_r_alt, Nat.sub_diag by lia. reflexivity.
Qed.

(** X21.  A department written with [save_to_file] and read back with
    [load_from_file] is a new department object with the same name whose
    members are new employee objects, equal in class and attributes to the
    members of the saved department and in the same order.  This holds for a
    department whose name is not blank and whose members satisfy their class
    invariant and have pairwise distinct ids.  The saved department and its
    members stay as they are. *)
Theorem department_file_round_trip
    (self : dref) (d : department) (es : list employee) (filename : string)
    (s : store) :
  departments s !! self = Some d ->
  employees_at s (dept_employees d) es ->
  Py.blank (dept_name d) = false ->
  Forall (fun e => valid_employee e = true) es ->
  NoDup (map emp_id es) ->
  exists s1 s2 copy members,
    Department.save_to_file self filename s = (s1, Ret tt) /\
    Department.load_from_file filename s1 = (s2, Ret copy) /\
    departments s2 !! copy = Some (mkDepartment (dept_name d) members) /\
    employees_at s2 members es /\
    copy = length (departments s) /\
    members = seq (length (employees s)) (length es) /\
    departments s2 !! self = Some d /\
    employees_at s2 (dept_employees d) es.
Proof.
  intros Hd Hes Hname Hvalid Hnd.
  eexists _, _, _, _. split; [| split].
  - unfold Department.save_to_file, bind at 1, read_department. rewrite Hd. simpl.
    unfold bind. rewrite (map_m_department_employee_to_dict s _ es Hes). reflexivity.
  - unfold Department.load_from_file, bind at 1, json_load.
    cbn [files]. rewrite file_get_set.
    apply load_from_file_dict_run; assumption.
  - cbn [employees departments]. repeat split.
    + apply list_lookup_middle. reflexivity.
    + pose proof (lookup_seq_block (employees s) es []) as H.
      rewrite app_nil_r in H. exact H.
    + apply lookup_app_l_Some, Hd.
    + eapply Forall2_impl; [exact Hes |]. intros r e Hr. apply lookup_app_l_Some, Hr.
Qed.

Lemma department_file_round_trip_witness :
  exists s1 s2 copy members,
    Department.save_to_file 0%nat "dev.json" acme = (s1, Ret tt) /\
    Department.load_from_file "dev.json" s1 = (s2, Ret copy) /\
    departments s2 !! copy = Some (mkDepartment "Dev" members) /\
    employees_at s2 members [ann; bob] /\
    copy = 2%nat /\
    members = [3; 4]%nat /\
    departments s2 !! 0%nat = Some dev /\
    employees_at s2 [0; 1]%nat [ann; bob].
Proof.
  refine (department_file_round_trip 0%nat dev [ann; bob] "dev.json" acme
            eq_refl _ eq_refl _ _).
  - repeat constructor.
  - repeat constructor.
  - apply (bool_decide_unpack _). vm_compute. exact I.
Defined.

(** The first element of a list whose key was met before. *)
Lemma first_repeat {A} (f : A -> Z) (l : list A) :
  ~ NoDup (map f l) ->
  exists l1 x l2, l = l1 ++ x :: l2 /\ NoDup (map f l1) /\ f x ∈ map f l1.
Proof.
  induction l as [|x l IH] using rev_ind; intros Hdup.
  - exfalso. apply Hdup. constructor.
  - destruct (decide (NoDup (map f l))) as [Hnd | Hnd].
    + exists l, x, []. split; [reflexivity |]. split; [exact Hnd |].
      destruct (decide (f x ∈ map f l)) as [Hin | Hnin]; [exact Hin |].
      exfalso. apply Hdup. rewrite map_app. apply NoDup_app.
      split; [exact Hnd |]. split; [| apply NoDup_singleton].
      intros y Hy Hy'. apply list_elem_of_singleton in Hy'. subst y. contradiction.
    + destruct (IH Hnd) as (l1 & y & l2 & -> & H1 & H2).
      exists l1, y, (l2 ++ [x]). rewrite <- app_assoc. auto.
Qed.

Lemma load_repeated_id_run name done e rest s :
  Py.blank name = false ->
  Forall (fun e => valid_employee e = true) (done ++ e :: rest) ->
  NoDup (map emp_id done) -> emp_id e ∈ map emp_id done ->
  Department.load_from_file_dict
    (VDict [("name", VStr name);
            ("employees", VList (map to_dict (done ++ e :: rest)))]) s
  = (mkStore (employees s ++ done ++ [e])
       (departments s
        ++ [mkDepartment name (seq (length (employees s)) (length done))])
       (projects s) (companies s) (files s),
     Raise ValueError).
Proof.
  intros Hname Hvalid Hnd Hin.
  apply Forall_app in Hvalid as [Hdone Hrest].
  inversion Hrest as [|? ? He _]; subst.
  unfold Department.load_from_file_dict, bind at 1, lift. cbn [Py.getitem Py.assoc String.eqb Ascii.eqb Bool.eqb].
  unfold bind at 1, Department.__init__, bind at 1, lift.
  cbn [Department._validate_name]. rewrite Hname. cbn [new_department].
  set (s1 := mkStore _ _ _ _ _).
  unfold bind at 1. cbn [Py.get Py.assoc String.eqb Ascii.eqb Bool.eqb obind Py.iter].
  assert (Hloop := load_records_run (length (departments s)) name done Hdone [] [] s1
                    (list_lookup_middle _ _ _ _ eq_refl) (Forall2_nil_2 _ _ _) Hnd).
  unfold bind at 1. rewrite map_app, for_each_app, (bind_run _ _ _ _ _ Hloop).
  set (s2 := mkStore _ _ _ _ _).
  cbn [map for_each]. unfold bind at 1, bind at 1, bind at 1.
  rewrite (employee_from_dict_run e s2 He). cbn [new_employee].
  set (s3 := mkStore _ _ _ _ _).
  assert (Hd3 : departments s3 !! length (departments s)
                = Some (mkDepartment name (seq (length (employees s)) (length done)))).
  { subst s3 s2 s1. cbn [departments employees].
    rewrite insert_app_r_alt, Nat.sub_diag by lia.
    apply list_lookup_middle. reflexivity. }
  assert (Hes3 : employees_at s3 (seq (length (employees s)) (length done)) done).
  { subst s3 s2 s1. cbn [employees]. unfold employees_at.
    rewrite <- app_assoc. apply lookup_seq_block. }
  assert (He3 : employees s3 !! length (employees s2) = Some e)
    by (apply list_lookup_middle; reflexivity).
  rewrite (add_employee_run _ _ done _ e s3 Hd3 Hes3 He3).
  replace (existsb _ done) with true.
  - subst s3 s2 s1. cbn [employees departments projects companies files].
    rewrite insert_app_r_alt, Nat.sub_diag, <- app_assoc by lia. reflexivity.
  - symmetry. apply existsb_exists.
    apply list_elem_of_In, in_map_iff in Hin as (m & Hid & Hm).
    exists m. split; [exact Hm | apply Z.eqb_eq, Hid].
Qed.

(** X22.  A department in which two members have the same id can be saved
    but not loaded: [load_from_file] raises the [ValueError] of
    [add_employee] at the first record whose id an earlier record has. *)
Theorem department_with_equal_ids_does_not_load
    (self : dref) (d : department) (es : list employee) (filename : string)
    (s : store) :
  departments s !! self = Some d ->
  employees_at s (dept_employees d) es ->
  Py.blank (dept_name d) = false ->
  Forall (fun e => valid_employee e = true) es ->
  ~ NoDup (map emp_id es) ->
  exists s1 s2,
    Department.save_to_file self filename s = (s1, Ret tt) /\
    Department.load_from_file filename s1 = (s2, Raise ValueError).
Proof.
  intros Hd Hes Hname Hvalid Hdup.
  destruct (first_repeat emp_id es Hdup) as (done & e & rest & -> & Hnd & Hin).
  eexists _, _. split.
  - unfold Department.save_to_file, bind at 1, read_department. rewrite Hd. simpl.
    unfold bind. rewrite (map_m_department_employee_to_dict s _ _ Hes). reflexivity.
  - unfold Department.load_from_file, bind at 1, json_load.
    cbn [files]. rewrite file_get_set.
    apply load_repeated_id_run; assumption.
Qed.

Lemma department_with_equal_ids_does_not_load_witness :
  exists s1 s2,
    Department.save_to_file 0%nat "dev.json" renumbered = (s1, Ret tt) /\
    Department.load_from_file "dev.json" s1 = (s2, Raise ValueError).
Proof.
  refine (department_with_equal_ids_does_not_load 0%nat dev
            [ann; with_id 7 bob] "dev.json" renumbered eq_refl _ eq_refl _ _).
  - repeat constructor.
  - repeat constructor.
  - intros H. apply NoDup_cons in H as [H _]. apply H. simpl. left.
Defined.

(** ** Saving and loading a company *)






Lemma same_object_in_above x l :
  Forall (fun r => (r < x)%nat) l -> Company.same_object_in x l = false.
Proof.
  intros H. apply not_true_is_false. intros Hin. apply same_object_in_In in Hin.
  rewrite Forall_forall in H. specialize (H x (proj2 (list_elem_of_In _ _) Hin)). lia.
Qed.

Lemma read_company_run (r : nat) c s :
  companies s !! r = Some c -> read_company r s = (s, Ret c).
Proof. intros H. unfold read_company. replace (companies s !! r) with (Some c); reflexivity || (symmetry; exact H). Qed.

Lemma read_project_run (r : nat) p s :
  projects s !! r = Some p -> read_project r s = (s, Ret p).
Proof. intros H. unfold read_project. replace (projects s !! r) with (Some p); reflexivity || (symmetry; exact H). Qed.

(** Loading the records of the departments [ds] into the company [cnew]. *)
Lemma load_departments_run (cnew : nat) cname lp ds :
  Forall (fun d => Py.blank (dept_name d) = false) ds ->
  forall staff ld s,
    length ds = length staff ->
    Forall (Forall (fun e => valid_employee e = true)) staff ->
    Forall (fun es => NoDup (map emp_id es)) staff ->
    companies s !! cnew = Some (mkCompany cname ld lp) ->
    Forall (fun r => (r < length (departments s))%nat) ld ->
    for_each (zip_with department_record ds staff) (Company.load_department cnew) s
    = (mkStore (employees s ++ concat staff)
         (departments s ++ department_copies (length (employees s)) ds staff)
         (projects s)
         (<[cnew := mkCompany cname (ld ++ seq (length (departments s)) (length ds)) lp]>
            (companies s))
         (files s),
       Ret tt).
Proof.
  induction 1 as [|d ds Hd _ IH]; intros staff ld s Hlen Hvalid Hnd Hc Hld.
  - destruct staff; [| discriminate]. cbn [zip_with for_each concat department_copies length seq].
    rewrite !app_nil_r, (list_insert_id _ _ _ Hc). destruct s; reflexivity.
  - destruct staff as [|es staff]; [discriminate |].
    inversion Hvalid as [|? ? Hes Hvalid']; subst.
    inversion Hnd as [|? ? Hnd1 Hnd']; subst.
    set (s1 := mkStore (employees s ++ es)
                 (departments s
                  ++ [mkDepartment (dept_name d) (seq (length (employees s)) (length es))])
                 (projects s) (companies s) (files s)).
    set (s2 := mkStore (employees s1) (departments s1) (projects s1)
                 (<[cnew := mkCompany cname (ld ++ [length (departments s)]) lp]>
                    (companies s1))
                 (files s1)).
    assert (Hstep : Company.load_department cnew (department_record d es) s
                    = (s2, Ret tt)).
    { unfold Company.load_department, department_record.
      rewrite (bind_run _ _ _ _ _
                 (load_from_file_dict_run (dept_name d) es s Hd Hes Hnd1)).
      fold s1. unfold Company.add_department.
      rewrite (bind_run _ _ _ _ _ (read_company_run cnew _ s1 Hc)).
      cbn [comp_departments comp_name comp_projects].
      rewrite (same_object_in_above _ _ Hld). reflexivity. }
    cbn [zip_with for_each]. rewrite (bind_run _ _ _ _ _ Hstep).
    rewrite (IH staff (ld ++ [length (departments s)]) s2).
    + subst s2 s1. cbn [employees departments projects companies files].
      cbn [concat department_copies length seq].
      rewrite list_insert_insert_eq, !length_app. cbn [length].
      rewrite <- !app_assoc, Nat.add_1_r. reflexivity.
    + simpl in Hlen. lia.
    + exact Hvalid'.
    + exact Hnd'.
    + subst s2 s1. cbn [companies]. apply list_lookup_insert_eq.
      eapply lookup_lt_Some. exact Hc.
    + subst s2 s1. cbn [departments]. rewrite length_app. cbn [length].
      apply Forall_app. split.
      * eapply Forall_impl; [exact Hld |]. intros r Hr. simpl in Hr. lia.
      * constructor; [lia | constructor].
Qed.

Lemma to_dict_id e : Py.get (to_dict e) "id" VNone = Ret (VNum (PInt (emp_id e))).
Proof. destruct e as [i n d b [| | |]]; reflexivity. Qed.

Lemma truthy_positive z : 0 < z -> Py.truthy (VNum (PInt z)) = true.
Proof.
  intros H. unfold Py.truthy.
  change (Num.eqb (PInt z) Num.zero) with (Py.eq_int z (VNum (PInt 0))).
  rewrite eq_int_int. destruct (Z.eqb_spec z 0); [lia | reflexivity].
Qed.

Lemma departments_at_same s s' l ds :
  departments s = departments s' -> departments_at s l ds -> departments_at s' l ds.
Proof. intros H. unfold departments_at. rewrite H. auto. Qed.

Lemma staff_at_same s s' ds staff :
  employees s = employees s' -> staff_at s ds staff -> staff_at s' ds staff.
Proof.
  intros H Hs. eapply Forall2_impl; [exact Hs |]. intros d es Hes.
  apply (employees_at_same s); assumption.
Qed.

Lemma projects_at_insert s (prj : nat) p l ps :
  Forall (fun r => r <> prj) l -> projects_at s l ps ->
  Forall2 (fun r q => <[prj := p]> (projects s) !! r = Some q) l ps.
Proof.
  intros Hne Hl. induction Hl as [|r q l ps Hr _ IH]; [constructor |].
  inversion Hne as [|? ? Hr' Hne']; subst. constructor; [| apply IH, Hne'].
  rewrite list_lookup_insert_ne by (intros E; apply Hr'; symmetry; exact E). exact Hr.
Qed.

Lemma holds_id_false z team :
  Forall (fun m => emp_id m <> z) team -> holds_id (VNum (PInt z)) team = false.
Proof.
  intros H. apply not_true_is_false. intros Hh. apply holds_id_In in Hh.
  apply in_map_iff in Hh as (m & Hid & Hm). rewrite Forall_forall in H.
  exact (H m (proj2 (list_elem_of_In _ _) Hm) Hid).
Qed.

Section Relinking.

(** The company [cnew] that is being loaded: its departments are loaded,
    [loaded] are its projects so far, and [prj] is the project whose team is
    being restored. *)
Variables (cnew prj : nat) (cname : string) (ld : list dref) (lp : list pref).
Variables (copies : list department) (staff : list (list employee)).
Variables (loaded : list project) (p : project).

Definition relinking (T : list eref) (Tvals : list employee) (s : store) : Prop :=
  companies s !! cnew = Some (mkCompany cname ld (lp ++ [prj])) /\
  departments_at s ld copies /\ staff_at s copies staff /\
  projects_at s lp loaded /\ Forall (fun r => r <> prj) lp /\
  projects s !! prj = Some (Project.with_team T p) /\
  employees_at s T Tvals.

Hypothesis other_ids : Forall (fun q => proj_id q <> proj_id p) loaded.

Lemma relink_run T Tvals e s :
  relinking T Tvals s ->
  Forall (fun m => emp_id m <> emp_id e) Tvals ->
  0 < emp_id e ->
  Company.relink cnew prj (to_dict e) s
  = (mkStore (employees s) (departments s)
       (<[prj := Project.with_team
                   (T ++ option_list (holder_of copies staff e)) p]>
          (projects s))
       (companies s) (files s),
     Ret tt).
Proof.
  intros (Hc & Hds & Hs & Hlp & Hne & Hp & HT) Hfresh Hpos.
  unfold Company.relink.
  rewrite (bind_run (lift _) _ s s _ (f_equal (pair s) (to_dict_id e))).
  rewrite (truthy_positive _ Hpos). unfold try_except.
  rewrite (bind_run _ _ _ _ _ (read_project_run prj _ s Hp)). cbv beta.
  assert (Hps : projects_at s (lp ++ [prj]) (loaded ++ [Project.with_team T p])).
  { apply Forall2_app; [exact Hlp | constructor; [exact Hp | constructor]]. }
  destruct (assign_employee_to_project_run cnew _ copies staff _
              (VNum (PInt (emp_id e))) (VNum (PInt (proj_id (Project.with_team T p))))
              s Hc Hds Hs Hps) as [Hnone Hsome].
  change (first_holder _ _ _) with (holder_of copies staff e) in Hnone, Hsome.
  unfold bind at 1.
  destruct (holder_of copies staff e) as [r|] eqn:Eh.
  - destruct (Hsome r eq_refl) as [_ Hadd].
    specialize (Hadd lp prj [] loaded (Project.with_team T p) [] Tvals
                  eq_refl eq_refl (Forall2_length _ _ _ Hlp)).
    rewrite Hadd.
    + rewrite (holds_id_false _ _ Hfresh). destruct p; reflexivity.
    + eapply Forall_impl; [exact other_ids |]. intros q Hq.
      rewrite eq_int_int. apply Z.eqb_neq. destruct p; exact Hq.
    + rewrite eq_int_int. apply Z.eqb_refl.
    + exact HT.
  - rewrite (Hnone eq_refl). cbn [existsb exn_eqb orb ret].
    rewrite app_nil_r, (list_insert_id _ _ _ Hp). destruct s; reflexivity.
Qed.

Lemma relinking_step T Tvals e s :
  relinking T Tvals s ->
  exists more,
    Forall (fun m => emp_id m = emp_id e) more /\
    relinking (T ++ option_list (holder_of copies staff e)) (Tvals ++ more)
      (mkStore (employees s) (departments s)
         (<[prj := Project.with_team
                     (T ++ option_list (holder_of copies staff e)) p]>
            (projects s))
         (companies s) (files s)).
Proof.
  intros (Hc & Hds & Hs & Hlp & Hne & Hp & HT).
  assert (Hfound : exists more,
             Forall (fun m => emp_id m = emp_id e) more /\
             employees_at s (option_list (holder_of copies staff e)) more).
  { destruct (holder_of copies staff e) as [r|] eqn:Eh.
    - destruct (first_holder_found s _ _ _ r (staff_at_concat s copies staff Hs) Eh)
        as (m & Hm & Hid).
      rewrite eq_int_int in Hid. apply Z.eqb_eq in Hid.
      exists [m]. split; repeat constructor; assumption.
    - exists []. split; constructor. }
  destruct Hfound as (more & Hids & Hmore). exists more. split; [exact Hids |].
  repeat split; try assumption.
  - apply projects_at_insert; assumption.
  - cbn [projects]. apply list_lookup_insert_eq. eapply lookup_lt_Some. exact Hp.
  - apply employees_at_app; assumption.
Qed.

Lemma relink_team_run team :
  NoDup (map emp_id team) ->
  Forall (fun e => 0 < emp_id e) team ->
  forall T Tvals s,
    relinking T Tvals s ->
    Forall (fun m => ~ In (emp_id m) (map emp_id team)) Tvals ->
    for_each (map to_dict team) (Company.relink cnew prj) s
    = (mkStore (employees s) (departments s)
         (<[prj := Project.with_team (T ++ omap (holder_of copies staff) team) p]> (projects s))
         (companies s) (files s),
       Ret tt).
Proof.
  induction team as [|e team IH]; intros Hnd Hpos T Tvals s Hrel Hfresh.
  - destruct Hrel as (_ & _ & _ & _ & _ & Hp & _).
    cbn [map for_each omap list_omap]. rewrite app_nil_r, (list_insert_id _ _ _ Hp).
    destruct s; reflexivity.
  - cbn [map] in Hnd. apply NoDup_cons in Hnd as [Hnew Hnd].
    inversion Hpos as [|? ? He Hpos']; subst.
    assert (Hne : Forall (fun m => emp_id m <> emp_id e) Tvals).
    { eapply Forall_impl; [exact Hfresh |]. intros m Hm E. apply Hm. left.
      symmetry. exact E. }
    cbn [map for_each].
    rewrite (bind_run _ _ _ _ _ (relink_run T Tvals e s Hrel Hne He)).
    destruct (relinking_step T Tvals e s Hrel) as (more & Hids & Hrel').
    rewrite (IH Hnd Hpos' _ _ _ Hrel').
    + cbn [employees departments projects companies files].
      rewrite list_insert_insert_eq, <- app_assoc. do 4 f_equal.
      cbn [omap list_omap]. destruct (holder_of copies staff e); reflexivity.
    + apply Forall_app. split.
      * eapply Forall_impl; [exact Hfresh |]. intros m Hm Hin. apply Hm. right.
        exact Hin.
      * eapply Forall_impl; [exact Hids |]. intros m Hm Hin. apply Hnew.
        rewrite <- Hm. apply list_elem_of_In. exact Hin.
Qed.

End Relinking.

Lemma from_dict_record_run p team s :
  reloadable p = true ->
  Project.from_dict (project_record p team) s = new_project (Project.with_team [] p) s.
Proof.
  intros Hv. unfold Project.from_dict, project_record, bind at 1, lift. simpl.
  rewrite (project_init_valid p Hv). reflexivity.
Qed.

(** Loading the record of the project [p] with the team [team] into the
    company [cnew], whose departments are loaded. *)
Lemma load_project_run (cnew : nat) cname ld lp copies staff loaded p team s :
  companies s !! cnew = Some (mkCompany cname ld lp) ->
  departments_at s ld copies -> staff_at s copies staff ->
  projects_at s lp loaded ->
  Forall (fun r => (r < length (projects s))%nat) lp ->
  reloadable p = true ->
  Forall (fun q => proj_id q <> proj_id p) loaded ->
  Forall (fun e => 0 < emp_id e) team ->
  NoDup (map emp_id team) ->
  Company.load_project cnew (project_record p team) s
  = (mkStore (employees s) (departments s)
       (projects s ++ [Project.with_team (omap (holder_of copies staff) team) p])
       (<[cnew := mkCompany cname ld (lp ++ [length (projects s)])]> (companies s))
       (files s),
     Ret tt).
Proof.
  intros Hc Hds Hs Hlp Hbelow Hv Hother Hpos Hnd.
  set (prj := length (projects s)).
  set (p0 := Project.with_team [] p).
  set (s1 := mkStore (employees s) (departments s) (projects s ++ [p0])
               (companies s) (files s)).
  set (s2 := mkStore (employees s) (departments s) (projects s ++ [p0])
               (<[cnew := mkCompany cname ld (lp ++ [prj])]> (companies s)) (files s)).
  assert (Hnew : Project.from_dict (project_record p team) s = (s1, Ret prj))
    by (rewrite (from_dict_record_run p team s Hv); reflexivity).
  assert (Hp1 : projects s1 !! prj = Some p0)
    by (apply list_lookup_middle; reflexivity).
  assert (Hlp1 : projects_at s1 lp loaded).
  { eapply Forall2_impl; [exact Hlp |]. intros r q Hr. apply lookup_app_l_Some, Hr. }
  assert (Hadd : Company.add_project cnew prj s1 = (s2, Ret tt)).
  { rewrite (add_project_run cnew _ loaded prj p0 s1 Hc Hlp1 Hp1).
    cbn [comp_projects comp_name comp_departments].
    rewrite (same_object_in_above prj lp Hbelow).
    replace (existsb _ loaded) with false; [reflexivity |].
    symmetry. apply not_true_is_false. intros Hex.
    apply existsb_exists in Hex as (q & Hq & Hid). apply Z.eqb_eq in Hid.
    rewrite Forall_forall in Hother.
    apply (Hother q (proj2 (list_elem_of_In _ _) Hq)).
    rewrite Hid. destruct p; reflexivity. }
  assert (Hne : Forall (fun r => r <> prj) lp).
  { eapply Forall_impl; [exact Hbelow |]. intros r Hr. simpl in Hr. lia. }
  assert (Hrel : relinking cnew prj cname ld lp copies staff loaded p [] [] s2).
  { repeat split; try assumption.
    - apply list_lookup_insert_eq. eapply lookup_lt_Some. exact Hc.
    - constructor. }
  unfold Company.load_project.
  rewrite (bind_run _ _ _ _ _ Hnew), (bind_run _ _ _ _ _ Hadd).
  rewrite (bind_run (lift _) _ s2 s2 (map to_dict team) eq_refl).
  rewrite (relink_team_run cnew prj cname ld lp copies staff loaded p Hother team
             Hnd Hpos [] [] s2 Hrel (Forall_nil_2 _)).
  subst s2. cbn [employees departments projects companies files app].
  rewrite insert_app_r_alt, Nat.sub_diag by (subst prj; lia). reflexivity.
Qed.

Lemma load_projects_run (cnew : nat) cname ld copies staff ps :
  Forall (fun p => reloadable p = true) ps ->
  forall teams lp loaded s,
    length ps = length teams ->
    Forall (Forall (fun e => 0 < emp_id e)) teams ->
    Forall (fun team => NoDup (map emp_id team)) teams ->
    NoDup (map proj_id (loaded ++ ps)) ->
    companies s !! cnew = Some (mkCompany cname ld lp) ->
    departments_at s ld copies -> staff_at s copies staff ->
    projects_at s lp loaded ->
    Forall (fun r => (r < length (projects s))%nat) lp ->
    for_each (zip_with project_record ps teams) (Company.load_project cnew) s
    = (mkStore (employees s) (departments s)
         (projects s
          ++ zip_with (fun p team =>
                         Project.with_team (omap (holder_of copies staff) team) p)
               ps teams)
         (<[cnew := mkCompany cname ld (lp ++ seq (length (projects s)) (length ps))]>
            (companies s))
         (files s),
       Ret tt).
Proof.
  induction 1 as [|p ps Hv _ IH];
    intros teams lp loaded s Hlen Hpos Hnd Hids Hc Hds Hs Hlp Hbelow.
  - destruct teams; [| discriminate].
    cbn [zip_with for_each length seq]. rewrite !app_nil_r, (list_insert_id _ _ _ Hc).
    destruct s; reflexivity.
  - destruct teams as [|team teams]; [discriminate |].
    inversion Hpos as [|? ? Hteam Hpos']; subst.
    inversion Hnd as [|? ? Hnd1 Hnd']; subst.
    assert (Hother : Forall (fun q => proj_id q <> proj_id p) loaded).
    { rewrite map_app in Hids. apply NoDup_app in Hids as (_ & Hdisj & _).
      apply Forall_forall. intros q Hq E. apply (Hdisj (proj_id q)).
      - apply list_elem_of_In, in_map, list_elem_of_In, Hq.
      - rewrite E. simpl. left. }
    cbn [zip_with for_each].
    rewrite (bind_run _ _ _ _ _
               (load_project_run cnew cname ld lp copies staff loaded p team s
                  Hc Hds Hs Hlp Hbelow Hv Hother Hteam Hnd1)).
    set (p1 := Project.with_team (omap (holder_of copies staff) team) p).
    set (s1 := mkStore _ _ _ _ _).
    rewrite (IH teams (lp ++ [length (projects s)]) (loaded ++ [p1]) s1).
    + subst s1. cbn [employees departments projects companies files].
      cbn [length seq]. rewrite list_insert_insert_eq, !length_app. cbn [length].
      rewrite <- !app_assoc, Nat.add_1_r. reflexivity.
    + simpl in Hlen. lia.
    + exact Hpos'.
    + exact Hnd'.
    + rewrite <- app_assoc. cbn [app]. rewrite !map_app in *. cbn [map] in *.
      replace (proj_id p1) with (proj_id p) by (destruct p; reflexivity). exact Hids.
    + subst s1. cbn [companies]. apply list_lookup_insert_eq.
      eapply lookup_lt_Some. exact Hc.
    + exact Hds.
    + exact Hs.
    + subst s1. apply Forall2_app.
      * eapply Forall2_impl; [exact Hlp |]. intros r q Hr.
        cbn [projects]. apply lookup_app_l_Some, Hr.
      * constructor; [| constructor]. cbn [projects].
        apply list_lookup_middle. reflexivity.
    + subst s1. cbn [projects]. rewrite length_app. cbn [length].
      apply Forall_app. split.
      * eapply Forall_impl; [exact Hbelow |]. intros r Hr. simpl in Hr. lia.
      * constructor; [lia | constructor].
Qed.

Lemma department_copies_length first ds staff :
  length ds = length staff -> length (department_copies first ds staff) = length ds.
Proof.
  revert first staff. induction ds as [|d ds IH]; intros first [|es staff] Hlen;
    try discriminate; [reflexivity |].
  simpl. rewrite IH; [reflexivity | simpl in Hlen; lia].
Qed.

Lemma department_copies_names first ds staff :
  length ds = length staff ->
  map dept_name (department_copies first ds staff) = map dept_name ds.
Proof.
  revert first staff. induction ds as [|d ds IH]; intros first [|es staff] Hlen;
    try discriminate; [reflexivity |].
  simpl. rewrite IH; [reflexivity | simpl in Hlen; lia].
Qed.

Lemma staff_at_copies s ds :
  forall pre staff post,
    length ds = length staff ->
    employees s = pre ++ concat staff ++ post ->
    staff_at s (department_copies (length pre) ds staff) staff.
Proof.
  induction ds as [|d ds IH]; intros pre [|es staff] post Hlen Hs; try discriminate;
    [constructor |].
  cbn [department_copies]. constructor.
  - cbn [dept_employees]. unfold employees_at. rewrite Hs. cbn [concat].
    rewrite <- app_assoc. apply lookup_seq_block.
  - rewrite <- length_app. apply (IH (pre ++ es) staff post).
    + simpl in Hlen. lia.
    + rewrite Hs. cbn [concat]. rewrite <- !app_assoc. reflexivity.
Qed.

Lemma first_holder_value s l es z :
  employees_at s l es ->
  match first_holder (VNum (PInt z)) l es with
  | Some r => exists m, List.find (fun m => emp_id m =? z) es = Some m
                        /\ employees s !! r = Some m
  | None => List.find (fun m => emp_id m =? z) es = None
  end.
Proof.
  induction 1 as [|r e l es Hr _ IH]; [reflexivity |].
  cbn [first_holder List.find]. rewrite eq_int_int.
  destruct (emp_id e =? z); [exists e; split; [reflexivity | exact Hr] | exact IH].
Qed.

Lemma relinked_values s copies staff team :
  staff_at s copies staff ->
  employees_at s (omap (holder_of copies staff) team)
    (omap (same_id_in (concat staff)) team).
Proof.
  intros Hs. apply staff_at_concat in Hs.
  induction team as [|e team IH]; [constructor |].
  cbn [omap list_omap]. unfold holder_of at 1, same_id_in at 1.
  pose proof (first_holder_value s _ _ (emp_id e) Hs) as H.
  destruct (first_holder _ _ _) as [r|].
  - destruct H as (m & -> & Hr). constructor; [exact Hr | exact IH].
  - rewrite H. exact IH.
Qed.

Lemma relinked_scalars copies staff ps teams :
  length ps = length teams ->
  map (Project.with_team [])
    (zip_with (fun p team =>
                 Project.with_team (omap (holder_of copies staff) team) p) ps teams)
  = map (Project.with_team []) ps.
Proof.
  revert teams. induction ps as [|p ps IH]; intros [|team teams] Hlen;
    try discriminate; [reflexivity |].
  cbn [zip_with map]. rewrite IH by (simpl in Hlen; lia).
  destruct p; reflexivity.
Qed.

Lemma relinked_teams s copies staff ps teams :
  length ps = length teams -> staff_at s copies staff ->
  teams_at s
    (zip_with (fun p team =>
                 Project.with_team (omap (holder_of copies staff) team) p) ps teams)
    (map (omap (same_id_in (concat staff))) teams).
Proof.
  intros Hlen Hs. revert teams Hlen.
  induction ps as [|p ps IH]; intros [|team teams] Hlen; try discriminate;
    [constructor |].
  cbn [zip_with map]. constructor; [| apply IH; simpl in Hlen; lia].
  destruct p. unfold Project.with_team. cbn.
  apply relinked_values, Hs.
Qed.

Lemma load_from_json_run c ds staff ps teams filename s :
  length ds = length staff -> length ps = length teams ->
  Py.blank (comp_name c) = false ->
  Forall (fun d => Py.blank (dept_name d) = false) ds ->
  Forall (Forall (fun e => valid_employee e = true)) staff ->
  Forall (fun es => NoDup (map emp_id es)) staff ->
  Forall (fun p => reloadable p = true) ps ->
  NoDup (map proj_id ps) ->
  Forall (Forall (fun e => 0 < emp_id e)) teams ->
  Forall (fun team => NoDup (map emp_id team)) teams ->
  file_get filename (files s) = Some (JsonFile (company_record c ds staff ps teams)) ->
  Company.load_from_json filename s
  = (mkStore (employees s ++ concat staff)
       (departments s ++ department_copies (length (employees s)) ds staff)
       (projects s
        ++ zip_with
             (fun p team =>
                Project.with_team
                  (omap (holder_of (department_copies (length (employees s)) ds staff)
                           staff) team) p)
             ps teams)
       (companies s
        ++ [mkCompany (comp_name c) (seq (length (departments s)) (length ds))
              (seq (length (projects s)) (length ps))])
       (files s),
     Ret (length (companies s))).
Proof.
  intros Hlen Hlen' Hname Hdn Hvalid Hnd Hpv Hpid Hpos Hteams Hfile.
  set (cnew := length (companies s)).
  set (copies := department_copies (length (employees s)) ds staff).
  set (s1 := mkStore (employees s) (departments s) (projects s)
               (companies s ++ [mkCompany (comp_name c) [] []]) (files s)).
  assert (Hload : json_load filename s
                  = (s, Ret (company_record c ds staff ps teams)))
    by (unfold json_load; rewrite Hfile; reflexivity).
  assert (Hinit : Company.__init__ (VStr (comp_name c)) s = (s1, Ret cnew))
    by (unfold Company.__init__, bind, lift; rewrite Hname; reflexivity).
  assert (Hc1 : companies s1 !! cnew = Some (mkCompany (comp_name c) [] []))
    by (apply list_lookup_middle; reflexivity).
  pose proof (load_departments_run cnew (comp_name c) [] ds Hdn staff [] s1 Hlen
                Hvalid Hnd Hc1 (Forall_nil_2 _)) as Hdepts.
  set (s2 := mkStore _ _ _ _ _) in Hdepts.
  assert (Hc2 : companies s2 !! cnew
                = Some (mkCompany (comp_name c)
                          (seq (length (departments s)) (length ds)) [])).
  { subst s2. cbn [companies app]. apply list_lookup_insert_eq.
    eapply lookup_lt_Some. exact Hc1. }
  assert (Hds2 : departments_at s2 (seq (length (departments s)) (length ds)) copies).
  { subst s2. cbn [departments]. unfold departments_at.
    pose proof (lookup_seq_block (departments s) copies []) as H.
    rewrite app_nil_r in H. subst copies.
    rewrite department_copies_length in H by exact Hlen. exact H. }
  assert (Hs2 : staff_at s2 copies staff).
  { apply (staff_at_copies s2 ds (employees s) staff [] Hlen).
    subst s2. cbn [employees]. rewrite app_nil_r. reflexivity. }
  pose proof (load_projects_run cnew (comp_name c) _ copies staff ps Hpv teams [] [] s2
                Hlen' Hpos Hteams Hpid Hc2 Hds2 Hs2 (Forall2_nil_2 _ _ _)
                (Forall_nil_2 _)) as Hprojs.
  unfold Company.load_from_json.
  rewrite (bind_run _ _ _ _ _ Hload).
  rewrite (bind_run (lift _) _ s s (VStr (comp_name c)) eq_refl).
  rewrite (bind_run _ _ _ _ _ Hinit).
  rewrite (bind_run (lift _) _ s1 s1 (zip_with department_record ds staff) eq_refl).
  rewrite (bind_run _ _ _ _ _ Hdepts).
  rewrite (bind_run (lift _) _ s2 s2 (zip_with project_record ps teams) eq_refl).
  rewrite (bind_run _ _ _ _ _ Hprojs).
  subst s2 s1. cbn [employees departments projects companies files app ret].
  rewrite list_insert_insert_eq, insert_app_r_alt, Nat.sub_diag by (subst cnew; lia).
  reflexivity.
Qed.

(** What loading the file of a saved company gives. *)
Lemma load_from_json_loads c ds staff ps teams filename s :
  length ds = length staff -> length ps = length teams ->
  Py.blank (comp_name c) = false ->
  Forall (fun d => Py.blank (dept_name d) = false) ds ->
  Forall (Forall (fun e => valid_employee e = true)) staff ->
  Forall (fun es => NoDup (map emp_id es)) staff ->
  Forall (fun p => reloadable p = true) ps ->
  NoDup (map proj_id ps) ->
  Forall (Forall (fun e => 0 < emp_id e)) teams ->
  Forall (fun team => NoDup (map emp_id team)) teams ->
  file_get filename (files s) = Some (JsonFile (company_record c ds staff ps teams)) ->
  exists s2 copy c' ds' ps',
    Company.load_from_json filename s = (s2, Ret copy) /\
    copy = length (companies s) /\
    companies s2 !! copy = Some c' /\
    comp_name c' = comp_name c /\
    departments_at s2 (comp_departments c') ds' /\
    map dept_name ds' = map dept_name ds /\
    staff_at s2 ds' staff /\
    projects_at s2 (comp_projects c') ps' /\
    map (Project.with_team []) ps' = map (Project.with_team []) ps /\
    teams_at s2 ps' (map (omap (same_id_in (concat staff))) teams).
Proof.
  intros Hlen Hlen' Hname Hdn Hvalid Hnd Hpv Hpid Hpos Hteams Hfile.
  pose proof (load_from_json_run c ds staff ps teams filename s Hlen Hlen' Hname Hdn
                Hvalid Hnd Hpv Hpid Hpos Hteams Hfile) as Hload.
  set (copies := department_copies (length (employees s)) ds staff) in Hload.
  set (s2 := mkStore _ _ _ _ _) in Hload.
  assert (Hs2 : staff_at s2 copies staff).
  { apply (staff_at_copies s2 ds (employees s) staff [] Hlen).
    subst s2. cbn [employees]. rewrite app_nil_r. reflexivity. }
  exists s2, (length (companies s)). eexists. exists copies. eexists.
  split; [exact Hload |]. split; [reflexivity |].
  split; [apply list_lookup_middle; reflexivity |].
  split; [reflexivity |].
  split.
  { cbn [comp_departments]. subst s2. cbn [departments]. unfold departments_at.
    pose proof (lookup_seq_block (departments s) copies []) as H.
    rewrite app_nil_r in H. subst copies.
    rewrite department_copies_length in H by exact Hlen. exact H. }
  split; [apply department_copies_names, Hlen |].
  split; [exact Hs2 |].
  assert (Hzl : length (zip_with
                          (fun p team =>
                             Project.with_team (omap (holder_of copies staff) team) p)
                          ps teams) = length ps).
  { rewrite length_zip_with. lia. }
  split.
  { cbn [comp_projects]. subst s2. cbn [projects]. unfold projects_at.
    pose proof (lookup_seq_block (projects s)
                  (zip_with (fun p team =>
                               Project.with_team (omap (holder_of copies staff) team) p)
                     ps teams) []) as H.
    rewrite app_nil_r, Hzl in H. exact H. }
  split; [apply relinked_scalars, Hlen' |].
  apply relinked_teams; assumption.
Qed.

(** The members that are relinked have the ids of team records that a
    department holds. *)
Lemma relinked_ids s team members (staff : list employee) (e : employee) :
  employees_at s team (omap (same_id_in staff) members) ->
  same_id_in staff e = None ->
  forall r m, In r team -> employees s !! r = Some m -> emp_id m <> emp_id e.
Proof.
  intros Hteam Hnone r m Hr Hm Hid.
  apply list_elem_of_In, list_elem_of_lookup_1 in Hr as [i Hi].
  destruct (Forall2_lookup_l _ _ _ _ _ Hteam Hi) as (m' & Hm' & Hlook).
  assert (m' = m) by congruence. subst m'.
  apply list_elem_of_lookup_2, list_elem_of_omap in Hm' as (e' & _ & He').
  unfold same_id_in in He', Hnone.
  apply find_some in He' as [Hin _].
  pose proof (find_none _ _ Hnone m Hin) as Hne. simpl in Hne.
  apply Z.eqb_neq in Hne. exact (Hne Hid).
Qed.

(** C9.  Loading the file of a saved company returns the company, with its
    name, its departments and their members, and its projects.  The team
    of each loaded project holds, for each team record of the file in
    order, the first member of the loaded departments that has the id of
    the record; a record whose id no department holds is skipped, so that
    no member of the loaded team has its id, and nothing is raised for it.
    The file is that of a company whose names are not blank, whose
    department members satisfy their class invariant with pairwise
    distinct ids within a department, whose projects are valid with
    deadlines from the year 1000 on and pairwise distinct ids, and whose
    team members have positive ids, pairwise distinct within a team. *)
Theorem unresolved_team_member_is_skipped
    (c : company) (ds : list department) (staff : list (list employee))
    (ps : list project) (teams : list (list employee)) (filename : string)
    (s : store) :
  length ds = length staff -> length ps = length teams ->
  Py.blank (comp_name c) = false ->
  Forall (fun d => Py.blank (dept_name d) = false) ds ->
  Forall (Forall (fun e => valid_employee e = true)) staff ->
  Forall (fun es => NoDup (map emp_id es)) staff ->
  Forall (fun p => reloadable p = true) ps ->
  NoDup (map proj_id ps) ->
  Forall (Forall (fun e => 0 < emp_id e)) teams ->
  Forall (fun team => NoDup (map emp_id team)) teams ->
  file_get filename (files s) = Some (JsonFile (company_record c ds staff ps teams)) ->
  exists s' copy c' ds' ps',
    Company.load_from_json filename s = (s', Ret copy) /\
    companies s' !! copy = Some c' /\
    comp_name c' = comp_name c /\
    departments_at s' (comp_departments c') ds' /\
    map dept_name ds' = map dept_name ds /\
    staff_at s' ds' staff /\
    projects_at s' (comp_projects c') ps' /\
    map (Project.with_team []) ps' = map (Project.with_team []) ps /\
    teams_at s' ps' (map (omap (same_id_in (concat staff))) teams) /\
    Forall2 (fun p' team =>
               forall e, In e team -> same_id_in (concat staff) e = None ->
               forall r m, In r (proj_team p') -> employees s' !! r = Some m ->
                           emp_id m <> emp_id e)
      ps' teams.
Proof.
  intros Hlen Hlen' Hname Hdn Hvalid Hnd Hpv Hpid Hpos Hteams Hfile.
  destruct (load_from_json_loads c ds staff ps teams filename s Hlen Hlen' Hname Hdn
              Hvalid Hnd Hpv Hpid Hpos Hteams Hfile)
    as (s' & copy & c' & ds' & ps' & Hload & _ & Hc & Hn & Hds & Hdn' & Hs & Hps
        & Hscalars & Ht).
  exists s', copy, c', ds', ps'. repeat (split; [assumption |]).
  unfold teams_at in Ht. apply Forall2_fmap_r in Ht.
  eapply Forall2_impl; [exact Ht |]. intros p' team Hteam e _ Hnone.
  exact (relinked_ids s' _ team (concat staff) e Hteam Hnone).
Qed.

Lemma unresolved_team_member_is_skipped_witness :
  exists s' copy c' ds' ps',
    Company.load_from_json "company.json" (disk zed_file) = (s', Ret copy) /\
    companies s' !! copy = Some c' /\
    comp_name c' = comp_name acme_company /\
    departments_at s' (comp_departments c') ds' /\
    map dept_name ds' = map dept_name [dev] /\
    staff_at s' ds' [[ann; bob]] /\
    projects_at s' (comp_projects c') ps' /\
    map (Project.with_team []) ps' = map (Project.with_team []) [site_project] /\
    teams_at s' ps' (map (omap (same_id_in (concat [[ann; bob]]))) [[ann; zed; bob]]) /\
    Forall2 (fun p' team =>
               forall e, In e team -> same_id_in (concat [[ann; bob]]) e = None ->
               forall r m, In r (proj_team p') -> employees s' !! r = Some m ->
                           emp_id m <> emp_id e)
      ps' [[ann; zed; bob]].
Proof.
  refine (unresolved_team_member_is_skipped acme_company [dev] [[ann; bob]]
            [site_project] [[ann; zed; bob]] "company.json" (disk zed_file)
            eq_refl eq_refl eq_refl _ _ _ _ _ _ _ eq_refl);
    repeat first [ apply Forall_nil_2 | apply Forall_cons_2
                 | apply Forall2_nil_2 | apply Forall2_cons_2 | reflexivity
                 | (apply (bool_decide_unpack _); vm_compute; exact I) ].
Defined.

(** The team that is loaded from [zed_file] holds Ann and Bob. *)
Example load_skips_zed :
  exists s',
    Company.load_from_json "company.json" (disk zed_file) = (s', Ret 0%nat) /\
    proj_team <$> projects s' !! 0%nat = Some [0; 1]%nat /\
    employees s' = [ann; bob].
Proof. eexists. vm_compute. repeat split; reflexivity. Qed.



(** ** Team members of a project *)

Lemma remove_team_member_run self p team employee_id s :
  projects s !! self = Some p ->
  employees_at s (proj_team p) team ->
  (Forall (fun e => Py.eq_int (emp_id e) employee_id = false) team ->
   Project.remove_team_member self employee_id s = (s, Raise ValueError)) /\
  (forall l1 r l2 es1 e es2,
      proj_team p = l1 ++ r :: l2 -> team = es1 ++ e :: es2 ->
      length l1 = length es1 ->
      Forall (fun e' => Py.eq_int (emp_id e') employee_id = false) es1 ->
      Py.eq_int (emp_id e) employee_id = true ->
      Project.remove_team_member self employee_id s
      = (mkStore (employees s) (departments s)
           (<[self := Project.with_team (l1 ++ l2) p]> (projects s))
           (companies s) (files s),
         Ret tt)).
Proof.
  intros Hp Hteam. split.
  - intros Hnone.
    unfold Project.remove_team_member, bind at 1, Project.find_team_member, bind at 1,
      read_project.
    rewrite Hp. simpl.
    rewrite (first_with_id_none s _ team employee_id Hteam Hnone). reflexivity.
  - intros l1 r l2 es1 e es2 Hl -> Hlen Hb He. rewrite Hl in Hteam.
    unfold Project.remove_team_member, bind at 1, Project.find_team_member, bind at 1,
      read_project.
    rewrite Hp. simpl. rewrite Hl.
    rewrite (first_with_id_some s l1 r l2 es1 e es2 employee_id Hlen Hteam Hb He).
    unfold bind at 1, read_project. rewrite Hp. simpl. unfold bind. rewrite Hl.
    rewrite (list_remove_run s l1 r l2 es1 e es2 Hlen Hteam); [reflexivity |].
    eapply Forall_impl; [exact Hb |]. intros e' He'.
    apply (eq_int_same_id _ _ employee_id He He').
Qed.

(** X24.  [remove_team_member] takes out of the team the first member
    whose id equals the given one and leaves the others in their order,
    the other fields of the project as they are; when no member has that id
    it raises [ValueError] and changes nothing. *)
Theorem remove_team_member_takes_the_first_match
    (self : pref) (p : project) (team : list employee)
    (employee_id : pyval) (s : store) :
  projects s !! self = Some p ->
  employees_at s (proj_team p) team ->
  (Forall (fun e => Py.eq_int (emp_id e) employee_id = false) team ->
   Project.remove_team_member self employee_id s = (s, Raise ValueError)) /\
  (forall l1 r l2 es1 e es2,
      proj_team p = l1 ++ r :: l2 -> team = es1 ++ e :: es2 ->
      length l1 = length es1 ->
      Forall (fun e' => Py.eq_int (emp_id e') employee_id = false) es1 ->
      Py.eq_int (emp_id e) employee_id = true ->
      Project.remove_team_member self employee_id s
      = (mkStore (employees s) (departments s)
           (<[self := Project.with_team (l1 ++ l2) p]> (projects s))
           (companies s) (files s),
         Ret tt)).
Proof. apply remove_team_member_run. Qed.

Lemma remove_team_member_takes_the_first_match_witness :
  Project.remove_team_member 1%nat (VInt 9) acme
  = (mkStore (employees acme) (departments acme)
       (<[1%nat := Project.with_team [0%nat] app_project]> (projects acme))
       (companies acme) (files acme),
     Ret tt).
Proof.
  refine (proj2 (remove_team_member_takes_the_first_match 1%nat app_project
                   [ann; bob] (VInt 9) acme eq_refl _)
            [0%nat] 1%nat [] [ann] bob [] eq_refl eq_refl eq_refl _ eq_refl);
    repeat constructor.
Defined.

(** ** The skills of a developer *)

Lemma add_skill_run (self : nat) skill e stack level s :
  employees s !! self = Some e ->
  emp_class_of e = IsDeveloper stack level ->
  Py.blank skill = false ->
  Developer.add_skill self (VStr skill) s
  = if existsb (String.eqb skill) stack then (s, Ret tt)
    else (mkStore (<[self := with_class (IsDeveloper (stack ++ [skill]) level) e]>
                     (employees s))
            (departments s) (projects s) (companies s) (files s),
          Ret tt).
Proof.
  intros He Hclass Hskill. unfold Developer.add_skill, bind at 1, lift.
  rewrite Hskill. unfold bind, read_employee.
  replace (employees s !! self) with (Some e) by (symmetry; exact He).
  cbn [of_option ret]. rewrite Hclass.
  destruct (existsb _ stack); reflexivity.
Qed.

Lemma existsb_eqb_In skill stack :
  existsb (String.eqb skill) stack = true <-> In skill stack.
Proof.
  rewrite existsb_exists. split.
  - intros (x & Hx & E). apply String.eqb_eq in E. subst. exact Hx.
  - intros H. exists skill. split; [exact H | apply String.eqb_refl].
Qed.

(** X25.  [add_skill] with a skill that is not blank never fails on a
    developer: a skill that the stack holds leaves the stack as it is, a
    new one is put at its end.  Afterwards the stack holds the skill, a
    stack without repetitions is still without repetitions, and adding the
    same skill again changes nothing. *)
Theorem add_skill_adds_once
    (self : eref) (skill : string) (e : employee) (stack : list string)
    (level : string) (s : store) :
  employees s !! self = Some e ->
  emp_class_of e = IsDeveloper stack level ->
  Py.blank skill = false ->
  exists s1 stack1,
    Developer.add_skill self (VStr skill) s = (s1, Ret tt) /\
    employees s1 !! self = Some (with_class (IsDeveloper stack1 level) e) /\
    (stack1 = if existsb (String.eqb skill) stack then stack else stack ++ [skill]) /\
    In skill stack1 /\
    (NoDup stack -> NoDup stack1) /\
    Developer.add_skill self (VStr skill) s1 = (s1, Ret tt).
Proof.
  intros He Hclass Hskill.
  rewrite (add_skill_run self skill e stack level s He Hclass Hskill).
  destruct (existsb (String.eqb skill) stack) eqn:E.
  - exists s, stack. split; [reflexivity |]. split.
    { rewrite He. f_equal. destruct e as [i n d b c]. simpl in *. subst c. reflexivity. }
    split; [reflexivity |]. split; [apply existsb_eqb_In, E |].
    split; [auto |].
    rewrite (add_skill_run self skill e stack level s He Hclass Hskill), E.
    reflexivity.
  - set (s1 := mkStore (<[self := with_class (IsDeveloper (stack ++ [skill]) level) e]>
                           (employees s))
                 (departments s) (projects s) (companies s) (files s)).
    exists s1, (stack ++ [skill]). split; [reflexivity |].
    assert (Hnew : employees s1 !! self
                   = Some (with_class (IsDeveloper (stack ++ [skill]) level) e)).
    { apply list_lookup_insert_eq. eapply lookup_lt_Some. exact He. }
    split; [exact Hnew |]. split; [reflexivity |].
    split; [apply in_or_app; right; left; reflexivity |].
    split.
    { intros Hnd. apply NoDup_app. split; [exact Hnd |].
      split; [| apply NoDup_singleton].
      intros x Hx Hx'. apply list_elem_of_singleton in Hx'. subst x.
      apply list_elem_of_In, existsb_eqb_In in Hx. congruence. }
    rewrite (add_skill_run self skill _ (stack ++ [skill]) level s1 Hnew eq_refl Hskill).
    replace (existsb _ (stack ++ [skill])) with true; [reflexivity |].
    symmetry. apply existsb_eqb_In, in_or_app. right. left. reflexivity.
Qed.

Lemma add_skill_adds_once_witness :
  exists s1 stack1,
    Developer.add_skill 1%nat (VStr "Rocq") acme = (s1, Ret tt) /\
    employees s1 !! 1%nat = Some (with_class (IsDeveloper stack1 "senior") bob) /\
    (stack1 = if existsb (String.eqb "Rocq") ["Python"] then ["Python"]
              else ["Python"] ++ ["Rocq"]) /\
    In "Rocq" stack1 /\
    (NoDup ["Python"] -> NoDup stack1) /\
    Developer.add_skill 1%nat (VStr "Rocq") s1 = (s1, Ret tt).
Proof.
  apply (add_skill_adds_once 1%nat "Rocq" bob ["Python"] "senior" acme);
    reflexivity.
Defined.

(** ** Comparing employees *)

Lemma ltb_irrefl a : Num.ltb a a = false.
Proof. apply ltb_not_lt, lt_irrefl. Qed.

Lemma ltb_asym a b : Num.ltb a b = true -> Num.ltb b a = false.
Proof. intros H. apply ltb_lt in H. apply ltb_not_lt, lt_asym, H. Qed.

(** X26.  [compare_by_salary] orders two employees as [<] does: it
    returns -1 exactly when the first is less than the second, 1 exactly
    when the second is less than the first, and 0 otherwise; exchanging the
    arguments negates the result. *)
Theorem compare_by_salary_agrees_with_lt (a b : employee) (sa sb : pynum) :
  calculate_salary a = Ret sa -> calculate_salary b = Ret sb ->
  exists r r',
    compare_by_salary a b = Ret r /\ compare_by_salary b a = Ret r' /\
    r' = - r /\
    (r = -1 <-> __lt__ a b = Ret true) /\
    (r = 1 <-> __lt__ b a = Ret true) /\
    (r = 0 <-> __lt__ a b = Ret false /\ __lt__ b a = Ret false).
Proof.
  intros Ha Hb. unfold compare_by_salary, __lt__. rewrite Ha, Hb. cbn [obind].
  eexists _, _. split; [reflexivity |]. split; [reflexivity |].
  destruct (Num.ltb sa sb) eqn:E1.
  - rewrite (ltb_asym sa sb E1).
    repeat split; intros; try reflexivity; try discriminate; try lia.
    destruct H; discriminate.
  - destruct (Num.ltb sb sa) eqn:E2;
      repeat split; intros; try reflexivity; try discriminate; try lia.
    destruct H; discriminate.
Qed.

Lemma compare_by_salary_agrees_with_lt_witness :
  exists r r',
    compare_by_salary ann bob = Ret r /\ compare_by_salary bob ann = Ret r' /\
    r' = - r /\
    (r = -1 <-> __lt__ ann bob = Ret true) /\
    (r = 1 <-> __lt__ bob ann = Ret true) /\
    (r = 0 <-> __lt__ ann bob = Ret false /\ __lt__ bob ann = Ret false).
Proof.
  apply (compare_by_salary_agrees_with_lt ann bob (PInt 90000) (Num.ratio 100000 1));
    reflexivity.
Defined.

(** ** Counting the members of a department by class *)

Lemma type_count_get_set k k' n counts :
  type_count_get k (type_count_set k' n counts)
  = if String.eqb k k' then n else type_count_get k counts.
Proof.
  induction counts as [|[k0 n0] counts IH]; simpl.
  - reflexivity.
  - destruct (String.eqb k' k0) eqn:E'; simpl.
    + apply String.eqb_eq in E'. subst k0.
      destruct (String.eqb k k'); reflexivity.
    + destruct (String.eqb k k0) eqn:E0.
      * apply String.eqb_eq in E0. subst k0.
        rewrite String.eqb_sym, E'. reflexivity.
      * exact IH.
Qed.

Lemma type_count_set_keys k n counts x :
  In x (map fst (type_count_set k n counts)) <-> x = k \/ In x (map fst counts).
Proof.
  induction counts as [|[k0 n0] counts IH]; simpl.
  - intuition.
  - destruct (String.eqb k k0) eqn:E; simpl.
    + apply String.eqb_eq in E. subst k0. intuition.
    + rewrite IH. intuition.
Qed.

Lemma count_types_run s l es :
  employees_at s l es ->
  forall counts,
    exists result,
      count_types l counts s = (s, Ret result) /\
      (forall k, type_count_get k result
                 = type_count_get k counts
                   + Z.of_nat (length (List.filter (fun e => String.eqb k (class_name e)) es))) /\
      (forall k, In k (map fst result)
                 <-> In k (map fst counts) \/ In k (map class_name es)).
Proof.
  induction 1 as [|r e l es Hr _ IH]; intros counts.
  - exists counts. split; [reflexivity |]. split; intros k; simpl; [lia | tauto].
  - destruct (IH (type_count_set (class_name e)
                    (type_count_get (class_name e) counts + 1) counts))
      as (result & Hrun & Hget & Hkeys).
    exists result. split; [| split].
    + cbn [count_types]. unfold bind, read_employee. rewrite Hr. exact Hrun.
    + intros k. rewrite Hget, type_count_get_set. cbn [List.filter].
      destruct (String.eqb k (class_name e)) eqn:E.
      * apply String.eqb_eq in E. subst k. cbn [length]. lia.
      * lia.
    + intros k. rewrite Hkeys, type_count_set_keys. simpl. intuition.
Qed.

(** X28.  [get_employee_count] gives, for every class name, the number of
    members of the department whose class has that name (read with
    [counts.get(name, 0)]), and its keys are the class names of the
    members. *)
Theorem employee_count_by_class
    (self : dref) (d : department) (es : list employee) (s : store) :
  departments s !! self = Some d -> employees_at s (dept_employees d) es ->
  exists counts,
    get_employee_count self s = (s, Ret counts) /\
    (forall k, type_count_get k counts
               = Z.of_nat (length (List.filter (fun e => String.eqb k (class_name e)) es))) /\
    (forall k, In k (map fst counts) <-> In k (map class_name es)).
Proof.
  intros Hd Hes. destruct (count_types_run s _ es Hes []) as (result & Hrun & Hget & Hkeys).
  exists result. split; [| split].
  - unfold get_employee_count, bind, read_department. rewrite Hd. exact Hrun.
  - intros k. rewrite Hget. reflexivity.
  - intros k. rewrite Hkeys. simpl. tauto.
Qed.

Lemma employee_count_by_class_witness :
  exists counts,
    get_employee_count 0%nat acme = (acme, Ret counts) /\
    (forall k, type_count_get k counts
               = Z.of_nat (length (List.filter (fun e => String.eqb k (class_name e))
                                     [ann; bob]))) /\
    (forall k, In k (map fst counts) <-> In k (map class_name [ann; bob])).
Proof.
  apply (employee_count_by_class 0%nat dev [ann; bob] acme);
    [reflexivity | repeat constructor].
Defined.

(** ** Projects by status *)

Lemma projects_with_status_run s l ps status :
  projects_at s l ps ->
  exists res,
    Company.projects_with_status l status s = (s, Ret res) /\
    forall r, In r res <->
              exists q, In r l /\ projects s !! r = Some q
                        /\ Py.eq_str status (proj_status q) = true.
Proof.
  induction 1 as [|r0 q0 l ps Hr _ (res & Hrun & Hres)].
  - exists []. split; [reflexivity |]. intros r. split; [intros [] |].
    intros (q & [] & _).
  - exists (if Py.eq_str status (proj_status q0) then r0 :: res else res). split.
    + cbn [Company.projects_with_status]. unfold bind at 1, read_project.
      rewrite Hr. simpl. unfold bind. rewrite Hrun. reflexivity.
    + intros r. destruct (Py.eq_str status (proj_status q0)) eqn:E.
      * simpl. rewrite Hres. split.
        -- intros [<- | (q & Hin & Hq & Hst)]; [exists q0; auto |].
           exists q. auto.
        -- intros (q & [<- | Hin] & Hq & Hst); [left; reflexivity |].
           right. exists q. auto.
      * rewrite Hres. split.
        -- intros (q & Hin & Hq & Hst). exists q. simpl. auto.
        -- intros (q & [<- | Hin] & Hq & Hst).
           ++ rewrite Hr in Hq. injection Hq as <-. congruence.
           ++ exists q. auto.
Qed.

Lemma projects_at_after_write s (prj : nat) x l ps :
  projects_at s l ps ->
  exists ps1,
    Forall2 (fun r q => <[prj := x]> (projects s) !! r = Some q) l ps1.
Proof.
  induction 1 as [|r q l ps Hr _ (ps1 & IH)]; [exists []; constructor |].
  destruct (decide (r = prj)) as [-> | Hne].
  - exists (x :: ps1). constructor; [| exact IH].
    apply list_lookup_insert_eq. eapply lookup_lt_Some. exact Hr.
  - exists (q :: ps1). constructor; [| exact IH].
    rewrite list_lookup_insert_ne by (intros E; apply Hne; symmetry; exact E). exact Hr.
Qed.

(** X29.  After [change_status] has put a project of the company into a
    status, [get_projects_by_status] lists the project under that status
    and under no other. *)
Theorem project_is_listed_under_its_new_status
    (self : cref) (c : company) (ps : list project) (prj : pref)
    (new_status : pyval) (s s1 : store) :
  companies s !! self = Some c ->
  projects_at s (comp_projects c) ps ->
  In prj (comp_projects c) ->
  Project.change_status prj new_status s = (s1, Ret tt) ->
  forall status,
    exists res,
      Company.get_projects_by_status self status s1 = (s1, Ret res) /\
      (In prj res <-> status = new_status).
Proof.
  intros Hc Hps Hin Hrun status.
  unfold Project.change_status, bind at 1, lift in Hrun.
  destruct (Project._validate_status new_status) as [st|] eqn:Est; [| discriminate].
  assert (Hnew : new_status = VStr st).
  { unfold Project._validate_status in Est. destruct new_status; try discriminate.
    destruct (existsb _ _); [| discriminate]. injection Est as <-. reflexivity. }
  destruct (projects_at_In s _ ps prj Hps Hin) as (p & Hp & _).
  unfold bind, read_project in Hrun. rewrite Hp in Hrun. simpl in Hrun.
  injection Hrun as <-.
  destruct (projects_at_after_write s prj (Project.with_status st p) _ ps Hps)
    as (ps1 & Hps1).
  set (s1 := mkStore _ _ _ _ _).
  destruct (projects_with_status_run s1 _ ps1 status Hps1) as (res & Hres & Hmem).
  exists res. split.
  - unfold Company.get_projects_by_status, bind, read_company.
    change (companies s1) with (companies s). rewrite Hc. exact Hres.
  - rewrite Hmem. subst new_status. split.
    + intros (q & _ & Hq & Hst). subst s1. cbn [projects] in Hq.
      rewrite list_lookup_insert_eq in Hq by (eapply lookup_lt_Some; exact Hp).
      injection Hq as <-. destruct status; try discriminate.
      apply String.eqb_eq in Hst. cbn in Hst. subst. reflexivity.
    + intros ->. exists (Project.with_status st p). split; [exact Hin |]. split.
      * subst s1. cbn [projects]. apply list_lookup_insert_eq.
        eapply lookup_lt_Some. exact Hp.
      * apply String.eqb_refl.
Qed.

Lemma project_is_listed_under_its_new_status_witness :
  exists res,
    Company.get_projects_by_status 0%nat (VStr "completed")
      (fst (Project.change_status 2%nat (VStr "active") acme))
    = (fst (Project.change_status 2%nat (VStr "active") acme), Ret res) /\
    (In 2%nat res <-> VStr "completed" = VStr "active").
Proof.
  refine (project_is_listed_under_its_new_status 0%nat acme_company
            [site_project; app_project; audit_project] 2%nat (VStr "active") acme _
            eq_refl _ _ eq_refl (VStr "completed")).
  - repeat constructor.
  - simpl. tauto.
Defined.
